(** * News-RAG-Retriever: the retrieval decision engine

    A shallow embedding of [project/rag/retriever.py] and the properties of
    its [retrieve] function.

    Modelling conventions.
    - A Python [str] is a list of Unicode code points ([list N]).
    - A Python [float] distance or score is a finite value, taken as an
      exact rational, an infinity, or NaN; comparisons with NaN are false.
      Rounding is outside the model.  The threshold a caller passes is a
      finite value.
    - The OpenAI and Chroma clients are collaborators: functions handed to
      [retrieve], each of which may raise.  The calls made are logged in a
      trace threaded through a small state-and-exception monad.
    - [list.sort(key=..., reverse=True)] is CPython's algorithm (3.11) for
      lists of fewer than 64 elements: the list is reversed, its first
      natural run is found, the rest is put in place by binary insertion,
      and the list is reversed again.  With keys that are all comparable this is the
      stable descending sort, for a list of any length; a NaN key breaks
      that. *)

From Stdlib Require Import List Bool Arith ZArith NArith QArith Lia.
From Stdlib Require Import Strings.String Strings.Ascii.
From Stdlib Require Import Sorting.Sorted Sorting.Permutation.
From Stdlib Require Import DecimalString.
Import ListNotations.

Local Open Scope N_scope.

(** ** Python strings *)

Module PyStr.

(** A [str] value: its code points in order. *)
Definition str := list N.

(** Embedding of an ASCII literal. *)
Fixpoint of_string (s : string) : str :=
  match s with
  | EmptyString => []
  | String a s' => N_of_ascii a :: of_string s'
  end.

(** [ch.isspace()] for one code point, the table CPython consults for
    [str.strip()] and [str.split()] without arguments. *)
Definition isspace (c : N) : bool :=
  ((9 <=? c) && (c <=? 13))
  || ((28 <=? c) && (c <=? 32))
  || (c =? 133) || (c =? 160) || (c =? 5760)
  || ((8192 <=? c) && (c <=? 8202))
  || (c =? 8232) || (c =? 8233) || (c =? 8239) || (c =? 8287)
  || (c =? 12288).

(** [s.lstrip()] *)
Fixpoint lstrip (s : str) : str :=
  match s with
  | [] => []
  | c :: s' => if isspace c then lstrip s' else s
  end.

(** [s.rstrip()] *)
Definition rstrip (s : str) : str := rev (lstrip (rev s)).

(** [s.strip()] *)
Definition strip (s : str) : str := rstrip (lstrip s).

(** The scanning loop of [s.split()]: [cur] holds the word being read,
    most recent code point first. *)
Fixpoint split_from (cur : str) (s : str) : list str :=
  match s with
  | [] => match cur with [] => [] | _ :: _ => [rev cur] end
  | c :: s' =>
      if isspace c then
        match cur with
        | [] => split_from [] s'
        | _ :: _ => rev cur :: split_from [] s'
        end
      else split_from (c :: cur) s'
  end.

(** [s.split()] *)
Definition split (s : str) : list str := split_from [] s.

(** Truth value of a string: [bool(s)]. *)
Definition truthy (s : str) : bool :=
  match s with [] => false | _ :: _ => true end.

End PyStr.

Import PyStr.

Local Close Scope N_scope.

(** ** Python floats *)

Module PyFloat.

(** A [float], up to rounding: a finite value, an infinity, or NaN. *)
Inductive float : Type :=
| Fin (q : Q)
| PInf
| NInf
| NaN.

Coercion Fin : Q >-> float.

(** [x <= y] *)
Definition fle (x y : float) : bool :=
  match x, y with
  | NaN, _ | _, NaN => false
  | NInf, _ => true
  | _, PInf => true
  | Fin a, Fin b => Qle_bool a b
  | _, _ => false
  end.

(** [x < y] *)
Definition flt (x y : float) : bool :=
  match x, y with
  | NaN, _ | _, NaN => false
  | _, _ => negb (fle y x)
  end.

(** [x == y] *)
Definition feq (x y : float) : bool :=
  match x, y with
  | Fin a, Fin b => Qeq_bool a b
  | PInf, PInf => true
  | NInf, NInf => true
  | _, _ => false
  end.

(** [x - y] *)
Definition fsub (x y : float) : float :=
  match x, y with
  | NaN, _ | _, NaN => NaN
  | Fin a, Fin b => Fin (a - b)
  | Fin _, PInf => NInf
  | Fin _, NInf => PInf
  | PInf, PInf => NaN
  | PInf, _ => PInf
  | NInf, NInf => NaN
  | NInf, _ => NInf
  end.

Declare Scope float_scope.
Delimit Scope float_scope with F.
Bind Scope float_scope with float.

Notation "x <= y" := (fle x y = true) : float_scope.
Notation "x < y" := (flt x y = true) : float_scope.
Notation "x == y" := (feq x y = true) : float_scope.
Notation "x - y" := (fsub x y) : float_scope.

End PyFloat.

Import PyFloat.

(** ** Python's [list.sort] *)

Module PyList.

Section Sort.

Variable A : Type.

(** [lt a b]: the key of [a] is [<] the key of [b]. *)
Variable lt : A -> A -> bool.

(** How many more elements continue a strictly descending run after
    [prev], and how many continue a run that never descends. *)
Fixpoint run_desc (prev : A) (l : list A) : nat :=
  match l with
  | [] => O
  | x :: l' => if lt x prev then S (run_desc x l') else O
  end.

Fixpoint run_asc (prev : A) (l : list A) : nat :=
  match l with
  | [] => O
  | x :: l' => if lt x prev then O else S (run_asc x l')
  end.

(** [count_run]: the length of the run the list starts with, and whether
    that run is strictly descending. *)
Definition count_run (l : list A) : nat * bool :=
  match l with
  | [] => (O, false)
  | a :: l' =>
      match l' with
      | [] => (1%nat, false)
      | b :: l'' =>
          if lt b a then (S (S (run_desc b l'')), true)
          else (S (S (run_asc b l'')), false)
      end
  end.

(** The binary search of [binarysort]: the place of [pivot] in [sorted]
    between positions [l] and [r]. *)
Fixpoint bisect (fuel : nat) (pivot : A) (sorted : list A) (l r : nat) : nat :=
  match fuel with
  | O => l
  | S fuel' =>
      if (l <? r)%nat then
        let p := (l + (r - l) / 2)%nat in
        if lt pivot (nth p sorted pivot)
        then bisect fuel' pivot sorted l p
        else bisect fuel' pivot sorted (S p) r
      else l
  end.

Definition binary_insert (sorted : list A) (pivot : A) : list A :=
  let i := bisect (List.length sorted) pivot sorted O (List.length sorted) in
  firstn i sorted ++ pivot :: skipn i sorted.

(** [binarysort]: the elements of [rest] inserted one by one. *)
Definition binarysort (sorted rest : list A) : list A :=
  fold_left binary_insert rest sorted.

(** The ascending sort of a list of fewer than 64 elements. *)
Definition listsort (l : list A) : list A :=
  let '(n, descending) := count_run l in
  let run := firstn n l in
  binarysort (if descending then rev run else run) (skipn n l).

(** [l.sort(reverse=reverse)] *)
Definition sort (reverse : bool) (l : list A) : list A :=
  if reverse then rev (listsort (rev l)) else listsort l.

End Sort.

End PyList.

(** ** Collaborators and effects *)

Module Effects.

(** A vector of floats. *)
Definition embedding := list Q.

(** A Chroma metadata mapping, as the association list of its items. *)
Definition metadata := list (str * str).

(** The dict that [collection.query] returns: one optional entry per key,
    each a batch (one inner list per query embedding). *)
Record QueryResult : Type := {
  res_documents : option (list (list str));
  res_metadatas : option (list (list metadata));
  res_distances : option (list (list float))
}.

(** What can be raised while [retrieve] runs. *)
Inductive exn : Type :=
| EmbedderFailure       (* [OpenAI()] or [embeddings.create] raised *)
| VectorIndexFailure    (* [PersistentClient], [get_collection] or [query] raised *)
| PyIndexError.         (* a subscript [[0]] on an empty list *)

(** The collaborator calls, as logged. *)
Inductive call : Type :=
| NewOpenAI
| NewPersistentClient (path : str)
| GetCollection (name : str)
| EmbeddingsCreate (model : str) (input : list str)
| CollectionQuery (query_embeddings : list embedding) (n_results : nat)
                  (include : list str).

(** The collaborators themselves; [None] is a call that raises.
    [persist_dir] is the module's [PERSIST_DIR], which depends on where the
    file is installed. *)
Record Collaborators : Type := {
  persist_dir : str;
  new_openai : option unit;
  persistent_client : str -> option unit;
  get_collection : str -> option unit;
  embeddings_create : str -> list str -> option (list embedding);
  collection_query : list embedding -> nat -> list str -> option QueryResult
}.

Inductive outcome (A : Type) : Type :=
| Returned (a : A)
| Raised (e : exn).
Arguments Returned {A} a.
Arguments Raised {A} e.

Definition trace := list call.

(** Computations that log collaborator calls and may raise. *)
Definition M (A : Type) : Type := trace -> outcome A * trace.

Definition ret {A : Type} (a : A) : M A := fun tr => (Returned a, tr).

Definition raise {A : Type} (e : exn) : M A := fun tr => (Raised e, tr).

Definition bind {A B : Type} (m : M A) (f : A -> M B) : M B :=
  fun tr =>
    match m tr with
    | (Returned a, tr') => f a tr'
    | (Raised e, tr') => (Raised e, tr')
    end.

(** One collaborator call: log it, then return its answer or raise. *)
Definition perform {A : Type} (c : call) (answer : option A) (e : exn) : M A :=
  fun tr =>
    match answer with
    | Some a => (Returned a, tr ++ [c])
    | None => (Raised e, tr ++ [c])
    end.

(** [l[0]] *)
Definition index0 {A : Type} (l : list A) : M A :=
  match l with
  | [] => raise PyIndexError
  | a :: _ => ret a
  end.

End Effects.

Import Effects.

Notation "x <- m ;; k" := (bind m (fun x => k))
  (at level 61, m at next level, right associativity).

(** ** The retriever *)

Module Retriever.

Local Open Scope Q_scope.

Definition COLLECTION_NAME : str := of_string "news_articles".
Definition EMBEDDING_MODEL : str := of_string "text-embedding-3-small".
Definition DEFAULT_SIMILARITY_THRESHOLD : Q := 25 # 100.
Definition DEFAULT_TOP_K : Z := 4%Z.
Definition MIN_ACCEPTABLE_SCORE : Q := - (55 # 100).

Record RetrievedChunk : Type := {
  text : str;
  category : str;
  date : str;
  link : str;
  score : float
}.

Definition get_openai_client (env : Collaborators) : M unit :=
  perform NewOpenAI (new_openai env) EmbedderFailure.

Definition get_chroma_collection (env : Collaborators) : M unit :=
  client <- perform (NewPersistentClient (persist_dir env))
                    (persistent_client env (persist_dir env))
                    VectorIndexFailure ;;
  perform (GetCollection COLLECTION_NAME)
          (get_collection env COLLECTION_NAME) VectorIndexFailure.

(** [resp.data[0].embedding] of [client.embeddings.create(...)]. *)
Definition embed_query (env : Collaborators) (query : str) : M embedding :=
  data <- perform (EmbeddingsCreate EMBEDDING_MODEL [query])
                  (embeddings_create env EMBEDDING_MODEL [query])
                  EmbedderFailure ;;
  index0 data.

(** [d.get(key, default)] on an optional entry. *)
Definition get_or {A : Type} (entry : option A) (default : A) : A :=
  match entry with
  | Some v => v
  | None => default
  end.

Definition str_eqb (a b : str) : bool :=
  if list_eq_dec N.eq_dec a b then true else false.

(** [meta.get(key, default)] *)
Fixpoint meta_get (meta : metadata) (key default : str) : str :=
  match meta with
  | [] => default
  | (k, v) :: rest => if str_eqb k key then v else meta_get rest key default
  end.

(** [zip(documents, metadatas, distances)] *)
Fixpoint zip3 {A B C : Type} (la : list A) (lb : list B) (lc : list C)
  : list (A * B * C) :=
  match la, lb, lc with
  | a :: la', b :: lb', c :: lc' => (a, b, c) :: zip3 la' lb' lc'
  | _, _, _ => []
  end.

(** Lines 110-128: both clients, the embedding, the index query, and the
    three columns of the answer, zipped as the scoring loop reads them. *)
Definition fetch_rows (env : Collaborators) (query : str) (effective_top_k : nat)
  : M (list (str * metadata * float)) :=
  oa_client <- get_openai_client env ;;
  collection <- get_chroma_collection env ;;
  query_vec <- embed_query env query ;;
  let n_results := Nat.max (effective_top_k * 2) effective_top_k in
  results <- perform
    (CollectionQuery [query_vec] n_results
       [of_string "documents"; of_string "metadatas"; of_string "distances"])
    (collection_query env [query_vec] n_results
       [of_string "documents"; of_string "metadatas"; of_string "distances"])
    VectorIndexFailure ;;
  documents <- index0 (get_or (res_documents results) [[]]) ;;
  metadatas <- index0 (get_or (res_metadatas results) [[]]) ;;
  distances <- index0 (get_or (res_distances results) [[]]) ;;
  ret (zip3 documents metadatas distances).

(** The chunk built in one iteration of the scoring loop. *)
Definition make_chunk (row : str * metadata * float) : RetrievedChunk :=
  let '(doc, meta, dist) := row in
  let similarity := fsub 1 dist in
  {| text := doc;
     category := meta_get meta (of_string "category") [];
     date := meta_get meta (of_string "date") [];
     link := meta_get meta (of_string "link") [];
     score := similarity |}.

(** Lines 132-147: the scoring loop, with its two accumulators. *)
Fixpoint score_rows (effective_threshold : Q) (rows : list (str * metadata * float))
    (all_candidates passed_threshold : list RetrievedChunk)
  : list RetrievedChunk * list RetrievedChunk :=
  match rows with
  | [] => (all_candidates, passed_threshold)
  | row :: rest =>
      let chunk := make_chunk row in
      let all_candidates := all_candidates ++ [chunk] in
      let passed_threshold :=
        if fle effective_threshold (score chunk)
        then passed_threshold ++ [chunk]
        else passed_threshold in
      score_rows effective_threshold rest all_candidates passed_threshold
  end.

(** [c.score >= MIN_ACCEPTABLE_SCORE] *)
Definition above_floor (c : RetrievedChunk) : bool :=
  fle MIN_ACCEPTABLE_SCORE (score c).

(** [l.sort(key=lambda c: c.score, reverse=True)] *)
Definition sort_by_score (l : list RetrievedChunk) : list RetrievedChunk :=
  PyList.sort RetrievedChunk (fun a b => flt (score a) (score b)) true l.

(** Lines 151-165: [Some r] is a [return r]; [None] is control reaching the
    fallback below. *)
Definition primary_selection (is_single_word : bool) (effective_top_k : nat)
    (passed_threshold : list RetrievedChunk) : option (list RetrievedChunk) :=
  match passed_threshold with
  | _ :: _ =>
      if is_single_word then
        let strong_enough := filter above_floor passed_threshold in
        match strong_enough with
        | _ :: _ => Some (firstn effective_top_k (sort_by_score strong_enough))
        | [] => None
        end
      else
        let strong_enough := filter above_floor passed_threshold in
        match strong_enough with
        | [] => Some []
        | _ :: _ => Some (firstn effective_top_k (sort_by_score strong_enough))
        end
  | [] => None
  end.

(** Lines 167-180. *)
Definition fallback_selection (is_single_word : bool) (effective_top_k : nat)
    (all_candidates : list RetrievedChunk) : list RetrievedChunk :=
  let all_candidates := sort_by_score all_candidates in
  let strong_from_all := filter above_floor all_candidates in
  match strong_from_all with
  | [] => []
  | _ :: _ =>
      if is_single_word then firstn effective_top_k strong_from_all
      else firstn 3 strong_from_all
  end.

Definition retrieve (env : Collaborators) (query : str) (top_k : Z)
    (similarity_threshold : Q) : M (list RetrievedChunk) :=
  if negb (truthy (strip query)) then ret []
  else
    let words := split query in
    let is_single_word := Nat.eqb (List.length words) 1 in
    let effective_top_k := if is_single_word then 6%nat else 3%nat in
    let effective_threshold :=
      if is_single_word then similarity_threshold * (8 # 10)
      else similarity_threshold in
    rows <- fetch_rows env query effective_top_k ;;
    let '(all_candidates, passed_threshold) :=
      score_rows effective_threshold rows [] [] in
    match primary_selection is_single_word effective_top_k passed_threshold with
    | Some chunks => ret chunks
    | None => ret (fallback_selection is_single_word effective_top_k all_candidates)
    end.

End Retriever.

Import Retriever.

(** ** Vocabulary of the statements *)

Local Open Scope Q_scope.

(** The locals [is_single_word], [effective_top_k] and
    [effective_threshold] of [retrieve], as functions of its arguments. *)
Definition is_single_word (query : str) : bool :=
  Nat.eqb (List.length (split query)) 1.

Definition effective_top_k (query : str) : nat :=
  if is_single_word query then 6%nat else 3%nat.

Definition effective_threshold (query : str) (similarity_threshold : Q) : Q :=
  if is_single_word query then similarity_threshold * (8 # 10)
  else similarity_threshold.

(** [all_candidates] when the scoring loop ends. *)
Definition candidates (rows : list (str * metadata * float)) : list RetrievedChunk :=
  map make_chunk rows.

(** [similarity >= effective_threshold] *)
Definition passes (effective_threshold : Q) (c : RetrievedChunk) : bool :=
  fle effective_threshold (score c).

(** [passed_threshold] when the scoring loop ends. *)
Definition passing (effective_threshold : Q) (rows : list (str * metadata * float))
  : list RetrievedChunk :=
  filter (passes effective_threshold) (candidates rows).

(** What lines 132-180 return for the rows the index gave. *)
Definition ranked (single : bool) (k : nat) (threshold : Q)
    (rows : list (str * metadata * float)) : list RetrievedChunk :=
  let '(all_candidates, passed_threshold) := score_rows threshold rows [] [] in
  match primary_selection single k passed_threshold with
  | Some chunks => chunks
  | None => fallback_selection single k all_candidates
  end.

(** Scores never increase from one position to a later one. *)
Definition non_increasing (l : list RetrievedChunk) : Prop :=
  StronglySorted (fun c d => (score d <= score c)%F) l.

(** No score is NaN. *)
Definition nan_free (l : list RetrievedChunk) : Prop :=
  Forall (fun c => score c <> NaN) l.

(** The chunks of [l] whose score is [s], in the order of [l]. *)
Definition with_score (s : float) (l : list RetrievedChunk)
  : list RetrievedChunk :=
  filter (fun c => feq (score c) s) l.

(** [strong_from_all]: the sorted candidates that reach the floor. *)
Definition floor_survivors (rows : list (str * metadata * float))
  : list RetrievedChunk :=
  filter above_floor (sort_by_score (candidates rows)).

(** Above the floor, and no longer than [width]. *)
Definition well_ranked (width : nat) (r : list RetrievedChunk) : Prop :=
  Forall (fun c => (MIN_ACCEPTABLE_SCORE <= score c)%F) r
  /\ (List.length r <= width)%nat.

Definition prefix {A : Type} (l1 l2 : list A) : Prop :=
  exists rest, l2 = l1 ++ rest.

(** An ascending list for a comparison [lt]: no element is less than an
    earlier one. *)
Definition ascending {A : Type} (lt : A -> A -> bool) (l : list A) : Prop :=
  StronglySorted (fun a b => lt b a = false) l.

(** A class of elements, among those that are [ok], of which none is less
    than another. *)
Definition key_class {A : Type} (lt : A -> A -> bool) (ok : A -> Prop)
    (P : A -> bool) : Prop :=
  forall a b, ok a -> ok b -> P a = true -> P b = true -> lt a b = false.

(** ** Concrete collaborators *)

Module Examples.

(** Document texts ["0"], ["1"], ... for the rows of an index. *)
Definition doc_names (n : nat) : list str :=
  map (fun i => [N.of_nat (48 + i)]) (seq 0 n).

(** Collaborators that never raise; the index holds one row per distance
    and answers every query with its first [n_results] rows. *)
Definition index_with (distances : list float) : Collaborators :=
  {| persist_dir := of_string "rag/../vector_store/chroma_db";
     new_openai := Some tt;
     persistent_client := fun _ => Some tt;
     get_collection := fun _ => Some tt;
     embeddings_create := fun _ input => Some (map (fun _ => [1; 0]) input);
     collection_query := fun _ n _ =>
       Some {| res_documents :=
                 Some [firstn n (doc_names (List.length distances))];
               res_metadatas :=
                 Some [firstn n (map (fun _ => [(of_string "category", of_string "NEWS")])
                                     distances)];
               res_distances := Some [firstn n distances] |} |}.

(** Similarities 0.9, 0.6, 0.3, 0.22, 0.1, -0.2, -0.6, -0.7. *)
Definition scenario_A : Collaborators :=
  index_with (map Fin [1 # 10; 4 # 10; 7 # 10; 78 # 100; 9 # 10; 12 # 10; 16 # 10; 17 # 10]).

(** Similarities -0.6, -0.4, -0.3, -0.9, -0.5. *)
Definition scenario_B : Collaborators :=
  index_with (map Fin [16 # 10; 14 # 10; 13 # 10; 19 # 10; 15 # 10]).

(** Similarities -0.7 and -0.9: all below the floor. *)
Definition below_floor : Collaborators :=
  index_with (map Fin [17 # 10; 19 # 10]).

(** Similarities 0.5, 0.9, 0.5, 0.5: three rows tie. *)
Definition with_ties : Collaborators :=
  index_with (map Fin [5 # 10; 1 # 10; 5 # 10; 5 # 10]).

(** Similarities 0.1, NaN, 0.2. *)
Definition nan_between : Collaborators :=
  index_with [Fin (9 # 10); NaN; Fin (8 # 10)].

(** Similarities 0.01, 0.01, 0.01, NaN, 0.02. *)
Definition nan_before_best : Collaborators :=
  index_with [Fin (99 # 100); Fin (99 # 100); Fin (99 # 100); NaN;
              Fin (98 # 100)].

(** Similarities 0.1, 0.1, 0.1, 0.1, NaN, 0.1, 0.15. *)
Definition nan_among_ties : Collaborators :=
  index_with [Fin (9 # 10); Fin (9 # 10); Fin (9 # 10); Fin (9 # 10); NaN;
              Fin (9 # 10); Fin (85 # 100)].

(** A single row whose similarity is NaN. *)
Definition only_nan : Collaborators := index_with [NaN].

(** The rows a query gets from the index, and the calls that took. *)
Definition rows_of (env : Collaborators) (query : str)
  : list (str * metadata * float) :=
  match fetch_rows env query (effective_top_k query) [] with
  | (Returned rows, _) => rows
  | (Raised _, _) => []
  end.

Definition calls_of (env : Collaborators) (query : str) : trace :=
  snd (fetch_rows env query (effective_top_k query) []).

(** What [retrieve] returns when run on an empty trace. *)
Definition result_of (env : Collaborators) (query : str) (top_k : Z)
    (similarity_threshold : Q) : list RetrievedChunk :=
  match fst (retrieve env query top_k similarity_threshold []) with
  | Returned chunks => chunks
  | Raised _ => []
  end.

Definition hi : str := of_string "hi".
Definition election_results_today : str := of_string "election results today".
Definition blanks : str := [32; 9; 10; 160]%N.

End Examples.

(** ** More vocabulary *)

(** The candidates a ranking draws from: those that pass the threshold
    when some do, all of them otherwise; in both cases cut at the floor. *)
Definition eligible (threshold : Q) (rows : list (str * metadata * float))
  : list RetrievedChunk :=
  filter above_floor
    (match passing threshold rows with
     | [] => candidates rows
     | _ :: _ => passing threshold rows
     end).

(** The keys [retrieve] asks the index to include. *)
Definition INCLUDE : list str :=
  [of_string "documents"; of_string "metadatas"; of_string "distances"].

(** The five collaborator calls of one retrieval, in order. *)
Definition calls_for (env : Collaborators) (query : str)
    (query_vec : embedding) : trace :=
  [NewOpenAI;
   NewPersistentClient (persist_dir env);
   GetCollection COLLECTION_NAME;
   EmbeddingsCreate EMBEDDING_MODEL [query];
   CollectionQuery [query_vec] (2 * effective_top_k query) INCLUDE].

(** ** The Flask backend, [project/backend/app.py] *)

Module App.

(** The keyword arguments of one [render_template] call. *)
Record Page : Type := {
  template_name : str;
  query_text : str;
  results : list (nat * RetrievedChunk);
  message : str
}.

(** [request.form.get(key)]: the first value posted under [key]. *)
Fixpoint form_get (form : list (str * str)) (key : str) : option str :=
  match form with
  | [] => None
  | (k, v) :: rest => if str_eqb k key then Some v else form_get rest key
  end.

(** [x or []] for an optional string. *)
Definition or_empty (x : option str) : str :=
  match x with
  | Some s => if truthy s then s else []
  | None => []
  end.

(** [list(enumerate(l, start=start))] *)
Fixpoint enumerate {A : Type} (l : list A) (start : nat) : list (nat * A) :=
  match l with
  | [] => []
  | a :: l' => (start, a) :: enumerate l' (S start)
  end.

Definition index : Page :=
  {| template_name := of_string "index.html";
     query_text := [];
     results := [];
     message :=
       of_string "Enter a search query to find relevant news articles." |}.

Definition search (env : Collaborators) (form : list (str * str)) : M Page :=
  let query_text := strip (or_empty (form_get form (of_string "query"))) in
  if negb (truthy query_text) then
    ret {| template_name := of_string "index.html";
           query_text := [];
           results := [];
           message := of_string "Please enter a non-empty query." |}
  else
    let is_single_word := Nat.eqb (List.length (split query_text)) 1 in
    chunks <- retrieve env query_text DEFAULT_TOP_K
                       DEFAULT_SIMILARITY_THRESHOLD ;;
    match chunks with
    | [] =>
        let message :=
          if is_single_word then
            of_string "No relevant information found around keyword '"
            ++ query_text ++ of_string "'. "
            ++ of_string "Try a more descriptive query (e.g. 'travel hotels', 'politics guns')."
          else of_string "No relevant articles found for this query." in
        ret {| template_name := of_string "index.html";
               query_text := query_text;
               results := [];
               message := message |}
    | _ :: _ =>
        let message :=
          if is_single_word then
            of_string "Exploring around keyword '"
            ++ query_text ++ of_string "'. "
            ++ of_string "Results may be broader and less precise."
          else of_string "Showing the most relevant articles for your query." in
        let ranked_results := enumerate chunks 1 in
        ret {| template_name := of_string "index.html";
               query_text := query_text;
               results := ranked_results;
               message := message |}
    end.

End App.

(** ** The index builder, [project/vector_store/build_chroma_store.py] *)

Module VectorStore.

(** What can be raised while the builder runs. *)
Inductive store_exn : Type :=
| CsvError (reason : str)            (* [pd.read_csv] raised *)
| ValueError (missing : list str)    (* required columns are missing *)
| KeyError (label : str)             (* a frame has no such column *)
| ChromaError                        (* a Chroma call raised *)
| OpenAIError.                       (* an OpenAI call raised *)

(** The calls to the outside, as logged. *)
Inductive store_call : Type :=
| ReadCsv (path : str)
| Printed (line : str)
| NewPersistentClient (path : str)
| DeleteCollection (name : str)
| CreateCollection (name : str)
| Uuid4
| NewOpenAIClient
| CreateEmbeddings (model : str) (input : list str)
| CollectionAdd (documents : list str) (metadatas : list metadata)
                (ids : list str) (embeddings : list embedding).

Inductive result (A : Type) : Type :=
| Done (a : A)
| Failed (e : store_exn).
Arguments Done {A} a.
Arguments Failed {A} e.

Definition log := list store_call.

(** Computations of the builder: they log their calls and may raise. *)
Definition Job (A : Type) : Type := log -> result A * log.

Definition sret {A : Type} (a : A) : Job A := fun tr => (Done a, tr).

Definition sraise {A : Type} (e : store_exn) : Job A := fun tr => (Failed e, tr).

Definition sbind {A B : Type} (m : Job A) (f : A -> Job B) : Job B :=
  fun tr =>
    match m tr with
    | (Done a, tr') => f a tr'
    | (Failed e, tr') => (Failed e, tr')
    end.

Local Notation "x <-- m ;; k" := (sbind m (fun x => k))
  (at level 61, m at next level, right associativity).

(** One call: log it, then return its answer or raise. *)
Definition call {A : Type} (c : store_call) (answer : option A)
    (e : store_exn) : Job A :=
  fun tr =>
    match answer with
    | Some a => (Done a, tr ++ [c])
    | None => (Failed e, tr ++ [c])
    end.

(** [try: m  except Exception: pass] *)
Definition swallow (m : Job unit) : Job unit :=
  fun tr =>
    match m tr with
    | (Done _, tr') => (Done tt, tr')
    | (Failed _, tr') => (Done tt, tr')
    end.

(** [print(line)] *)
Definition print (line : str) : Job unit :=
  fun tr => (Done tt, tr ++ [Printed line]).

(** A value that may be absent, or raise the given exception. *)
Definition expect {A : Type} (x : option A) (e : store_exn) : Job A :=
  match x with
  | Some a => sret a
  | None => sraise e
  end.

Section Frames.

(** The cells of a frame, and [str(cell)]. *)
Variable cell : Type.
Variable py_str : cell -> str.

(** A pandas frame: its column labels and its rows, in order. *)
Record DataFrame : Type := {
  columns : list str;
  rows : list (list cell)
}.

(** The outside world of the builder; [None], [false] and [inl] are calls
    that raise.  [uuid4 n] is the text of the [n]-th identifier drawn. *)
Record World : Type := {
  read_csv : str -> str + DataFrame;
  persistent_client : str -> bool;
  delete_collection : str -> bool;
  create_collection : str -> bool;
  uuid4 : nat -> str;
  openai_client : bool;
  create_embeddings : str -> list str -> option (list embedding);
  collection_add :
    list str -> list metadata -> list str -> list embedding -> bool
}.

Definition guard (ok : bool) : option unit :=
  if ok then Some tt else None.

(** Position of a label among the columns. *)
Fixpoint position (label : str) (labels : list str) : option nat :=
  match labels with
  | [] => None
  | l :: rest =>
      if str_eqb l label then Some O
      else option_map S (position label rest)
  end.

(** [row[label]] for a row of a frame with these columns. *)
Definition row_get (labels : list str) (row : list cell) (label : str)
  : Job cell :=
  expect (match position label labels with
          | Some i => nth_error row i
          | None => None
          end) (KeyError label).

(** [df[label]]: the column, top to bottom. *)
Fixpoint column (labels : list str) (rs : list (list cell)) (label : str)
  : Job (list cell) :=
  match rs with
  | [] => _ <-- expect (position label labels) (KeyError label) ;; sret []
  | row :: rest =>
      c <-- row_get labels row label ;;
      cs <-- column labels rest label ;;
      sret (c :: cs)
  end.

(** Lines 46-63. *)
Definition load_data (w : World) (csv_path : str) : Job DataFrame :=
  df <-- (fun tr =>
            match read_csv w csv_path with
            | inr df => (Done df, tr ++ [ReadCsv csv_path])
            | inl reason =>
                (Failed (CsvError reason),
                 tr ++ [ReadCsv csv_path;
                        Printed (of_string "Error loading CSV: " ++ reason)])
            end) ;;
  let required_cols :=
    [of_string "text"; of_string "category"; of_string "date";
     of_string "link"] in
  let missing :=
    filter (fun c => negb (existsb (str_eqb c) (columns df))) required_cols in
  match missing with
  | _ :: _ => sraise (ValueError missing)
  | [] => sret df
  end.

(** Lines 66-73. *)
Definition embed_texts (w : World) (texts : list str) : Job (list embedding) :=
  call (CreateEmbeddings EMBEDDING_MODEL texts)
       (create_embeddings w EMBEDDING_MODEL texts) OpenAIError.

(** [str(uuid.uuid4())]: the next identifier of this run. *)
Definition next_uuid (w : World) : Job str :=
  fun tr =>
    let drawn :=
      List.length (filter (fun c => match c with Uuid4 => true | _ => false end)
                          tr) in
    (Done (uuid4 w drawn), tr ++ [Uuid4]).

(** Lines 102-110: the loop over [df.iterrows()]. *)
Fixpoint rows_loop (w : World) (labels : list str) (rs : list (list cell))
    (metadatas : list metadata) (ids : list str)
  : Job (list metadata * list str) :=
  match rs with
  | [] => sret (metadatas, ids)
  | row :: rest =>
      category <-- row_get labels row (of_string "category") ;;
      date <-- row_get labels row (of_string "date") ;;
      link <-- row_get labels row (of_string "link") ;;
      let metadatas :=
        metadatas ++ [[(of_string "category", py_str category);
                       (of_string "date", py_str date);
                       (of_string "link", py_str link)]] in
      id <-- next_uuid w ;;
      let ids := ids ++ [id] in
      rows_loop w labels rest metadatas ids
  end.

(** Lines 76-120. *)
Definition build_chroma_collection (w : World) (persist_dir : str)
    (df : DataFrame) : Job unit :=
  client <-- call (NewPersistentClient persist_dir)
                  (guard (persistent_client w persist_dir)) ChromaError ;;
  _ <-- swallow (call (DeleteCollection COLLECTION_NAME)
                      (guard (delete_collection w COLLECTION_NAME))
                      ChromaError) ;;
  collection <-- call (CreateCollection COLLECTION_NAME)
                      (guard (create_collection w COLLECTION_NAME))
                      ChromaError ;;
  text_column <-- column (columns df) (rows df) (of_string "text") ;;
  let texts := map py_str text_column in
  lists <-- rows_loop w (columns df) (rows df) [] [] ;;
  let '(metadatas, ids) := lists in
  client_oa <-- call NewOpenAIClient (guard (openai_client w)) OpenAIError ;;
  embeddings <-- embed_texts w texts ;;
  _ <-- call (CollectionAdd texts metadatas ids embeddings)
             (guard (collection_add w texts metadatas ids embeddings))
             ChromaError ;;
  _ <-- print (of_string "Built Chroma collection '" ++ COLLECTION_NAME
               ++ of_string "' with "
               ++ of_string (NilZero.string_of_uint
                               (Nat.to_uint (List.length texts)))
               ++ of_string " items.") ;;
  print (of_string "Chroma data persisted under: " ++ persist_dir).

(** Lines 123-125; the two paths are the module's [CSV_PATH] and
    [PERSIST_DIR], which depend on where the file is installed. *)
Definition main (w : World) (csv_path persist_dir : str) : Job unit :=
  df <-- load_data w csv_path ;;
  build_chroma_collection w persist_dir df.

(** Every row has one cell per column, as in any frame pandas builds. *)
Definition rectangular (df : DataFrame) : Prop :=
  Forall (fun row => List.length row = List.length (columns df)) (rows df).

(** [str(row[label])], when the frame has that column. *)
Definition field (df : DataFrame) (row : list cell) (label : str)
  : option str :=
  match position label (columns df) with
  | Some i => option_map py_str (nth_error row i)
  | None => None
  end.

(** The same world with another answer to [delete_collection]. *)
Definition with_delete (w : World) (answer : str -> bool) : World :=
  {| read_csv := read_csv w;
     persistent_client := persistent_client w;
     delete_collection := answer;
     create_collection := create_collection w;
     uuid4 := uuid4 w;
     openai_client := openai_client w;
     create_embeddings := create_embeddings w;
     collection_add := collection_add w |}.

End Frames.

End VectorStore.

(** ** Vocabulary for the builder *)

(** The columns [load_data] requires. *)
Definition REQUIRED_COLS : list str :=
  [of_string "text"; of_string "category"; of_string "date"; of_string "link"].

(** How many identifiers a run has drawn so far. *)
Definition drawn (tr : VectorStore.log) : nat :=
  List.length
    (filter (fun c => match c with VectorStore.Uuid4 => true | _ => false end)
            tr).

(** The document and metadata stored for a row give back, when the index
    returns them at distance [dist], a chunk with the row's own text,
    category, date and link, and score [1 - dist]. *)
Definition stored_as {cell : Type} (py_str : cell -> str)
    (df : VectorStore.DataFrame cell) (row : list cell)
    (doc : str) (meta : metadata) : Prop :=
  forall dist : float,
    Some (text (make_chunk (doc, meta, dist)))
    = VectorStore.field cell py_str df row (of_string "text")
    /\ Some (category (make_chunk (doc, meta, dist)))
       = VectorStore.field cell py_str df row (of_string "category")
    /\ Some (date (make_chunk (doc, meta, dist)))
       = VectorStore.field cell py_str df row (of_string "date")
    /\ Some (link (make_chunk (doc, meta, dist)))
       = VectorStore.field cell py_str df row (of_string "link")
    /\ score (make_chunk (doc, meta, dist)) = (1 - dist)%F.

(** The metadata the builder's loop makes of a row. *)
Definition row_metadata {cell : Type} (py_str : cell -> str)
    (df : VectorStore.DataFrame cell) (row : list cell) : option metadata :=
  match VectorStore.field cell py_str df row (of_string "category"),
        VectorStore.field cell py_str df row (of_string "date"),
        VectorStore.field cell py_str df row (of_string "link") with
  | Some c, Some d, Some l =>
      Some [(of_string "category", c); (of_string "date", d);
            (of_string "link", l)]
  | _, _, _ => None
  end.

(** The calls of a run of the builder that gets as far as creating the
    collection, and those of a run that completes on [n] rows. *)
Definition opening_calls (persist_dir : str) : VectorStore.log :=
  [VectorStore.NewPersistentClient persist_dir;
   VectorStore.DeleteCollection COLLECTION_NAME;
   VectorStore.CreateCollection COLLECTION_NAME].

Definition closing_calls (persist_dir : str) (texts : list str)
    (metadatas : list metadata) (ids : list str)
    (embeddings : list embedding) : VectorStore.log :=
  [VectorStore.NewOpenAIClient;
   VectorStore.CreateEmbeddings EMBEDDING_MODEL texts;
   VectorStore.CollectionAdd texts metadatas ids embeddings;
   VectorStore.Printed
     (of_string "Built Chroma collection '" ++ COLLECTION_NAME
      ++ of_string "' with "
      ++ of_string (NilZero.string_of_uint (Nat.to_uint (List.length texts)))
      ++ of_string " items.");
   VectorStore.Printed (of_string "Chroma data persisted under: " ++ persist_dir)].

(** No [collection.add] among these calls. *)
Definition nothing_added (calls : VectorStore.log) : Prop :=
  forall documents metadatas ids embeddings,
    ~ In (VectorStore.CollectionAdd documents metadatas ids embeddings) calls.

(** ** More concrete collaborators *)

Module MoreExamples.

Import Examples.

(** Scenario A with a Chroma collection that cannot be opened. *)
Definition no_collection : Collaborators :=
  {| persist_dir := persist_dir scenario_A;
     new_openai := new_openai scenario_A;
     persistent_client := persistent_client scenario_A;
     get_collection := fun _ => None;
     embeddings_create := embeddings_create scenario_A;
     collection_query := collection_query scenario_A |}.

(** Scenario A with an index whose answers carry no [distances]. *)
Definition no_distances : Collaborators :=
  {| persist_dir := persist_dir scenario_A;
     new_openai := new_openai scenario_A;
     persistent_client := persistent_client scenario_A;
     get_collection := get_collection scenario_A;
     embeddings_create := embeddings_create scenario_A;
     collection_query := fun vecs n include =>
       match collection_query scenario_A vecs n include with
       | Some res =>
           Some {| res_documents := res_documents res;
                   res_metadatas := res_metadatas res;
                   res_distances := None |}
       | None => None
       end |}.

(** Scenario A without an OpenAI key: the client cannot be created. *)
Definition no_openai : Collaborators :=
  {| persist_dir := persist_dir scenario_A;
     new_openai := None;
     persistent_client := persistent_client scenario_A;
     get_collection := get_collection scenario_A;
     embeddings_create := embeddings_create scenario_A;
     collection_query := collection_query scenario_A |}.

(** Scenario A with a persist directory Chroma cannot open. *)
Definition no_chroma_client : Collaborators :=
  {| persist_dir := persist_dir scenario_A;
     new_openai := new_openai scenario_A;
     persistent_client := fun _ => None;
     get_collection := get_collection scenario_A;
     embeddings_create := embeddings_create scenario_A;
     collection_query := collection_query scenario_A |}.

(** Scenario A with an OpenAI that refuses every embedding request. *)
Definition no_embedding : Collaborators :=
  {| persist_dir := persist_dir scenario_A;
     new_openai := new_openai scenario_A;
     persistent_client := persistent_client scenario_A;
     get_collection := get_collection scenario_A;
     embeddings_create := fun _ _ => None;
     collection_query := collection_query scenario_A |}.

(** The best chunk of scenario A for the query ["hi"], and the others. *)
Definition top_A : RetrievedChunk :=
  {| text := of_string "0";
     category := of_string "NEWS";
     date := [];
     link := [];
     score := 9 # 10 |}.

Definition others_A : list RetrievedChunk :=
  tl (result_of scenario_A hi 4 (25 # 100)).

(** Posted forms. *)
Definition form_hi : list (str * str) :=
  [(of_string "page", of_string "1"); (of_string "query", of_string "  hi ")].

Definition form_blank : list (str * str) :=
  [(of_string "query", blanks)].

(** What [search] renders and logs when run on an empty trace. *)
Definition page_of (env : Collaborators) (form : list (str * str)) : App.Page :=
  match fst (App.search env form []) with
  | Returned page => page
  | Raised _ => App.index
  end.

Definition search_calls (env : Collaborators) (form : list (str * str))
  : trace :=
  snd (App.search env form []).

(** A table of two articles, with one column the builder does not use. *)
Definition table : VectorStore.DataFrame str :=
  {| VectorStore.columns :=
       [of_string "link"; of_string "text"; of_string "category";
        of_string "authors"; of_string "date"];
     VectorStore.rows :=
       [[of_string "http://a"; of_string "Rain. Again"; of_string "WEATHER";
         of_string "x"; of_string "2022-01-01"];
        [of_string "http://b"; of_string "Vote. Today"; of_string "POLITICS";
         of_string "y"; of_string "2022-01-02"]] |}.

(** The same table without its [date] and [link] columns. *)
Definition short_table : VectorStore.DataFrame str :=
  {| VectorStore.columns := [of_string "text"; of_string "category"];
     VectorStore.rows :=
       [[of_string "Rain. Again"; of_string "WEATHER"]] |}.

Definition csv_path : str := of_string "data/news_rag_table.csv".
Definition persist_dir : str := of_string "vector_store/chroma_db".

(** A world in which every call succeeds; the old collection does not
    exist, so deleting it raises. *)
Definition world_of (df : VectorStore.DataFrame str) : VectorStore.World str :=
  {| VectorStore.read_csv := fun _ => inr df;
     VectorStore.persistent_client := fun _ => true;
     VectorStore.delete_collection := fun _ => false;
     VectorStore.create_collection := fun _ => true;
     VectorStore.uuid4 := fun n => of_string "id-" ++ [N.of_nat (48 + n)];
     VectorStore.openai_client := true;
     VectorStore.create_embeddings :=
       fun _ texts => Some (map (fun _ => [1; 0]) texts);
     VectorStore.collection_add := fun _ _ _ _ => true |}.

(** The same world with an OpenAI that refuses every embedding request. *)
Definition world_without_embeddings : VectorStore.World str :=
  {| VectorStore.read_csv := fun _ => inr table;
     VectorStore.persistent_client := fun _ => true;
     VectorStore.delete_collection := fun _ => true;
     VectorStore.create_collection := fun _ => true;
     VectorStore.uuid4 := fun n => of_string "id-" ++ [N.of_nat (48 + n)];
     VectorStore.openai_client := true;
     VectorStore.create_embeddings := fun _ _ => None;
     VectorStore.collection_add := fun _ _ _ _ => true |}.

(** The calls of a run of [main] on an empty log. *)
Definition main_log (w : VectorStore.World str) : VectorStore.log :=
  snd (VectorStore.main str (fun s => s) w csv_path persist_dir []).

End MoreExamples.

(** ** Facts about [strip] and [split] *)

Lemma lstrip_all_space (s : str) :
  forallb isspace s = true -> lstrip s = [].
Proof.
  induction s as [|c s IH]; simpl; [reflexivity|].
  intros H. apply andb_true_iff in H as [Hc Hs].
  rewrite Hc. auto.
Qed.

Lemma lstrip_nil_all_space (s : str) :
  lstrip s = [] -> forallb isspace s = true.
Proof.
  induction s as [|c s IH]; simpl; [reflexivity|].
  destruct (isspace c) eqn:Hc; [auto | discriminate].
Qed.

Lemma strip_all_space (s : str) :
  forallb isspace s = true -> strip s = [].
Proof.
  intros H. unfold strip. rewrite (lstrip_all_space s H). reflexivity.
Qed.

Lemma lstrip_head_not_space (s : str) (c : N) (t : str) :
  lstrip s = c :: t -> isspace c = false.
Proof.
  induction s as [|d s IH]; simpl; [discriminate|].
  destruct (isspace d) eqn:Hd; [exact IH|].
  intros E. injection E as -> _. exact Hd.
Qed.

Lemma lstrip_nonempty_app (s t : str) (c : N) :
  isspace c = false -> lstrip (s ++ c :: t) <> [].
Proof.
  intros Hc. induction s as [|d s IH]; simpl.
  - rewrite Hc. discriminate.
  - destruct (isspace d); [exact IH | discriminate].
Qed.

Lemma strip_nil_all_space (s : str) :
  strip s = [] -> forallb isspace s = true.
Proof.
  unfold strip, rstrip. intros H.
  apply lstrip_nil_all_space.
  destruct (lstrip s) as [|c t] eqn:E; [reflexivity|].
  exfalso. pose proof (lstrip_head_not_space _ _ _ E) as Hc.
  assert (Hr : lstrip (rev (c :: t)) = []).
  { apply (f_equal (@rev N)) in H. rewrite rev_involutive in H. exact H. }
  simpl in Hr. exact (lstrip_nonempty_app (rev t) [] c Hc Hr).
Qed.

Lemma split_from_all_space (s : str) :
  forallb isspace s = true -> split_from [] s = [].
Proof.
  induction s as [|c s IH]; simpl; [reflexivity|].
  intros H. apply andb_true_iff in H as [Hc Hs].
  rewrite Hc. auto.
Qed.

Lemma split_from_cur_nonempty (s : str) (c : N) (cur : str) :
  split_from (c :: cur) s <> [].
Proof.
  revert c cur. induction s as [|d s IH]; intros c cur; simpl.
  - discriminate.
  - destruct (isspace d); [discriminate | apply IH].
Qed.

Lemma split_nil_all_space (s : str) :
  split s = [] -> forallb isspace s = true.
Proof.
  unfold split. induction s as [|c s IH]; simpl; [reflexivity|].
  destruct (isspace c) eqn:Hc; [exact IH|].
  intros H. exfalso. exact (split_from_cur_nonempty _ _ _ H).
Qed.

(** A query that survives [strip] has at least one word. *)
Lemma split_nonempty_of_strip (s : str) :
  strip s <> [] -> (1 <= List.length (split s))%nat.
Proof.
  intros H. destruct (split s) eqn:E; simpl; [|lia].
  exfalso. apply H. apply strip_all_space. apply split_nil_all_space. exact E.
Qed.

(** ** The monad *)

Lemma bind_returned {A B : Type} (m : M A) (f : A -> M B) (tr tr' : trace)
    (b : B) :
  bind m f tr = (Returned b, tr') ->
  exists a tr1, m tr = (Returned a, tr1) /\ f a tr1 = (Returned b, tr').
Proof.
  unfold bind. destruct (m tr) as [[a|e] tr1]; intros H.
  - exists a, tr1. split; [reflexivity | exact H].
  - discriminate.
Qed.

Lemma bind_of_returned {A B : Type} (m : M A) (f : A -> M B) (tr tr1 : trace)
    (a : A) :
  m tr = (Returned a, tr1) -> bind m f tr = f a tr1.
Proof. unfold bind. intros ->. reflexivity. Qed.

(** ** The scoring loop *)

Lemma score_rows_spec (thr : Q) (rows : list (str * metadata * float))
    (acc_all acc_passed : list RetrievedChunk) :
  score_rows thr rows acc_all acc_passed
  = (acc_all ++ candidates rows, acc_passed ++ passing thr rows).
Proof.
  revert acc_all acc_passed.
  induction rows as [|row rows IH]; intros acc_all acc_passed.
  - unfold passing, candidates. simpl. now rewrite !app_nil_r.
  - cbn [score_rows]. rewrite IH. unfold passing, candidates.
    cbn [map filter]. unfold passes at 2.
    destruct (fle thr (score (make_chunk row))).
    + now rewrite <- !app_assoc.
    + now rewrite <- app_assoc.
Qed.

Lemma ranked_eq (single : bool) (k : nat) (thr : Q)
    (rows : list (str * metadata * float)) :
  ranked single k thr rows
  = match primary_selection single k (passing thr rows) with
    | Some chunks => chunks
    | None => fallback_selection single k (candidates rows)
    end.
Proof. unfold ranked. rewrite score_rows_spec. reflexivity. Qed.

(** ** The shape of [retrieve] *)

Lemma retrieve_blank (env : Collaborators) (q : str) (k : Z) (st : Q) :
  forallb isspace q = true -> retrieve env q k st = ret [].
Proof.
  intros H. unfold retrieve. rewrite (strip_all_space q H). reflexivity.
Qed.

Lemma retrieve_nonblank (env : Collaborators) (q : str) (k : Z) (st : Q)
    (tr : trace) :
  strip q <> [] ->
  retrieve env q k st tr
  = (rows <- fetch_rows env q (effective_top_k q) ;;
     ret (ranked (is_single_word q) (effective_top_k q)
                 (effective_threshold q st) rows)) tr.
Proof.
  intros H. unfold retrieve.
  destruct (strip q) as [|c s]; [contradiction|].
  change (negb (truthy (c :: s))) with false. cbv iota.
  fold (is_single_word q). fold (effective_top_k q).
  fold (effective_threshold q st).
  unfold bind. destruct (fetch_rows env q (effective_top_k q) tr) as [[rows|e] tr'].
  - unfold ranked.
    destruct (score_rows (effective_threshold q st) rows [] []) as [al pa].
    destruct (primary_selection _ _ pa); reflexivity.
  - reflexivity.
Qed.

(** Every run of [retrieve] that returns is either the blank-query
    short cut or a ranking of the rows fetched from the index. *)
Lemma retrieve_returned (env : Collaborators) (q : str) (k : Z) (st : Q)
    (tr tr' : trace) (r : list RetrievedChunk) :
  retrieve env q k st tr = (Returned r, tr') ->
  (forallb isspace q = true /\ r = [] /\ tr' = tr)
  \/ (strip q <> [] /\
      exists rows,
        fetch_rows env q (effective_top_k q) tr = (Returned rows, tr')
        /\ r = ranked (is_single_word q) (effective_top_k q)
                      (effective_threshold q st) rows).
Proof.
  intros H. destruct (forallb isspace q) eqn:Hb.
  - left. rewrite (retrieve_blank env q k st Hb) in H.
    unfold ret in H. injection H as <- <-. auto.
  - right.
    assert (Hs : strip q <> []).
    { intros E. apply strip_nil_all_space in E. congruence. }
    split; [exact Hs|].
    rewrite (retrieve_nonblank env q k st tr Hs) in H.
    apply bind_returned in H as (rows & tr1 & Hf & Hr).
    unfold ret in Hr. injection Hr as <- <-.
    exists rows. auto.
Qed.

Lemma retrieve_of_fetch (env : Collaborators) (q : str) (k : Z) (st : Q)
    (tr tr' : trace) (rows : list (str * metadata * float)) :
  strip q <> [] ->
  fetch_rows env q (effective_top_k q) tr = (Returned rows, tr') ->
  retrieve env q k st tr
  = (Returned (ranked (is_single_word q) (effective_top_k q)
                      (effective_threshold q st) rows), tr').
Proof.
  intros Hs Hf. rewrite (retrieve_nonblank env q k st tr Hs).
  rewrite (bind_of_returned _ _ _ _ _ Hf). reflexivity.
Qed.


(** ** The order of floats *)

Lemma fle_not_nan (x y : float) : fle x y = true -> x <> NaN /\ y <> NaN.
Proof. destruct x, y; simpl; intros H; split; discriminate. Qed.

Lemma fle_refl (x : float) : x <> NaN -> fle x x = true.
Proof.
  destruct x; simpl; intros H; try reflexivity; [|now elim H].
  apply Qle_bool_iff, Qle_refl.
Qed.

Lemma fle_trans (x y z : float) :
  fle x y = true -> fle y z = true -> fle x z = true.
Proof.
  destruct x, y, z; simpl; try discriminate; try reflexivity.
  rewrite !Qle_bool_iff. apply Qle_trans.
Qed.

Lemma flt_fle (x y : float) : flt x y = true -> fle x y = true.
Proof.
  destruct x, y; simpl; try discriminate; try reflexivity.
  rewrite negb_true_iff. intros H. apply Qle_bool_iff, Qlt_le_weak, Qnot_le_lt.
  intros Hle. apply Qle_bool_iff in Hle. congruence.
Qed.

Lemma flt_negb_fle (x y : float) :
  x <> NaN -> y <> NaN -> flt x y = negb (fle y x).
Proof. destruct x, y; simpl; intros Hx Hy; try reflexivity; now elim Hx + elim Hy. Qed.

Lemma flt_false_fle (x y : float) :
  x <> NaN -> y <> NaN -> flt x y = false -> fle y x = true.
Proof.
  intros Hx Hy H. rewrite (flt_negb_fle x y Hx Hy) in H.
  now apply negb_false_iff.
Qed.

Lemma fle_flt_false (x y : float) : fle y x = true -> flt x y = false.
Proof.
  intros H. destruct (fle_not_nan _ _ H) as [Hy Hx].
  rewrite (flt_negb_fle x y Hx Hy), H. reflexivity.
Qed.

Lemma flt_true_fle_false (x y : float) : flt x y = true -> fle y x = false.
Proof.
  destruct x, y; simpl; try discriminate; try reflexivity;
    now rewrite negb_true_iff.
Qed.

Lemma feq_fle (x y : float) :
  feq x y = true <-> fle x y = true /\ fle y x = true.
Proof.
  destruct x, y; simpl; try (split; [discriminate | intros [? ?]; discriminate]);
    try tauto.
  rewrite Qeq_bool_iff, !Qle_bool_iff. split.
  - intros ->. split; apply Qle_refl.
  - intros [H1 H2]. now apply Qle_antisym.
Qed.

Lemma feq_class_fle (t x s : float) :
  feq x s = true -> fle t x = fle t s.
Proof.
  intros E. apply feq_fle in E as [H1 H2].
  destruct (fle t x) eqn:Hx, (fle t s) eqn:Hs; try reflexivity.
  - rewrite (fle_trans _ _ _ Hx H1) in Hs. discriminate.
  - rewrite (fle_trans _ _ _ Hs H2) in Hx. discriminate.
Qed.

(** [1.0 - d] is NaN only when [d] is. *)
Lemma fsub_one_nan (d : float) : fsub 1 d = NaN -> d = NaN.
Proof. destruct d; simpl; intros H; congruence. Qed.

(** ** [list.sort]: what holds for every comparison *)

Section SortPermutes.

Variable A : Type.
Variable lt : A -> A -> bool.

Lemma binary_insert_perm (sorted : list A) (pivot : A) :
  Permutation (PyList.binary_insert A lt sorted pivot) (pivot :: sorted).
Proof.
  unfold PyList.binary_insert.
  set (i := PyList.bisect A lt _ _ _ _ _).
  eapply perm_trans; [apply Permutation_sym, Permutation_middle|].
  now rewrite firstn_skipn.
Qed.

Lemma binarysort_perm (sorted rest : list A) :
  Permutation (PyList.binarysort A lt sorted rest) (sorted ++ rest).
Proof.
  unfold PyList.binarysort. revert sorted.
  induction rest as [|x rest IH]; intros sorted; simpl.
  - now rewrite app_nil_r.
  - eapply perm_trans; [apply IH|].
    eapply perm_trans; [apply Permutation_app_tail, binary_insert_perm|].
    simpl. apply Permutation_middle.
Qed.

Lemma listsort_perm (l : list A) : Permutation (PyList.listsort A lt l) l.
Proof.
  unfold PyList.listsort. destruct (PyList.count_run A lt l) as [n d].
  eapply perm_trans; [apply binarysort_perm|].
  apply perm_trans with (l' := firstn n l ++ skipn n l);
    [|rewrite (firstn_skipn n l); apply Permutation_refl].
  apply Permutation_app_tail.
  destruct d; [apply Permutation_sym, Permutation_rev | apply Permutation_refl].
Qed.

(** Whatever the comparison answers, the sorted list is a permutation of
    the list. *)
Lemma sort_perm (reverse : bool) (l : list A) :
  Permutation (PyList.sort A lt reverse l) l.
Proof.
  unfold PyList.sort. destruct reverse; [|apply listsort_perm].
  eapply perm_trans; [apply Permutation_sym, Permutation_rev|].
  eapply perm_trans; [apply listsort_perm|].
  apply Permutation_sym, Permutation_rev.
Qed.

End SortPermutes.

(** ** [list.sort]: what holds when the keys are comparable *)

Lemma StronglySorted_app_intro {A : Type} (R : A -> A -> Prop)
    (l1 l2 : list A) :
  StronglySorted R l1 -> StronglySorted R l2 ->
  (forall a b, In a l1 -> In b l2 -> R a b) ->
  StronglySorted R (l1 ++ l2).
Proof.
  induction 1 as [|a l1 Hs IH Ha]; intros H2 Hx; simpl; [exact H2|].
  constructor.
  - apply IH; [exact H2|]. intros x y Hx1 Hy. apply Hx; [now right | exact Hy].
  - apply Forall_app. split; [exact Ha|].
    apply Forall_forall. intros y Hy. apply Hx; [now left | exact Hy].
Qed.

Lemma StronglySorted_app_elim {A : Type} (R : A -> A -> Prop)
    (l1 l2 : list A) :
  StronglySorted R (l1 ++ l2) ->
  StronglySorted R l1 /\ StronglySorted R l2
  /\ forall a b, In a l1 -> In b l2 -> R a b.
Proof.
  induction l1 as [|a l1 IH]; simpl; intros H.
  - repeat split; [constructor | exact H | intros a b []].
  - apply StronglySorted_inv in H as [Hs Ha].
    destruct (IH Hs) as (H1 & H2 & Hx).
    apply Forall_app in Ha as [Ha1 Ha2].
    repeat split; [now constructor | exact H2 |].
    intros x y [<-|Hx1] Hy.
    + rewrite Forall_forall in Ha2. now apply Ha2.
    + now apply Hx.
Qed.

Lemma StronglySorted_rev {A : Type} (R : A -> A -> Prop) (l : list A) :
  StronglySorted R l -> StronglySorted (fun a b => R b a) (rev l).
Proof.
  induction 1 as [|a l Hs IH Ha]; simpl; [constructor|].
  apply StronglySorted_app_intro; [exact IH | repeat constructor |].
  intros x y Hx [<-|[]]. apply in_rev in Hx.
  rewrite Forall_forall in Ha. now apply Ha.
Qed.

Lemma StronglySorted_impl_in {A : Type} (R R' : A -> A -> Prop) (l : list A) :
  (forall a b, In a l -> In b l -> R a b -> R' a b) ->
  StronglySorted R l -> StronglySorted R' l.
Proof.
  intros Himp H. induction H as [|a l Hs IH Ha]; [constructor|].
  constructor.
  - apply IH. intros x y Hx Hy. apply Himp; now right.
  - rewrite Forall_forall in *. intros y Hy.
    apply Himp; [now left | now right | now apply Ha].
Qed.

Lemma in_firstn_of {A : Type} (n : nat) (l : list A) (a : A) :
  In a (firstn n l) -> In a l.
Proof.
  intros H. rewrite <- (firstn_skipn n l). apply in_or_app. now left.
Qed.

Lemma in_skipn_of {A : Type} (n : nat) (l : list A) (a : A) :
  In a (skipn n l) -> In a l.
Proof.
  intros H. rewrite <- (firstn_skipn n l). apply in_or_app. now right.
Qed.

Lemma skipn_at {B : Type} (p : nat) (s : list B) (x : B) :
  nth_error s p = Some x -> skipn p s = x :: skipn (S p) s.
Proof.
  revert s. induction p as [|p IH]; intros [|y s] H; simpl in *;
    try discriminate.
  - now injection H as ->.
  - now apply IH.
Qed.

Lemma firstn_succ_at {B : Type} (p : nat) (s : list B) (x : B) :
  nth_error s p = Some x -> firstn (S p) s = firstn p s ++ [x].
Proof.
  revert s. induction p as [|p IH]; intros [|y s] H; simpl in *;
    try discriminate.
  - now injection H as ->.
  - f_equal. now apply IH.
Qed.

Lemma filter_none {B : Type} (f : B -> bool) (l : list B) :
  (forall a, In a l -> f a = false) -> filter f l = [].
Proof.
  induction l as [|a l IH]; intros H; simpl; [reflexivity|].
  rewrite (H a (or_introl eq_refl)). apply IH. intros b Hb. apply H. now right.
Qed.

Section SortOrders.

Variable A : Type.
Variable lt : A -> A -> bool.

(** The elements whose keys are comparable with each other. *)
Variable ok : A -> Prop.

Hypothesis lt_asym :
  forall a b, ok a -> ok b -> lt a b = true -> lt b a = false.
Hypothesis lt_trans :
  forall a b c, ok a -> ok b -> ok c ->
                lt a b = true -> lt b c = true -> lt a c = true.
Hypothesis le_trans :
  forall a b c, ok a -> ok b -> ok c ->
                lt b a = false -> lt c b = false -> lt c a = false.

Lemma lt_le_trans (a b c : A) :
  ok a -> ok b -> ok c -> lt a b = true -> lt c b = false -> lt a c = true.
Proof.
  intros Ha Hb Hc Hab Hbc. destruct (lt a c) eqn:E; [reflexivity|].
  rewrite (le_trans b c a Hb Hc Ha Hbc E) in Hab. discriminate.
Qed.

Lemma run_asc_sorted (prev : A) (l : list A) :
  ok prev -> Forall ok l ->
  ascending lt (prev :: firstn (PyList.run_asc A lt prev l) l).
Proof.
  intros Hp Hl. revert prev Hp.
  induction Hl as [|x l Hx Hl IH]; intros prev Hp; simpl.
  - repeat constructor.
  - unfold ascending in *.
    destruct (lt x prev) eqn:E; simpl; [repeat constructor|].
    specialize (IH x Hx). constructor; [exact IH|].
    constructor; [exact E|].
    apply StronglySorted_inv in IH as [_ IH].
    rewrite Forall_forall in *. intros y Hy.
    apply (le_trans prev x y); auto.
    apply Hl. eapply in_firstn_of. exact Hy.
Qed.

Lemma run_desc_sorted (prev : A) (l : list A) :
  ok prev -> Forall ok l ->
  StronglySorted (fun a b => lt b a = true)
                 (prev :: firstn (PyList.run_desc A lt prev l) l).
Proof.
  intros Hp Hl. revert prev Hp.
  induction Hl as [|x l Hx Hl IH]; intros prev Hp; simpl.
  - repeat constructor.
  - destruct (lt x prev) eqn:E; simpl; [|repeat constructor].
    specialize (IH x Hx). constructor; [exact IH|].
    constructor; [exact E|].
    apply StronglySorted_inv in IH as [_ IH].
    rewrite Forall_forall in *. intros y Hy.
    apply (lt_trans y x prev); auto.
    apply Hl. eapply in_firstn_of. exact Hy.
Qed.



Lemma bisect_spec (pivot : A) (s : list A) :
  ok pivot -> Forall ok s -> ascending lt s ->
  forall fuel l r,
    (l <= r)%nat -> (r <= List.length s)%nat -> (r - l <= fuel)%nat ->
    Forall (fun x => lt pivot x = false) (firstn l s) ->
    Forall (fun x => lt pivot x = true) (skipn r s) ->
    Forall (fun x => lt pivot x = false)
           (firstn (PyList.bisect A lt fuel pivot s l r) s)
    /\ Forall (fun x => lt pivot x = true)
              (skipn (PyList.bisect A lt fuel pivot s l r) s).
Proof.
  intros Hp Hs Hasc. induction fuel as [|fuel IH]; intros l r Hlr Hr Hf HF HT.
  - simpl. assert (l = r) by lia. subst. auto.
  - cbn [PyList.bisect]. destruct (l <? r)%nat eqn:E.
    2:{ apply Nat.ltb_ge in E. assert (l = r) by lia. subst. auto. }
    apply Nat.ltb_lt in E.
    set (p := (l + (r - l) / 2)%nat).
    assert (Hpl : (l <= p)%nat /\ (p < r)%nat).
    { unfold p. pose proof (Nat.div_lt (r - l) 2). lia. }
    assert (Hnth : nth_error s p = Some (nth p s pivot))
      by (apply nth_error_nth'; lia).
    set (x := nth p s pivot) in *.
    pose proof (firstn_skipn_middle _ _ Hnth) as Hmid.
    assert (Hx : ok x).
    { rewrite Forall_forall in Hs. apply Hs. eapply nth_error_In. exact Hnth. }
    unfold ascending in Hasc. rewrite <- Hmid in Hasc.
    apply StronglySorted_app_elim in Hasc as (_ & Htail & Hcross).
    apply StronglySorted_inv in Htail as [_ Htail].
    rewrite Forall_forall in Hs.
    destruct (lt pivot x) eqn:Ex.
    + apply IH; try lia; [exact HF|].
      rewrite (skipn_at p s x Hnth). constructor; [exact Ex|].
      rewrite Forall_forall in *. intros z Hz.
      apply (lt_le_trans pivot x z); auto.
      apply Hs. eapply in_skipn_of. exact Hz.
    + apply IH; try lia; [|exact HT].
      rewrite (firstn_succ_at p s x Hnth). apply Forall_app. split.
      * apply Forall_forall. intros y Hy.
        apply (le_trans y x pivot); auto.
        -- apply Hs. eapply in_firstn_of. exact Hy.
        -- apply Hcross; [exact Hy | now left].
      * now constructor.
Qed.

Lemma binary_insert_spec (s : list A) (pivot : A) :
  ok pivot -> Forall ok s -> ascending lt s ->
  exists i,
    PyList.binary_insert A lt s pivot = firstn i s ++ pivot :: skipn i s
    /\ Forall (fun x => lt pivot x = false) (firstn i s)
    /\ Forall (fun x => lt pivot x = true) (skipn i s).
Proof.
  intros Hp Hs Hasc. unfold PyList.binary_insert.
  eexists. split; [reflexivity|].
  apply (bisect_spec pivot s Hp Hs Hasc); try lia.
  - constructor.
  - rewrite skipn_all. constructor.
Qed.

Lemma binary_insert_sorted (s : list A) (pivot : A) :
  ok pivot -> Forall ok s -> ascending lt s ->
  ascending lt (PyList.binary_insert A lt s pivot).
Proof.
  intros Hp Hs Hasc.
  destruct (binary_insert_spec s pivot Hp Hs Hasc) as (i & -> & HF & HT).
  unfold ascending in *. rewrite <- (firstn_skipn i s) in Hasc.
  apply StronglySorted_app_elim in Hasc as (H1 & H2 & Hx).
  rewrite Forall_forall in Hs, HF, HT.
  apply StronglySorted_app_intro; [exact H1| |].
  - constructor; [exact H2|]. apply Forall_forall. intros z Hz.
    apply lt_asym; auto. apply Hs. eapply in_skipn_of. exact Hz.
  - intros a b Ha [<-|Hb]; [now apply HF | now apply Hx].
Qed.

Lemma binary_insert_ok (s : list A) (pivot : A) :
  ok pivot -> Forall ok s -> Forall ok (PyList.binary_insert A lt s pivot).
Proof.
  intros Hp Hs. eapply Permutation_Forall.
  - apply Permutation_sym, binary_insert_perm.
  - now constructor.
Qed.


Lemma binary_insert_filter (P : A -> bool) (s : list A) (pivot : A) :
  key_class lt ok P ->
  ok pivot -> Forall ok s -> ascending lt s ->
  filter P (PyList.binary_insert A lt s pivot)
  = filter P s ++ (if P pivot then [pivot] else []).
Proof.
  intros HP Hp Hs Hasc.
  destruct (binary_insert_spec s pivot Hp Hs Hasc) as (i & -> & HF & HT).
  rewrite <- (firstn_skipn i s) at 3. rewrite !filter_app. simpl.
  destruct (P pivot) eqn:E; [|now rewrite app_nil_r].
  rewrite (filter_none P (skipn i s)); [now rewrite app_nil_r|].
  intros z Hz. destruct (P z) eqn:Ez; [|reflexivity].
  rewrite Forall_forall in Hs, HT.
  assert (Hok : ok z) by (apply Hs; eapply in_skipn_of; exact Hz).
  specialize (HT z Hz). rewrite (HP pivot z Hp Hok E Ez) in HT.
  discriminate.
Qed.

Lemma binarysort_spec (P : A -> bool) (rest s : list A) :
  key_class lt ok P ->
  Forall ok s -> Forall ok rest -> ascending lt s ->
  ascending lt (PyList.binarysort A lt s rest)
  /\ filter P (PyList.binarysort A lt s rest) = filter P s ++ filter P rest.
Proof.
  intros HP Hs Hrest. revert s Hs.
  unfold PyList.binarysort.
  induction Hrest as [|x rest Hx Hrest IH]; intros s Hs Hasc; simpl.
  - split; [exact Hasc | now rewrite app_nil_r].
  - destruct (IH (PyList.binary_insert A lt s x)
                 (binary_insert_ok s x Hx Hs)
                 (binary_insert_sorted s x Hx Hs Hasc)) as [H1 H2].
    split; [exact H1|].
    rewrite H2, (binary_insert_filter P s x HP Hx Hs Hasc), <- app_assoc.
    now destruct (P x).
Qed.

(** A strictly descending run has at most one element of a class. *)
Lemma strict_run_filter (P : A -> bool) (l : list A) :
  key_class lt ok P -> Forall ok l ->
  StronglySorted (fun a b => lt b a = true) l ->
  filter P (rev l) = filter P l.
Proof.
  intros HP Hok Hs. rewrite filter_rev.
  assert (Hsmall : (List.length (filter P l) <= 1)%nat).
  { induction Hs as [|a l Hs IH Ha]; simpl; [lia|].
    apply Forall_cons_iff in Hok as [Hoka Hok].
    destruct (P a) eqn:E; [|now apply IH].
    rewrite (filter_none P l); [simpl; lia|].
    intros y Hy. destruct (P y) eqn:Ey; [|reflexivity].
    rewrite Forall_forall in Ha, Hok.
    specialize (Ha y Hy). rewrite (HP y a (Hok y Hy) Hoka Ey E) in Ha.
    discriminate. }
  destruct (filter P l) as [|a [|b t]]; simpl in *; try reflexivity. lia.
Qed.

(** The run the sort starts from, put in ascending order. *)
Lemma count_run_spec (P : A -> bool) (l : list A) :
  key_class lt ok P -> Forall ok l ->
  let run := firstn (fst (PyList.count_run A lt l)) l in
  let start := if snd (PyList.count_run A lt l) then rev run else run in
  ascending lt start /\ filter P start = filter P run.
Proof.
  intros HP Hok. destruct l as [|a [|b l]]; simpl.
  - split; [constructor | reflexivity].
  - split; [repeat constructor | reflexivity].
  - apply Forall_cons_iff in Hok as [Ha Hok].
    destruct (lt b a) eqn:E; cbn [fst snd firstn].
    + pose proof (run_desc_sorted a (b :: l) Ha Hok) as Hs.
      simpl in Hs. rewrite E in Hs. cbn [firstn] in Hs.
      assert (Hrun : Forall ok (a :: b :: firstn (PyList.run_desc A lt b l) l)).
      { constructor; [exact Ha|]. apply Forall_forall. intros y Hy.
        rewrite Forall_forall in Hok. apply Hok.
        eapply (in_firstn_of (S (PyList.run_desc A lt b l)) (b :: l)).
        exact Hy. }
      split; [|exact (strict_run_filter P _ HP Hrun Hs)].
      apply StronglySorted_rev in Hs. unfold ascending.
      eapply StronglySorted_impl_in; [|exact Hs].
      intros x y Hx Hy H. cbv beta in H.
      rewrite Forall_forall in Hrun.
      apply lt_asym; auto; apply Hrun; apply in_rev; assumption.
    + pose proof (run_asc_sorted a (b :: l) Ha Hok) as Hs.
      simpl in Hs. rewrite E in Hs. cbn [firstn] in Hs.
      split; [exact Hs | reflexivity].
Qed.

Lemma listsort_spec (P : A -> bool) (l : list A) :
  key_class lt ok P -> Forall ok l ->
  ascending lt (PyList.listsort A lt l)
  /\ filter P (PyList.listsort A lt l) = filter P l.
Proof.
  intros HP Hok. unfold PyList.listsort.
  pose proof (count_run_spec P l HP Hok) as Hrun.
  destruct (PyList.count_run A lt l) as [n d]. cbn [fst snd] in Hrun.
  cbv zeta in Hrun. destruct Hrun as [Hasc Hfil].
  assert (Hfirst : Forall ok (firstn n l)).
  { apply Forall_forall. intros y Hy. rewrite Forall_forall in Hok.
    apply Hok. eapply in_firstn_of. exact Hy. }
  assert (Hskip : Forall ok (skipn n l)).
  { apply Forall_forall. intros y Hy. rewrite Forall_forall in Hok.
    apply Hok. eapply in_skipn_of. exact Hy. }
  assert (Hstart : Forall ok (if d then rev (firstn n l) else firstn n l))
    by (destruct d; [now apply Forall_rev | exact Hfirst]).
  destruct (binarysort_spec P (skipn n l) _ HP Hstart Hskip Hasc) as [H1 H2].
  split; [exact H1|].
  rewrite H2, Hfil, <- filter_app, firstn_skipn. reflexivity.
Qed.

(** With comparable keys, [sort(reverse=True)] puts the list in descending
    order and keeps the elements of a class in their order. *)
Lemma sort_reverse_spec (P : A -> bool) (l : list A) :
  key_class lt ok P -> Forall ok l ->
  StronglySorted (fun a b => lt a b = false) (PyList.sort A lt true l)
  /\ filter P (PyList.sort A lt true l) = filter P l.
Proof.
  intros HP Hok. unfold PyList.sort.
  destruct (listsort_spec P (rev l) HP (Forall_rev Hok)) as [H1 H2].
  split.
  - apply StronglySorted_rev in H1. exact H1.
  - now rewrite filter_rev, H2, filter_rev, rev_involutive.
Qed.

End SortOrders.

(** ** Sorting chunks by score *)

Lemma sort_by_score_perm (l : list RetrievedChunk) :
  Permutation (sort_by_score l) l.
Proof. apply sort_perm. Qed.

Lemma sort_by_score_length (l : list RetrievedChunk) :
  List.length (sort_by_score l) = List.length l.
Proof. apply Permutation_length, sort_by_score_perm. Qed.

Lemma sort_by_score_Forall (P : RetrievedChunk -> Prop)
    (l : list RetrievedChunk) :
  Forall P l -> Forall P (sort_by_score l).
Proof.
  intros H. eapply Permutation_Forall; [|exact H].
  apply Permutation_sym, sort_by_score_perm.
Qed.

Lemma score_lt_asym (a b : RetrievedChunk) :
  score a <> NaN -> score b <> NaN ->
  flt (score a) (score b) = true -> flt (score b) (score a) = false.
Proof. intros _ _ H. apply fle_flt_false, flt_fle, H. Qed.

Lemma score_lt_trans (a b c : RetrievedChunk) :
  score a <> NaN -> score b <> NaN -> score c <> NaN ->
  flt (score a) (score b) = true -> flt (score b) (score c) = true ->
  flt (score a) (score c) = true.
Proof.
  intros Ha Hb Hc Hab Hbc. rewrite (flt_negb_fle _ _ Ha Hc).
  apply negb_true_iff.
  destruct (fle (score c) (score a)) eqn:E; [|reflexivity].
  pose proof (fle_trans _ _ _ E (flt_fle _ _ Hab)) as H.
  rewrite (flt_true_fle_false _ _ Hbc) in H. discriminate.
Qed.

Lemma score_le_trans (a b c : RetrievedChunk) :
  score a <> NaN -> score b <> NaN -> score c <> NaN ->
  flt (score b) (score a) = false -> flt (score c) (score b) = false ->
  flt (score c) (score a) = false.
Proof.
  intros Ha Hb Hc H1 H2. apply fle_flt_false.
  apply fle_trans with (y := score b); now apply flt_false_fle.
Qed.

Lemma with_score_class (s : float) :
  key_class (fun a b => flt (score a) (score b)) (fun c => score c <> NaN)
            (fun c => feq (score c) s).
Proof.
  intros a b _ _ Ha Hb.
  apply feq_fle in Ha as [Ha1 Ha2]. apply feq_fle in Hb as [Hb1 Hb2].
  apply fle_flt_false. exact (fle_trans _ _ _ Hb1 Ha2).
Qed.

(** When no score is NaN, the sort leaves the chunks in descending order
    of score, those of one score in the order they had. *)
Lemma sort_by_score_spec (s : float) (l : list RetrievedChunk) :
  nan_free l ->
  non_increasing (sort_by_score l)
  /\ with_score s (sort_by_score l) = with_score s l.
Proof.
  intros Hl.
  destruct (sort_reverse_spec RetrievedChunk _ (fun c => score c <> NaN)
              score_lt_asym score_lt_trans score_le_trans
              _ l (with_score_class s) Hl) as [H1 H2].
  split; [|exact H2].
  pose proof (sort_by_score_Forall _ l Hl) as Hok.
  rewrite Forall_forall in Hok.
  unfold non_increasing. eapply StronglySorted_impl_in; [|exact H1].
  intros a b Ha Hb H. cbv beta in H.
  apply flt_false_fle; [apply Hok, Ha | apply Hok, Hb | exact H].
Qed.

Lemma sort_by_score_sorted (l : list RetrievedChunk) :
  nan_free l -> non_increasing (sort_by_score l).
Proof. intros H. exact (proj1 (sort_by_score_spec NaN l H)). Qed.

Lemma with_score_sort_by_score (s : float) (l : list RetrievedChunk) :
  nan_free l -> with_score s (sort_by_score l) = with_score s l.
Proof. intros H. exact (proj2 (sort_by_score_spec s l H)). Qed.

Lemma nan_free_filter (f : RetrievedChunk -> bool) (l : list RetrievedChunk) :
  nan_free l -> nan_free (filter f l).
Proof.
  unfold nan_free. rewrite !Forall_forall. intros H c Hc.
  apply filter_In in Hc as [Hc _]. now apply H.
Qed.

(** What reaches a threshold is not NaN. *)
Lemma nan_free_above (t : float) (l : list RetrievedChunk) :
  nan_free (filter (fun c => fle t (score c)) l).
Proof.
  apply Forall_forall. intros c Hc. apply filter_In in Hc as [_ Hc].
  apply fle_not_nan in Hc. apply Hc.
Qed.

Lemma passing_nan_free (thr : Q) (rows : list (str * metadata * float)) :
  nan_free (passing thr rows).
Proof. apply nan_free_above. Qed.

Lemma non_increasing_filter (f : RetrievedChunk -> bool)
    (l : list RetrievedChunk) :
  non_increasing l -> non_increasing (filter f l).
Proof.
  unfold non_increasing. induction 1 as [|c l Hs IH Hc]; simpl.
  - constructor.
  - destruct (f c); [|exact IH].
    constructor; [exact IH|].
    apply Forall_forall. intros d Hd. apply filter_In in Hd as [Hd _].
    rewrite Forall_forall in Hc. apply Hc, Hd.
Qed.

Lemma non_increasing_firstn (n : nat) (l : list RetrievedChunk) :
  non_increasing l -> non_increasing (firstn n l).
Proof.
  unfold non_increasing. intros H. revert n.
  induction H as [|c l Hs IH Hc]; intros [|n]; simpl; try constructor.
  - apply IH.
  - apply Forall_forall. intros d Hd.
    rewrite Forall_forall in Hc. apply Hc. eapply in_firstn_of, Hd.
Qed.

Lemma Forall_firstn_of {A : Type} (P : A -> Prop) (n : nat) (l : list A) :
  Forall P l -> Forall P (firstn n l).
Proof.
  intros H. apply Forall_forall. intros a Ha.
  rewrite Forall_forall in H. apply H. eapply in_firstn_of, Ha.
Qed.

Lemma above_floor_filter (l : list RetrievedChunk) :
  Forall (fun c => (MIN_ACCEPTABLE_SCORE <= score c)%F) (filter above_floor l).
Proof.
  apply Forall_forall. intros c Hc. apply filter_In in Hc as [_ Hc].
  exact Hc.
Qed.

(** ** The two selections *)

Lemma well_ranked_nil (width : nat) : well_ranked width [].
Proof. split; [constructor | simpl; lia]. Qed.

Lemma well_ranked_top (k : nat) (l : list RetrievedChunk) :
  well_ranked k (firstn k (sort_by_score (filter above_floor l))).
Proof.
  split.
  - apply Forall_firstn_of, sort_by_score_Forall, above_floor_filter.
  - apply firstn_le_length.
Qed.

Lemma well_ranked_top_of_sorted (k : nat) (l : list RetrievedChunk) :
  well_ranked k (firstn k (filter above_floor (sort_by_score l))).
Proof.
  split.
  - apply Forall_firstn_of, above_floor_filter.
  - apply firstn_le_length.
Qed.

Lemma primary_selection_well_ranked (single : bool) (k : nat)
    (passed r : list RetrievedChunk) :
  primary_selection single k passed = Some r -> well_ranked k r.
Proof.
  unfold primary_selection.
  destruct passed as [|p passed]; [discriminate|]. cbv zeta.
  destruct single;
    destruct (filter above_floor (p :: passed)) as [|s strong] eqn:E;
    intros H; try discriminate; injection H as <-.
  - rewrite <- E. apply well_ranked_top.
  - apply well_ranked_nil.
  - rewrite <- E. apply well_ranked_top.
Qed.

Lemma fallback_selection_well_ranked (single : bool) (k : nat)
    (all : list RetrievedChunk) :
  well_ranked (if single then k else 3%nat) (fallback_selection single k all).
Proof.
  unfold fallback_selection. cbv zeta.
  destruct (filter above_floor (sort_by_score all)) as [|s strong] eqn:E.
  - apply well_ranked_nil.
  - rewrite <- E. destruct single; apply well_ranked_top_of_sorted.
Qed.

Lemma ranked_well_ranked (q : str) (thr : Q)
    (rows : list (str * metadata * float)) :
  well_ranked (effective_top_k q)
              (ranked (is_single_word q) (effective_top_k q) thr rows).
Proof.
  rewrite ranked_eq.
  destruct (primary_selection _ _ _) as [r|] eqn:E.
  - eapply primary_selection_well_ranked, E.
  - pose proof (fallback_selection_well_ranked (is_single_word q)
                  (effective_top_k q) (candidates rows)) as H.
    unfold effective_top_k in *. destruct (is_single_word q); exact H.
Qed.

(** The primary selection sorts chunks that passed the threshold: none of
    them is NaN, and the result is in descending order. *)
Lemma primary_selection_sorted (single : bool) (k : nat) (thr : Q)
    (rows : list (str * metadata * float)) (r : list RetrievedChunk) :
  primary_selection single k (passing thr rows) = Some r -> non_increasing r.
Proof.
  assert (Htop : non_increasing
            (firstn k (sort_by_score (filter above_floor (passing thr rows))))).
  { apply non_increasing_firstn, sort_by_score_sorted, nan_free_filter,
      passing_nan_free. }
  unfold primary_selection.
  destruct (passing thr rows) as [|p l] eqn:E; [discriminate|]. cbv zeta.
  destruct single;
    destruct (filter above_floor (p :: l)) as [|c strong];
    intros H; try discriminate; injection H as <-;
    first [exact Htop | constructor].
Qed.

Lemma fallback_selection_sorted (single : bool) (k : nat)
    (all : list RetrievedChunk) :
  nan_free all -> non_increasing (fallback_selection single k all).
Proof.
  intros Hall.
  assert (Htop : forall n,
            non_increasing (firstn n (filter above_floor (sort_by_score all)))).
  { intros n. apply non_increasing_firstn, non_increasing_filter,
      sort_by_score_sorted, Hall. }
  unfold fallback_selection. cbv zeta.
  destruct (filter above_floor (sort_by_score all)) as [|c strong];
    [constructor|].
  destruct single; apply Htop.
Qed.

Lemma primary_selection_none (single : bool) (k : nat)
    (passed : list RetrievedChunk) :
  primary_selection single k passed = None ->
  passed = [] \/ (single = true /\ filter above_floor passed = []).
Proof.
  unfold primary_selection. destruct passed as [|p l]; [now left|].
  cbv zeta. destruct single;
    destruct (filter above_floor (p :: l)); intros H; try discriminate.
  right. split; reflexivity.
Qed.

(** ** Below the floor *)

Lemma fle_total (x y : float) :
  x <> NaN -> y <> NaN -> fle x y = false -> fle y x = true.
Proof.
  intros Hx Hy H. apply flt_fle. rewrite (flt_negb_fle y x Hy Hx), H.
  reflexivity.
Qed.

(** If something passes the threshold and nothing that passes reaches the
    floor, the threshold itself lies below the floor, and then no candidate
    at all reaches the floor. *)
Lemma no_survivor_when_passing_below_floor (thr : Q)
    (rows : list (str * metadata * float)) :
  passing thr rows <> [] ->
  filter above_floor (passing thr rows) = [] ->
  forall c, In c (candidates rows) -> above_floor c = false.
Proof.
  intros Hp Hfl c Hc.
  destruct (passing thr rows) as [|p l] eqn:E; [contradiction|].
  assert (Hin : In p (passing thr rows)) by (rewrite E; now left).
  unfold passing in Hin. apply filter_In in Hin as [_ Hpass].
  assert (Hlow : above_floor p = false).
  { destruct (above_floor p) eqn:Ha; [|reflexivity].
    assert (In p (filter above_floor (p :: l))).
    { apply filter_In. split; [now left | exact Ha]. }
    rewrite Hfl in H. contradiction. }
  destruct (above_floor c) eqn:Ha; [|reflexivity]. exfalso.
  unfold passes in Hpass. unfold above_floor in Hlow, Ha.
  assert (Hpf : fle (score p) MIN_ACCEPTABLE_SCORE = true).
  { apply fle_total; [discriminate | | exact Hlow].
    apply fle_not_nan in Hpass. apply Hpass. }
  assert (Hc' : In c (filter above_floor (passing thr rows))).
  { apply filter_In. split; [|exact Ha].
    unfold passing. apply filter_In. split; [exact Hc|].
    unfold passes.
    exact (fle_trans _ _ _ Hpass (fle_trans _ _ _ Hpf Ha)). }
  rewrite E, Hfl in Hc'. contradiction.
Qed.

Lemma floor_survivors_nil (thr : Q) (rows : list (str * metadata * float)) :
  passing thr rows <> [] ->
  filter above_floor (passing thr rows) = [] ->
  floor_survivors rows = [].
Proof.
  intros Hp Hfl. unfold floor_survivors.
  apply filter_none. intros c Hc.
  apply (no_survivor_when_passing_below_floor thr rows Hp Hfl).
  eapply Permutation_in; [apply sort_by_score_perm | exact Hc].
Qed.

Lemma fallback_selection_nil (single : bool) (k : nat)
    (rows : list (str * metadata * float)) :
  floor_survivors rows = [] ->
  fallback_selection single k (candidates rows) = [].
Proof.
  intros H. unfold fallback_selection. cbv zeta.
  fold (floor_survivors rows). rewrite H. reflexivity.
Qed.

Lemma filter_id_of_all_true {A : Type} (f : A -> bool) (l : list A) :
  (forall a, In a l -> f a = true) -> filter f l = l.
Proof.
  induction l as [|a l IH]; intros H; simpl; [reflexivity|].
  rewrite (H a (or_introl eq_refl)). f_equal. apply IH.
  intros b Hb. apply H. now right.
Qed.

(** The fallback is reached with a non-empty [passed_threshold] only to
    return nothing. *)
Lemma fallback_after_passing (single : bool) (k : nat) (thr : Q)
    (rows : list (str * metadata * float)) :
  passing thr rows <> [] ->
  primary_selection single k (passing thr rows) = None ->
  fallback_selection single k (candidates rows) = [].
Proof.
  intros Hp Hnone.
  apply primary_selection_none in Hnone as [E | [_ E]]; [contradiction|].
  apply fallback_selection_nil, (floor_survivors_nil thr rows Hp E).
Qed.

Lemma nan_free_dec (l : list RetrievedChunk) :
  nan_free l \/ Exists (fun c => score c = NaN) l.
Proof.
  induction l as [|c l [IH|IH]].
  - left. constructor.
  - destruct (score c) eqn:E.
    + left. constructor; [rewrite E; discriminate | exact IH].
    + left. constructor; [rewrite E; discriminate | exact IH].
    + left. constructor; [rewrite E; discriminate | exact IH].
    + right. now constructor.
  - right. now constructor 2.
Qed.

Lemma ranked_sorted (single : bool) (k : nat) (thr : Q)
    (rows : list (str * metadata * float)) :
  nan_free (candidates rows) \/ passing thr rows <> [] ->
  non_increasing (ranked single k thr rows).
Proof.
  intros H. rewrite ranked_eq.
  destruct (primary_selection single k (passing thr rows)) as [r|] eqn:E.
  - eapply primary_selection_sorted, E.
  - destruct H as [H|H].
    + now apply fallback_selection_sorted.
    + rewrite (fallback_after_passing single k thr rows H E). constructor.
Qed.

(** ** Ties *)

Lemma with_score_filter_ge (s t : float) (l : list RetrievedChunk) :
  with_score s (filter (fun c => fle t (score c)) l)
  = if fle t s then with_score s l else [].
Proof.
  unfold with_score. induction l as [|c l IH]; simpl.
  - now destruct (fle t s).
  - destruct (feq (score c) s) eqn:Hc.
    + rewrite (feq_class_fle t _ _ Hc).
      destruct (fle t s) eqn:Hts.
      * simpl. rewrite Hc. now rewrite IH.
      * exact IH.
    + destruct (fle t (score c)).
      * simpl. rewrite Hc. exact IH.
      * exact IH.
Qed.

Lemma prefix_nil {A : Type} (l : list A) : prefix [] l.
Proof. exists l. reflexivity. Qed.

Lemma prefix_refl {A : Type} (l : list A) : prefix l l.
Proof. exists []. now rewrite app_nil_r. Qed.

Lemma prefix_trans {A : Type} (l1 l2 l3 : list A) :
  prefix l1 l2 -> prefix l2 l3 -> prefix l1 l3.
Proof.
  intros [r1 ->] [r2 ->]. exists (r1 ++ r2). now rewrite app_assoc.
Qed.

Lemma with_score_firstn (s : float) (n : nat) (l : list RetrievedChunk) :
  prefix (with_score s (firstn n l)) (with_score s l).
Proof.
  exists (with_score s (skipn n l)). unfold with_score.
  rewrite <- filter_app, firstn_skipn. reflexivity.
Qed.

Lemma with_score_filter_ge_prefix (s t : float) (l : list RetrievedChunk) :
  prefix (with_score s (filter (fun c => fle t (score c)) l))
         (with_score s l).
Proof.
  rewrite with_score_filter_ge.
  destruct (fle t s); [apply prefix_refl | apply prefix_nil].
Qed.

Lemma primary_selection_ties (single : bool) (k : nat) (thr : Q) (s : float)
    (rows : list (str * metadata * float)) (r : list RetrievedChunk) :
  primary_selection single k (passing thr rows) = Some r ->
  prefix (with_score s r) (with_score s (candidates rows)).
Proof.
  assert (Htop : prefix
            (with_score s
               (firstn k (sort_by_score
                            (filter above_floor (passing thr rows)))))
            (with_score s (candidates rows))).
  { eapply prefix_trans; [apply with_score_firstn|].
    rewrite with_score_sort_by_score
      by apply nan_free_filter, passing_nan_free.
    eapply prefix_trans; [apply with_score_filter_ge_prefix|].
    apply with_score_filter_ge_prefix. }
  unfold primary_selection.
  destruct (passing thr rows) as [|p l] eqn:E; [discriminate|]. cbv zeta.
  destruct single;
    destruct (filter above_floor (p :: l)) as [|c strong];
    intros H; try discriminate; injection H as <-;
    first [exact Htop | apply prefix_nil].
Qed.

Lemma fallback_selection_ties (single : bool) (k : nat) (s : float)
    (all : list RetrievedChunk) :
  nan_free all ->
  prefix (with_score s (fallback_selection single k all)) (with_score s all).
Proof.
  intros Hall.
  assert (Htop : forall n,
            prefix (with_score s
                      (firstn n (filter above_floor (sort_by_score all))))
                   (with_score s all)).
  { intros n. eapply prefix_trans; [apply with_score_firstn|].
    eapply prefix_trans; [apply with_score_filter_ge_prefix|].
    rewrite (with_score_sort_by_score s all Hall). apply prefix_refl. }
  unfold fallback_selection. cbv zeta.
  destruct (filter above_floor (sort_by_score all)) as [|c strong];
    [apply prefix_nil|].
  destruct single; apply Htop.
Qed.

Lemma ranked_ties (single : bool) (k : nat) (thr : Q) (s : float)
    (rows : list (str * metadata * float)) :
  nan_free (candidates rows) \/ passing thr rows <> [] ->
  prefix (with_score s (ranked single k thr rows))
         (with_score s (candidates rows)).
Proof.
  intros H. rewrite ranked_eq.
  destruct (primary_selection single k (passing thr rows)) as [r|] eqn:E.
  - eapply primary_selection_ties, E.
  - destruct H as [H|H].
    + now apply fallback_selection_ties.
    + rewrite (fallback_after_passing single k thr rows H E).
      apply prefix_nil.
Qed.

Lemma filter_split_at {A : Type} (f : A -> bool) (l x y : list A) (a : A) :
  filter f l = x ++ a :: y ->
  exists l1 l2, l = l1 ++ a :: l2 /\ filter f l1 = x /\ filter f l2 = y.
Proof.
  revert x. induction l as [|b l IH]; intros x H; simpl in H.
  - destruct x; discriminate.
  - destruct (f b) eqn:Hb.
    + destruct x as [|b' x]; simpl in H.
      * injection H as -> Hy. exists [], l. simpl. auto.
      * injection H as -> H. apply IH in H as (l1 & l2 & -> & <- & <-).
        exists (b' :: l1), l2. simpl. rewrite Hb. auto.
    + apply IH in H as (l1 & l2 & -> & <- & <-).
      exists (b :: l1), l2. simpl. rewrite Hb. auto.
Qed.

Lemma is_single_word_true (q : str) :
  List.length (split q) = 1%nat -> is_single_word q = true.
Proof. unfold is_single_word. intros ->. reflexivity. Qed.

Lemma is_single_word_false (q : str) :
  (2 <= List.length (split q))%nat -> is_single_word q = false.
Proof. unfold is_single_word. intros H. apply Nat.eqb_neq. lia. Qed.

Lemma strip_nonempty_of_split (q : str) :
  (1 <= List.length (split q))%nat -> strip q <> [].
Proof.
  intros H E. apply strip_nil_all_space, split_from_all_space in E.
  unfold split in H. rewrite E in H. simpl in H. lia.
Qed.

(** ** Properties of [retrieve] *)

(** C1. Whatever the query, [top_k] and [similarity_threshold], every chunk
    returned by [retrieve] scores at least [MIN_ACCEPTABLE_SCORE] (-0.55);
    and the returned scores never increase with the position, unless no
    candidate passed the effective threshold and the index answered with a
    similarity that is NaN. *)
Theorem retrieve_sorted_above_floor (env : Collaborators) (q : str) (k : Z)
    (st : Q) (tr tr' : trace) (r : list RetrievedChunk) :
  retrieve env q k st tr = (Returned r, tr') ->
  Forall (fun c => (- (55 # 100) <= score c)%F) r
  /\ (non_increasing r
      \/ exists rows,
           fetch_rows env q (effective_top_k q) tr = (Returned rows, tr')
           /\ passing (effective_threshold q st) rows = []
           /\ Exists (fun c => score c = NaN) (candidates rows)).
Proof.
  intros H. apply retrieve_returned in H as [(_ & -> & _) | (_ & rows & Hf & ->)].
  - split; [constructor | left; constructor].
  - split.
    + exact (proj1 (ranked_well_ranked q (effective_threshold q st) rows)).
    + destruct (nan_free_dec (candidates rows)) as [Hn|Hn].
      * left. apply ranked_sorted. now left.
      * destruct (passing (effective_threshold q st) rows) as [|p l] eqn:E.
        -- right. exists rows. auto.
        -- left. apply ranked_sorted. right. rewrite E. discriminate.
Qed.

(** C7. The length of a returned sequence is at most the effective top-K
    of the query's mode (6 for one word, 3 otherwise); the precise-mode
    fallback returns at most 3 chunks whatever width it is given. *)
Theorem retrieve_length_bound (env : Collaborators) (q : str) (k : Z)
    (st : Q) (tr tr' : trace) (r : list RetrievedChunk) :
  retrieve env q k st tr = (Returned r, tr') ->
  (List.length r <= (if is_single_word q then 6 else 3))%nat
  /\ (forall (width : nat) (all : list RetrievedChunk),
        (List.length (fallback_selection false width all) <= 3)%nat).
Proof.
  intros H. split.
  - apply retrieve_returned in H as [(_ & -> & _) | (_ & rows & _ & ->)].
    + simpl. destruct (is_single_word q); lia.
    + exact (proj2 (ranked_well_ranked q (effective_threshold q st) rows)).
  - intros width all.
    exact (proj2 (fallback_selection_well_ranked false width all)).
Qed.

(** C6. For a query that is empty or made of whitespace only, [retrieve]
    returns the empty sequence and leaves the trace of collaborator calls
    as it found it: neither client is created, nothing is embedded and the
    index is not queried. *)
Theorem retrieve_blank_query (env : Collaborators) (q : str) (k : Z) (st : Q)
    (tr : trace) :
  forallb isspace q = true ->
  retrieve env q k st tr = (Returned [], tr).
Proof.
  intros H. rewrite (retrieve_blank env q k st H). reflexivity.
Qed.

(** C9. The result of [retrieve] does not depend on the [top_k] it is
    given: with the same collaborators, query and threshold, any two values
    of [top_k] give the same outcome and the same trace. *)
Theorem retrieve_ignores_top_k (env : Collaborators) (q : str) (k1 k2 : Z)
    (st : Q) (tr : trace) :
  retrieve env q k1 st tr = retrieve env q k2 st tr.
Proof. reflexivity. Qed.

(** C2. For a non-empty query, one whitespace-separated token makes
    [retrieve] work with effective top-K 6 and effective threshold
    [0.8 * similarity_threshold]; two or more tokens make it work with
    effective top-K 3 and the threshold as supplied. *)
Theorem retrieve_effective_parameters (env : Collaborators) (q : str) (k : Z)
    (st : Q) (tr : trace) :
  strip q <> [] ->
  (List.length (split q) = 1%nat ->
     effective_top_k q = 6%nat
     /\ effective_threshold q st = st * (8 # 10)
     /\ retrieve env q k st tr
        = (rows <- fetch_rows env q 6 ;;
           ret (ranked true 6 (st * (8 # 10)) rows)) tr)
  /\ ((2 <= List.length (split q))%nat ->
     effective_top_k q = 3%nat
     /\ effective_threshold q st = st
     /\ retrieve env q k st tr
        = (rows <- fetch_rows env q 3 ;; ret (ranked false 3 st rows)) tr).
Proof.
  intros Hs. split; intros Hw.
  - pose proof (is_single_word_true q Hw) as E.
    rewrite (retrieve_nonblank env q k st tr Hs).
    unfold effective_top_k, effective_threshold. rewrite E. auto.
  - pose proof (is_single_word_false q Hw) as E.
    rewrite (retrieve_nonblank env q k st tr Hs).
    unfold effective_top_k, effective_threshold. rewrite E. auto.
Qed.


(** C4. For a multi-token query with at least one candidate passing the
    effective threshold but none of the passing ones at or above -0.55,
    [retrieve] returns the empty sequence from the primary selection
    itself; control does not reach the fallback. *)
Theorem retrieve_precise_below_floor (env : Collaborators) (q : str) (k : Z)
    (st : Q) (tr tr' : trace) (rows : list (str * metadata * float)) :
  (2 <= List.length (split q))%nat ->
  fetch_rows env q (effective_top_k q) tr = (Returned rows, tr') ->
  passing (effective_threshold q st) rows <> [] ->
  filter above_floor (passing (effective_threshold q st) rows) = [] ->
  primary_selection (is_single_word q) (effective_top_k q)
                    (passing (effective_threshold q st) rows) = Some []
  /\ retrieve env q k st tr = (Returned [], tr').
Proof.
  intros Hw Hf Hp Hfl.
  assert (Hs : strip q <> []) by (apply strip_nonempty_of_split; lia).
  assert (Hprim : primary_selection (is_single_word q) (effective_top_k q)
                    (passing (effective_threshold q st) rows) = Some []).
  { rewrite (is_single_word_false q Hw). unfold primary_selection.
    destruct (passing (effective_threshold q st) rows) as [|c l];
      [contradiction|].
    cbv zeta. rewrite Hfl. reflexivity. }
  split; [exact Hprim|].
  rewrite (retrieve_of_fetch env q k st tr tr' rows Hs Hf).
  rewrite ranked_eq, Hprim. reflexivity.
Qed.

(** C10. Under the default threshold the effective threshold is at least
    -0.55.  Whenever the effective threshold is at least -0.55, every
    candidate that passes it also reaches the floor, so [strong_enough] is
    [passed_threshold]; a non-empty [passed_threshold] never sends control
    to the fallback; and a single-token query with a non-empty
    [passed_threshold] gets exactly the first 6 of [passed_threshold]
    sorted by descending score: a rearrangement of [passed_threshold] whose
    scores never increase, chunks of one score in index order. *)
Theorem retrieve_threshold_above_floor (env : Collaborators) (q : str) (k : Z)
    (st : Q) (tr tr' : trace) (rows : list (str * metadata * float)) :
  - (55 # 100) <= effective_threshold q DEFAULT_SIMILARITY_THRESHOLD
  /\ (- (55 # 100) <= effective_threshold q st ->
      fetch_rows env q (effective_top_k q) tr = (Returned rows, tr') ->
      filter above_floor (passing (effective_threshold q st) rows)
      = passing (effective_threshold q st) rows
      /\ (passing (effective_threshold q st) rows <> [] ->
          primary_selection (is_single_word q) (effective_top_k q)
            (passing (effective_threshold q st) rows) <> None)
      /\ (List.length (split q) = 1%nat ->
          passing (effective_threshold q st) rows <> [] ->
          retrieve env q k st tr
          = (Returned (firstn 6 (sort_by_score
                         (passing (effective_threshold q st) rows))), tr')
          /\ Permutation
               (sort_by_score (passing (effective_threshold q st) rows))
               (passing (effective_threshold q st) rows)
          /\ non_increasing
               (sort_by_score (passing (effective_threshold q st) rows))
          /\ (forall x,
                with_score x
                  (sort_by_score (passing (effective_threshold q st) rows))
                = with_score x (passing (effective_threshold q st) rows)))).
Proof.
  split.
  { unfold effective_threshold, DEFAULT_SIMILARITY_THRESHOLD.
    destruct (is_single_word q); apply Qle_bool_iff; reflexivity. }
  intros Hthr Hf.
  assert (Hid : filter above_floor (passing (effective_threshold q st) rows)
                = passing (effective_threshold q st) rows).
  { apply filter_id_of_all_true. intros c Hc.
    unfold passing in Hc. apply filter_In in Hc as [_ Hc].
    unfold passes in Hc. unfold above_floor.
    refine (fle_trans _ _ _ _ Hc). simpl. now apply Qle_bool_iff. }
  assert (Hprim : forall single,
            passing (effective_threshold q st) rows <> [] ->
            primary_selection single (effective_top_k q)
              (passing (effective_threshold q st) rows)
            = Some (firstn (effective_top_k q)
                      (sort_by_score
                         (passing (effective_threshold q st) rows)))).
  { intros single Hp. unfold primary_selection. cbv zeta. rewrite Hid.
    destruct (passing (effective_threshold q st) rows) as [|c l];
      [contradiction|].
    now destruct single. }
  split; [exact Hid|]. split.
  - intros Hp. rewrite (Hprim _ Hp). discriminate.
  - intros Hw Hp.
    assert (Hs : strip q <> []) by (apply strip_nonempty_of_split; lia).
    split; [|split; [apply sort_by_score_perm|split]].
    + rewrite (retrieve_of_fetch env q k st tr tr' rows Hs Hf).
      rewrite ranked_eq, (Hprim _ Hp).
      unfold effective_top_k at 1. rewrite (is_single_word_true q Hw).
      reflexivity.
    + apply sort_by_score_sorted, passing_nan_free.
    + intros x. apply with_score_sort_by_score, passing_nan_free.
Qed.

(** C8. When no candidate's similarity is NaN, or some candidate passes the
    effective threshold, returned chunks of equal score stand in the order
    the index gave them: for each score, the returned chunks with that
    score are the first few candidates with that score, in candidate order;
    so of two returned chunks with equal scores, the one returned first
    also comes first among the candidates. *)
Theorem retrieve_ties_keep_index_order (env : Collaborators) (q : str) (k : Z)
    (st : Q) (tr tr' : trace) (rows : list (str * metadata * float))
    (r : list RetrievedChunk) :
  fetch_rows env q (effective_top_k q) tr = (Returned rows, tr') ->
  retrieve env q k st tr = (Returned r, tr') ->
  nan_free (candidates rows)
  \/ passing (effective_threshold q st) rows <> [] ->
  (forall s, prefix (with_score s r) (with_score s (candidates rows)))
  /\ (forall a b r1 r2 r3,
        r = r1 ++ a :: r2 ++ b :: r3 ->
        (score a == score b)%F ->
        exists c1 c2 c3, candidates rows = c1 ++ a :: c2 ++ b :: c3).
Proof.
  intros Hf Hr Hn.
  assert (Hpre : forall s,
            prefix (with_score s r) (with_score s (candidates rows))).
  { intros s.
    apply retrieve_returned in Hr as [(_ & -> & _) | (_ & rows' & Hf' & ->)].
    - apply prefix_nil.
    - rewrite Hf in Hf'. injection Hf' as <-. now apply ranked_ties. }
  split; [exact Hpre|].
  intros a b r1 r2 r3 -> Ea.
  destruct (Hpre (score b)) as [rest Hrest].
  unfold with_score in Hrest.
  rewrite filter_app in Hrest. simpl in Hrest.
  rewrite filter_app in Hrest. simpl in Hrest.
  assert (Eb : feq (score b) (score b) = true).
  { apply feq_fle in Ea as [_ Hba]. apply fle_not_nan in Hba as [Hb _].
    apply feq_fle. split; now apply fle_refl. }
  rewrite Ea, Eb in Hrest.
  rewrite <- app_assoc in Hrest. simpl in Hrest.
  apply filter_split_at in Hrest as (c1 & rest1 & Hc & _ & Hrest1).
  rewrite <- app_assoc in Hrest1. simpl in Hrest1.
  apply filter_split_at in Hrest1 as (c2 & c3 & -> & _ & _).
  exists c1, c2, c3. exact Hc.
Qed.

(** ** The scenarios, run *)

Import Examples.

Example scenario_A_result :
  map (fun c => (text c, score c)) (result_of scenario_A hi 4 (25 # 100))
  = [(of_string "0", Fin (9 # 10)); (of_string "1", Fin (6 # 10));
     (of_string "2", Fin (3 # 10)); (of_string "3", Fin (22 # 100))].
Proof. vm_compute. reflexivity. Qed.

Example scenario_A_calls :
  map (fun c => match c with
                | CollectionQuery _ n _ => Some n
                | _ => None
                end) (calls_of scenario_A hi)
  = [None; None; None; None; Some 12%nat].
Proof. vm_compute. reflexivity. Qed.

Example scenario_B_result :
  map (fun c => (text c, score c))
      (result_of scenario_B election_results_today 4 (25 # 100))
  = [(of_string "2", Fin (-3 # 10)); (of_string "1", Fin (-4 # 10));
     (of_string "4", Fin (-5 # 10))].
Proof. vm_compute. reflexivity. Qed.

Example scenario_C_result :
  retrieve below_floor election_results_today 4 (25 # 100) []
  = (Returned [], calls_of below_floor election_results_today).
Proof. vm_compute. reflexivity. Qed.

Example with_ties_result :
  map (fun c => (text c, score c)) (result_of with_ties hi 4 (25 # 100))
  = [(of_string "1", Fin (9 # 10)); (of_string "0", Fin (5 # 10));
     (of_string "2", Fin (5 # 10)); (of_string "3", Fin (5 # 10))].
Proof. vm_compute. reflexivity. Qed.

Example nan_between_result :
  map (fun c => (text c, score c))
      (result_of nan_between election_results_today 4 (25 # 100))
  = [(of_string "0", Fin (1 # 10)); (of_string "2", Fin (2 # 10))].
Proof. vm_compute. reflexivity. Qed.

Example nan_before_best_result :
  map (fun c => (text c, score c))
      (result_of nan_before_best election_results_today 4 (25 # 100))
  = [(of_string "0", Fin (1 # 100)); (of_string "1", Fin (1 # 100));
     (of_string "2", Fin (1 # 100))].
Proof. vm_compute. reflexivity. Qed.

Example nan_among_ties_result :
  map text (result_of nan_among_ties hi 4 (25 # 100))
  = [of_string "1"; of_string "6"; of_string "0"; of_string "2";
     of_string "3"; of_string "5"].
Proof. vm_compute. reflexivity. Qed.

(** ** The properties on the scenarios *)

Ltac no_nan :=
  vm_compute;
  repeat first [apply Forall_nil | apply Forall_cons; [discriminate|]].

Lemma retrieve_sorted_above_floor_witness :
  retrieve scenario_A hi 4 (25 # 100) []
  = (Returned (result_of scenario_A hi 4 (25 # 100)), calls_of scenario_A hi)
  /\ Forall (fun c => (- (55 # 100) <= score c)%F)
            (result_of scenario_A hi 4 (25 # 100))
  /\ (non_increasing (result_of scenario_A hi 4 (25 # 100))
      \/ exists rows,
           fetch_rows scenario_A hi (effective_top_k hi) []
           = (Returned rows, calls_of scenario_A hi)
           /\ passing (effective_threshold hi (25 # 100)) rows = []
           /\ Exists (fun c => score c = NaN) (candidates rows)).
Proof.
  assert (H : retrieve scenario_A hi 4 (25 # 100) []
              = (Returned (result_of scenario_A hi 4 (25 # 100)),
                 calls_of scenario_A hi))
    by (vm_compute; reflexivity).
  split; [exact H|].
  exact (retrieve_sorted_above_floor scenario_A hi 4 (25 # 100) [] _ _ H).
Defined.

(** C1, as stated, fails on an index that answers with a NaN distance: for
    the distances 0.9, NaN, 0.8 and a three-word query, no candidate passes
    the threshold 0.25, the fallback sorts the similarities 0.1, NaN, 0.2
    and leaves them as they are, and [retrieve] returns the scores 0.1,
    0.2: they increase. *)
Lemma retrieve_not_sorted_with_nan :
  retrieve nan_between election_results_today 4 (25 # 100) []
  = (Returned (result_of nan_between election_results_today 4 (25 # 100)),
     calls_of nan_between election_results_today)
  /\ map score (result_of nan_between election_results_today 4 (25 # 100))
     = [Fin (1 # 10); Fin (2 # 10)]
  /\ ~ non_increasing
         (result_of nan_between election_results_today 4 (25 # 100)).
Proof.
  split; [vm_compute; reflexivity|]. split; [vm_compute; reflexivity|].
  intros H. vm_compute in H.
  apply StronglySorted_inv in H as [_ H]. apply Forall_inv in H.
  discriminate.
Qed.

Lemma retrieve_effective_parameters_witness :
  (strip hi <> []
   /\ List.length (split hi) = 1%nat
   /\ effective_top_k hi = 6%nat
   /\ effective_threshold hi (25 # 100) = (25 # 100) * (8 # 10)
   /\ retrieve scenario_A hi 4 (25 # 100) []
      = (rows <- fetch_rows scenario_A hi 6 ;;
         ret (ranked true 6 ((25 # 100) * (8 # 10)) rows)) [])
  /\ (strip election_results_today <> []
      /\ (2 <= List.length (split election_results_today))%nat
      /\ effective_top_k election_results_today = 3%nat
      /\ effective_threshold election_results_today (25 # 100) = 25 # 100
      /\ retrieve scenario_B election_results_today 4 (25 # 100) []
         = (rows <- fetch_rows scenario_B election_results_today 3 ;;
            ret (ranked false 3 (25 # 100) rows)) []).
Proof.
  assert (Hs1 : strip hi <> []) by (vm_compute; discriminate).
  assert (Hw1 : List.length (split hi) = 1%nat) by reflexivity.
  assert (Hs2 : strip election_results_today <> [])
    by (vm_compute; discriminate).
  assert (Hw2 : (2 <= List.length (split election_results_today))%nat)
    by (vm_compute; lia).
  split.
  - split; [exact Hs1|]. split; [exact Hw1|].
    exact (proj1 (retrieve_effective_parameters
                    scenario_A hi 4 (25 # 100) [] Hs1) Hw1).
  - split; [exact Hs2|]. split; [exact Hw2|].
    exact (proj2 (retrieve_effective_parameters
                    scenario_B election_results_today 4 (25 # 100) [] Hs2) Hw2).
Defined.



Lemma retrieve_precise_below_floor_witness :
  (2 <= List.length (split election_results_today))%nat
  /\ passing (effective_threshold election_results_today (- (1)))
             (rows_of below_floor election_results_today) <> []
  /\ filter above_floor
       (passing (effective_threshold election_results_today (- (1)))
                (rows_of below_floor election_results_today)) = []
  /\ retrieve below_floor election_results_today 4 (- (1)) []
     = (Returned [], calls_of below_floor election_results_today).
Proof.
  assert (Hw : (2 <= List.length (split election_results_today))%nat)
    by (vm_compute; lia).
  assert (Hf : fetch_rows below_floor election_results_today
                 (effective_top_k election_results_today) []
               = (Returned (rows_of below_floor election_results_today),
                  calls_of below_floor election_results_today))
    by (vm_compute; reflexivity).
  assert (Hp : passing (effective_threshold election_results_today (- (1)))
                 (rows_of below_floor election_results_today) <> [])
    by (vm_compute; discriminate).
  assert (Hfl : filter above_floor
                  (passing (effective_threshold election_results_today (- (1)))
                           (rows_of below_floor election_results_today)) = [])
    by (vm_compute; reflexivity).
  split; [exact Hw|]. split; [exact Hp|]. split; [exact Hfl|].
  exact (proj2 (retrieve_precise_below_floor
                  below_floor election_results_today 4 (- (1)) [] _ _
                  Hw Hf Hp Hfl)).
Defined.

Lemma retrieve_blank_query_witness :
  forallb isspace blanks = true
  /\ retrieve scenario_A blanks 4 (25 # 100) [NewOpenAI]
     = (Returned [], [NewOpenAI]).
Proof.
  assert (H : forallb isspace blanks = true) by reflexivity.
  split; [exact H|].
  exact (retrieve_blank_query scenario_A blanks 4 (25 # 100) [NewOpenAI] H).
Defined.

Lemma retrieve_length_bound_witness :
  retrieve scenario_B election_results_today 4 (25 # 100) []
  = (Returned (result_of scenario_B election_results_today 4 (25 # 100)),
     calls_of scenario_B election_results_today)
  /\ (List.length (result_of scenario_B election_results_today 4 (25 # 100))
      <= (if is_single_word election_results_today then 6 else 3))%nat.
Proof.
  assert (H : retrieve scenario_B election_results_today 4 (25 # 100) []
              = (Returned
                   (result_of scenario_B election_results_today 4 (25 # 100)),
                 calls_of scenario_B election_results_today))
    by (vm_compute; reflexivity).
  split; [exact H|].
  exact (proj1 (retrieve_length_bound
                  scenario_B election_results_today 4 (25 # 100) [] _ _ H)).
Defined.

Lemma retrieve_ties_keep_index_order_witness :
  fetch_rows with_ties hi (effective_top_k hi) []
  = (Returned (rows_of with_ties hi), calls_of with_ties hi)
  /\ retrieve with_ties hi 4 (25 # 100) []
     = (Returned (result_of with_ties hi 4 (25 # 100)), calls_of with_ties hi)
  /\ nan_free (candidates (rows_of with_ties hi))
  /\ prefix (with_score (Fin (5 # 10)) (result_of with_ties hi 4 (25 # 100)))
            (with_score (Fin (5 # 10)) (candidates (rows_of with_ties hi))).
Proof.
  assert (Hf : fetch_rows with_ties hi (effective_top_k hi) []
               = (Returned (rows_of with_ties hi), calls_of with_ties hi))
    by (vm_compute; reflexivity).
  assert (Hr : retrieve with_ties hi 4 (25 # 100) []
               = (Returned (result_of with_ties hi 4 (25 # 100)),
                  calls_of with_ties hi))
    by (vm_compute; reflexivity).
  assert (Hn : nan_free (candidates (rows_of with_ties hi))) by no_nan.
  split; [exact Hf|]. split; [exact Hr|]. split; [exact Hn|].
  exact (proj1 (retrieve_ties_keep_index_order
                  with_ties hi 4 (25 # 100) [] _ _ _ Hf Hr (or_introl Hn))
               (Fin (5 # 10))).
Defined.

(** C8, as stated, fails on an index that answers with a NaN distance: for
    the similarities 0.1, 0.1, 0.1, 0.1, NaN, 0.1, 0.15 and a one-word
    query, no candidate passes the threshold 0.2, and the fallback returns
    the rows 1, 6, 0, 2, 3, 5 in this order: row 1 stands before row 0,
    which has the same score and came first from the index. *)
Lemma ties_reordered_with_nan :
  fetch_rows nan_among_ties hi (effective_top_k hi) []
  = (Returned (rows_of nan_among_ties hi), calls_of nan_among_ties hi)
  /\ retrieve nan_among_ties hi 4 (25 # 100) []
     = (Returned (result_of nan_among_ties hi 4 (25 # 100)),
        calls_of nan_among_ties hi)
  /\ map Some (result_of nan_among_ties hi 4 (25 # 100))
     = map (nth_error (candidates (rows_of nan_among_ties hi)))
           [1; 6; 0; 2; 3; 5]%nat
  /\ map text (candidates (rows_of nan_among_ties hi))
     = [of_string "0"; of_string "1"; of_string "2"; of_string "3";
        of_string "4"; of_string "5"; of_string "6"]
  /\ map score (candidates (rows_of nan_among_ties hi))
     = [Fin (1 # 10); Fin (1 # 10); Fin (1 # 10); Fin (1 # 10); NaN;
        Fin (1 # 10); Fin (15 # 100)]
  /\ ~ prefix (with_score (Fin (1 # 10))
                 (result_of nan_among_ties hi 4 (25 # 100)))
              (with_score (Fin (1 # 10))
                 (candidates (rows_of nan_among_ties hi))).
Proof.
  split; [vm_compute; reflexivity|]. split; [vm_compute; reflexivity|].
  split; [vm_compute; reflexivity|]. split; [vm_compute; reflexivity|].
  split; [vm_compute; reflexivity|].
  intros [rest H]. vm_compute in H. discriminate.
Qed.

Lemma retrieve_threshold_above_floor_witness :
  - (55 # 100) <= effective_threshold hi (25 # 100)
  /\ List.length (split hi) = 1%nat
  /\ passing (effective_threshold hi (25 # 100)) (rows_of scenario_A hi) <> []
  /\ retrieve scenario_A hi 4 (25 # 100) []
     = (Returned (firstn 6 (sort_by_score
                    (passing (effective_threshold hi (25 # 100))
                             (rows_of scenario_A hi)))),
        calls_of scenario_A hi)
  /\ non_increasing
       (sort_by_score (passing (effective_threshold hi (25 # 100))
                               (rows_of scenario_A hi))).
Proof.
  assert (Hthr : - (55 # 100) <= effective_threshold hi (25 # 100))
    by (apply Qle_bool_iff; reflexivity).
  assert (Hf : fetch_rows scenario_A hi (effective_top_k hi) []
               = (Returned (rows_of scenario_A hi), calls_of scenario_A hi))
    by (vm_compute; reflexivity).
  assert (Hw : List.length (split hi) = 1%nat) by reflexivity.
  assert (Hp : passing (effective_threshold hi (25 # 100))
                 (rows_of scenario_A hi) <> [])
    by (vm_compute; discriminate).
  split; [exact Hthr|]. split; [exact Hw|]. split; [exact Hp|].
  pose proof (proj2 (proj2 (proj2 (retrieve_threshold_above_floor
                                     scenario_A hi 4 (25 # 100) [] _ _)
                                  Hthr Hf)) Hw Hp) as (Hr & _ & Hsorted & _).
  split; [exact Hr | exact Hsorted].
Defined.

(** ** What a ranking keeps and what it leaves *)

Lemma Permutation_filter_of {A : Type} (f : A -> bool) (l l' : list A) :
  Permutation l l' -> Permutation (filter f l) (filter f l').
Proof.
  induction 1 as [|x l l' _ IH|x y l|l l' l'' _ IH1 _ IH2]; simpl.
  - constructor.
  - destruct (f x); [now constructor | exact IH].
  - destruct (f x), (f y); try apply Permutation_refl. apply perm_swap.
  - eapply perm_trans; eassumption.
Qed.

Lemma filter_complement_perm {A : Type} (f : A -> bool) (l : list A) :
  Permutation (filter f l ++ filter (fun a => negb (f a)) l) l.
Proof.
  induction l as [|a l IH]; simpl; [constructor|].
  destruct (f a); simpl.
  - now constructor.
  - eapply perm_trans; [apply Permutation_sym, Permutation_middle|].
    now constructor.
Qed.

Lemma sort_by_score_nil : sort_by_score [] = [].
Proof. reflexivity. Qed.

(** What lines 132-180 return: the first [effective_top_k] chunks of an
    arrangement of the eligible candidates, which is in descending order,
    ties in index order, when the sort met no NaN. *)
Lemma ranked_closed_form (q : str) (thr : Q)
    (rows : list (str * metadata * float)) :
  exists s,
    ranked (is_single_word q) (effective_top_k q) thr rows
    = firstn (effective_top_k q) s
    /\ Permutation s (eligible thr rows)
    /\ (nan_free (candidates rows) \/ passing thr rows <> [] ->
        non_increasing s
        /\ forall x, with_score x s = with_score x (eligible thr rows)).
Proof.
  rewrite ranked_eq. unfold eligible.
  destruct (passing thr rows) as [|p l] eqn:Ep.
  - exists (floor_survivors rows). split; [|split].
    + simpl. unfold fallback_selection. cbv zeta.
      fold (floor_survivors rows).
      destruct (floor_survivors rows); [now rewrite firstn_nil|].
      unfold effective_top_k. now destruct (is_single_word q).
    + apply Permutation_filter_of, sort_by_score_perm.
    + intros [Hn|Hn]; [|now elim Hn]. split.
      * apply non_increasing_filter, sort_by_score_sorted, Hn.
      * intros x. unfold floor_survivors, above_floor.
        rewrite !with_score_filter_ge, (with_score_sort_by_score x _ Hn).
        reflexivity.
  - rewrite <- Ep.
    assert (Hp : passing thr rows <> []) by (rewrite Ep; discriminate).
    exists (sort_by_score (filter above_floor (passing thr rows))).
    split; [|split].
    + destruct (filter above_floor (passing thr rows)) as [|c strong] eqn:Es.
      * rewrite sort_by_score_nil, firstn_nil.
        destruct (primary_selection (is_single_word q) (effective_top_k q)
                    (passing thr rows)) as [r|] eqn:E.
        -- unfold primary_selection in E. rewrite Ep in E. cbv zeta in E.
           rewrite <- Ep, Es in E.
           destruct (is_single_word q); [discriminate | now injection E].
        -- exact (fallback_after_passing _ _ thr rows Hp E).
      * unfold primary_selection. rewrite Ep. cbv zeta. rewrite <- Ep, Es.
        now destruct (is_single_word q).
    + apply sort_by_score_perm.
    + intros _.
      assert (Hn : nan_free (filter above_floor (passing thr rows)))
        by apply nan_free_filter, passing_nan_free.
      split; [apply sort_by_score_sorted, Hn|].
      intros x. apply with_score_sort_by_score, Hn.
Qed.

Lemma sorted_app_dominates (l1 l2 : list RetrievedChunk) :
  non_increasing (l1 ++ l2) ->
  forall c d, In c l1 -> In d l2 -> (score d <= score c)%F.
Proof.
  unfold non_increasing. intros H c d Hc Hd.
  apply StronglySorted_app_elim in H as (_ & _ & H). now apply H.
Qed.

Lemma in_eligible (thr : Q) (rows : list (str * metadata * float))
    (c : RetrievedChunk) :
  In c (eligible thr rows) ->
  In c (candidates rows)
  /\ (MIN_ACCEPTABLE_SCORE <= score c)%F
  /\ (passing thr rows <> [] -> (thr <= score c)%F).
Proof.
  unfold eligible. intros H. apply filter_In in H as [Hin Haf].
  unfold above_floor in Haf.
  destruct (passing thr rows) as [|p l] eqn:Ep.
  - repeat split; [exact Hin | exact Haf | intros Hn; now elim Hn].
  - rewrite <- Ep in Hin. unfold passing in Hin.
    apply filter_In in Hin as [Hin Hpass].
    unfold passes in Hpass.
    repeat split; [exact Hin | exact Haf | intros _; exact Hpass].
Qed.

(** What reaches a bar is not below what misses it. *)
Lemma fle_below_not_higher (t x y : float) :
  fle t x = true -> fle t y = false -> flt x y = false.
Proof.
  destruct t, x, y; simpl; try discriminate; try reflexivity.
  intros H1 H2. apply negb_false_iff. apply Qle_bool_iff.
  apply Qle_bool_iff in H1. apply Qlt_le_weak.
  eapply Qlt_le_trans; [|exact H1].
  apply Qnot_le_lt. intros H. apply Qle_bool_iff in H. congruence.
Qed.

(** What a ranking leaves out: the tail of the sorted eligible chunks, the
    chunks cut by the floor, and the chunks cut by the threshold. *)
Lemma ranked_leftover (q : str) (thr : Q)
    (rows : list (str * metadata * float)) :
  exists rest,
    Permutation
      (ranked (is_single_word q) (effective_top_k q) thr rows ++ rest)
      (candidates rows)
    /\ (nan_free (candidates rows) \/ passing thr rows <> [] ->
        forall c d,
          In c (ranked (is_single_word q) (effective_top_k q) thr rows) ->
          In d rest -> flt (score c) (score d) = false).
Proof.
  destruct (ranked_closed_form q thr rows) as (S & -> & HS & Hord).
  set (k := effective_top_k q).
  assert (Hsplit : Permutation (firstn k S ++ skipn k S) (eligible thr rows)).
  { rewrite firstn_skipn. exact HS. }
  assert (Htail : nan_free (candidates rows) \/ passing thr rows <> [] ->
                  forall c d, In c (firstn k S) -> In d (skipn k S) ->
                              flt (score c) (score d) = false).
  { intros Hn c d Hc Hd. apply fle_flt_false.
    apply (sorted_app_dominates (firstn k S) (skipn k S)); auto.
    rewrite firstn_skipn. apply (Hord Hn). }
  assert (Helig : forall c, In c (firstn k S) -> In c (eligible thr rows)).
  { intros c Hc. eapply Permutation_in; [exact HS|].
    eapply in_firstn_of, Hc. }
  destruct (passing thr rows) as [|p l] eqn:Ep.
  - exists (skipn k S ++ filter (fun c => negb (above_floor c)) (candidates rows)).
    split.
    + rewrite app_assoc.
      eapply perm_trans; [apply Permutation_app_tail, Hsplit|].
      unfold eligible. rewrite Ep. apply filter_complement_perm.
    + intros Hn c d Hc Hd. apply in_app_or in Hd as [Hd|Hd].
      * exact (Htail Hn c d Hc Hd).
      * apply filter_In in Hd as [_ Hd]. apply negb_true_iff in Hd.
        destruct (in_eligible thr rows c (Helig c Hc)) as (_ & Hfl & _).
        exact (fle_below_not_higher _ _ _ Hfl Hd).
  - exists (skipn k S
            ++ filter (fun c => negb (above_floor c)) (passing thr rows)
            ++ filter (fun c => negb (passes thr c)) (candidates rows)).
    split.
    + rewrite app_assoc.
      eapply perm_trans; [apply Permutation_app_tail, Hsplit|].
      rewrite app_assoc.
      eapply perm_trans.
      * apply Permutation_app_tail. unfold eligible. rewrite Ep, <- Ep.
        apply filter_complement_perm.
      * unfold passing. apply filter_complement_perm.
    + intros Hn c d Hc Hd.
      destruct (in_eligible thr rows c (Helig c Hc)) as (_ & Hfl & Hthr).
      assert (Hp : passing thr rows <> []) by (rewrite Ep; discriminate).
      specialize (Hthr Hp).
      apply in_app_or in Hd as [Hd|Hd]; [exact (Htail Hn c d Hc Hd)|].
      apply in_app_or in Hd as [Hd|Hd].
      * apply filter_In in Hd as [_ Hd]. apply negb_true_iff in Hd.
        exact (fle_below_not_higher _ _ _ Hfl Hd).
      * apply filter_In in Hd as [_ Hd]. apply negb_true_iff in Hd.
        exact (fle_below_not_higher _ _ _ Hthr Hd).
Qed.

Lemma effective_top_k_pos (q : str) : (1 <= effective_top_k q)%nat.
Proof. unfold effective_top_k. destruct (is_single_word q); lia. Qed.

Lemma eligible_nil_iff (thr : Q) (rows : list (str * metadata * float)) :
  eligible thr rows = []
  <-> Forall (fun c => above_floor c = false) (candidates rows).
Proof.
  split.
  - intros H. apply Forall_forall. intros c Hc.
    unfold eligible in H.
    destruct (passing thr rows) as [|p l] eqn:Ep.
    + destruct (above_floor c) eqn:Ha; [|reflexivity].
      assert (Hin : In c (filter above_floor (candidates rows)))
        by (apply filter_In; auto).
      rewrite H in Hin. contradiction.
    + rewrite <- Ep in H.
      apply (no_survivor_when_passing_below_floor thr rows); auto.
      rewrite Ep. discriminate.
  - intros H. rewrite Forall_forall in H.
    apply filter_none. intros c Hc. apply H.
    destruct (passing thr rows) eqn:Ep; [exact Hc|].
    rewrite <- Ep in Hc. unfold passing in Hc.
    now apply filter_In in Hc as [Hc _].
Qed.

(** X1. For a non-blank query whose collaborator calls succeed, [retrieve]
    returns the first [effective_top_k] chunks of an arrangement of the
    eligible candidates: those at or above the floor that pass the
    effective threshold, or all those at or above the floor when none
    passes.  When no candidate's similarity is NaN, or some candidate
    passes, the arrangement is in descending order of score, chunks of one
    score in index order.  The query's shape enters only through
    [effective_top_k] and [effective_threshold]. *)
Theorem retrieve_closed_form (env : Collaborators) (q : str) (k : Z) (st : Q)
    (tr tr' : trace) (rows : list (str * metadata * float)) :
  strip q <> [] ->
  fetch_rows env q (effective_top_k q) tr = (Returned rows, tr') ->
  exists s,
    retrieve env q k st tr = (Returned (firstn (effective_top_k q) s), tr')
    /\ Permutation s (eligible (effective_threshold q st) rows)
    /\ (nan_free (candidates rows)
        \/ passing (effective_threshold q st) rows <> [] ->
        non_increasing s
        /\ forall x,
             with_score x s
             = with_score x (eligible (effective_threshold q st) rows)).
Proof.
  intros Hs Hf.
  destruct (ranked_closed_form q (effective_threshold q st) rows)
    as (s & E & Hperm & Hord).
  exists s. split; [|split; assumption].
  rewrite (retrieve_of_fetch env q k st tr tr' rows Hs Hf). now rewrite E.
Qed.

(** X2. The chunks [retrieve] returns are taken from the candidates, each
    at most as often as the index gave it; and when no candidate's
    similarity is NaN, or some candidate passes the effective threshold,
    they are the best ones: no candidate left out scores higher than a
    returned chunk. *)
Theorem retrieve_keeps_the_best (env : Collaborators) (q : str) (k : Z)
    (st : Q) (tr tr' : trace) (rows : list (str * metadata * float))
    (r : list RetrievedChunk) :
  fetch_rows env q (effective_top_k q) tr = (Returned rows, tr') ->
  retrieve env q k st tr = (Returned r, tr') ->
  exists rest,
    Permutation (r ++ rest) (candidates rows)
    /\ (nan_free (candidates rows)
        \/ passing (effective_threshold q st) rows <> [] ->
        forall c d, In c r -> In d rest -> flt (score c) (score d) = false).
Proof.
  intros Hf Hr.
  apply retrieve_returned in Hr as [(_ & -> & _) | (_ & rows' & Hf' & ->)].
  - exists (candidates rows). split; [apply Permutation_refl|].
    intros _ c d [].
  - rewrite Hf in Hf'. injection Hf' as <-. apply ranked_leftover.
Qed.

(** X3. For a non-blank query whose collaborator calls succeed, the result
    is empty exactly when no candidate reaches the floor, that is when
    [similarity >= -0.55] is false of every candidate (as it is of a NaN):
    the threshold alone never empties the result. *)
Theorem retrieve_empty_iff_none_at_floor (env : Collaborators) (q : str)
    (k : Z) (st : Q) (tr tr' : trace) (rows : list (str * metadata * float)) :
  strip q <> [] ->
  fetch_rows env q (effective_top_k q) tr = (Returned rows, tr') ->
  exists r,
    retrieve env q k st tr = (Returned r, tr')
    /\ (r = []
        <-> Forall (fun c => fle (- (55 # 100)) (score c) = false)
                   (candidates rows)).
Proof.
  intros Hs Hf.
  destruct (ranked_closed_form q (effective_threshold q st) rows)
    as (s & E & Hperm & _).
  exists (firstn (effective_top_k q) s). split.
  { rewrite (retrieve_of_fetch env q k st tr tr' rows Hs Hf). now rewrite E. }
  change (Forall (fun c => fle (- (55 # 100)) (score c) = false)
                 (candidates rows))
    with (Forall (fun c => above_floor c = false) (candidates rows)).
  rewrite <- (eligible_nil_iff (effective_threshold q st) rows).
  pose proof (effective_top_k_pos q) as Hk.
  destruct (effective_top_k q) as [|n]; [lia|].
  split.
  - intros H0. destruct s as [|c s]; [|discriminate].
    apply Permutation_nil. exact Hperm.
  - intros H0. rewrite H0 in Hperm. apply Permutation_sym in Hperm.
    apply Permutation_nil in Hperm. now subst s.
Qed.


(** X5. When no candidate's similarity is NaN, or some candidate passes
    the effective threshold, the first chunk returned is a best-scoring
    candidate: no candidate the index gave scores higher. *)
Theorem retrieve_best_first (env : Collaborators) (q : str) (k : Z) (st : Q)
    (tr tr' : trace) (rows : list (str * metadata * float))
    (top : RetrievedChunk) (others : list RetrievedChunk) :
  fetch_rows env q (effective_top_k q) tr = (Returned rows, tr') ->
  retrieve env q k st tr = (Returned (top :: others), tr') ->
  nan_free (candidates rows)
  \/ passing (effective_threshold q st) rows <> [] ->
  Forall (fun c => flt (score top) (score c) = false) (candidates rows).
Proof.
  intros Hf Hr Hn.
  apply retrieve_returned in Hr as [(_ & E & _) | (_ & rows' & Hf' & E)];
    [discriminate|].
  rewrite Hf in Hf'. injection Hf' as <-.
  pose proof (ranked_sorted (is_single_word q) (effective_top_k q)
                (effective_threshold q st) rows Hn) as Hs.
  pose proof (proj1 (ranked_well_ranked q (effective_threshold q st) rows))
    as Hfl.
  destruct (ranked_leftover q (effective_threshold q st) rows)
    as (rest & Hperm & Hdom).
  specialize (Hdom Hn).
  rewrite <- E in Hperm, Hdom, Hs, Hfl.
  apply Forall_inv in Hfl. apply fle_not_nan in Hfl as [_ Htop].
  apply Forall_forall. intros c Hc.
  apply (Permutation_in c (Permutation_sym Hperm)) in Hc.
  apply in_app_or in Hc as [[<-|Hc]|Hc].
  - apply fle_flt_false, fle_refl, Htop.
  - apply StronglySorted_inv in Hs as [_ Hs].
    rewrite Forall_forall in Hs. apply fle_flt_false, Hs, Hc.
  - apply Hdom; [now left | exact Hc].
Qed.


(** ** The calls [retrieve] makes *)

(** Every way [fetch_rows] can end, with the calls made up to there. *)
Lemma fetch_rows_cases (env : Collaborators) (q : str) (tr : trace) :
  let n := (2 * effective_top_k q)%nat in
  (new_openai env = None
   /\ fetch_rows env q (effective_top_k q) tr
      = (Raised EmbedderFailure, tr ++ [NewOpenAI]))
  \/ (new_openai env <> None
      /\ persistent_client env (persist_dir env) = None
      /\ fetch_rows env q (effective_top_k q) tr
         = (Raised VectorIndexFailure,
            tr ++ [NewOpenAI; NewPersistentClient (persist_dir env)]))
  \/ (new_openai env <> None
      /\ persistent_client env (persist_dir env) <> None
      /\ get_collection env COLLECTION_NAME = None
      /\ fetch_rows env q (effective_top_k q) tr
         = (Raised VectorIndexFailure,
            tr ++ [NewOpenAI; NewPersistentClient (persist_dir env);
                   GetCollection COLLECTION_NAME]))
  \/ (new_openai env <> None
      /\ persistent_client env (persist_dir env) <> None
      /\ get_collection env COLLECTION_NAME <> None
      /\ exists e,
           ((e = EmbedderFailure
             /\ embeddings_create env EMBEDDING_MODEL [q] = None)
            \/ (e = PyIndexError
                /\ embeddings_create env EMBEDDING_MODEL [q] = Some []))
           /\ fetch_rows env q (effective_top_k q) tr
              = (Raised e,
                 tr ++ [NewOpenAI; NewPersistentClient (persist_dir env);
                        GetCollection COLLECTION_NAME;
                        EmbeddingsCreate EMBEDDING_MODEL [q]]))
  \/ (new_openai env <> None
      /\ persistent_client env (persist_dir env) <> None
      /\ get_collection env COLLECTION_NAME <> None
      /\ exists vec data e,
           embeddings_create env EMBEDDING_MODEL [q] = Some (vec :: data)
           /\ (e = VectorIndexFailure \/ e = PyIndexError)
           /\ fetch_rows env q (effective_top_k q) tr
              = (Raised e, tr ++ calls_for env q vec))
  \/ (new_openai env <> None
      /\ persistent_client env (persist_dir env) <> None
      /\ get_collection env COLLECTION_NAME <> None
      /\ exists vec data res docs metas dists,
           embeddings_create env EMBEDDING_MODEL [q] = Some (vec :: data)
           /\ collection_query env [vec] n INCLUDE = Some res
           /\ get_or (res_documents res) [[]] = docs
           /\ get_or (res_metadatas res) [[]] = metas
           /\ get_or (res_distances res) [[]] = dists
           /\ fetch_rows env q (effective_top_k q) tr
              = (Returned (zip3 (hd [] docs) (hd [] metas) (hd [] dists)),
                 tr ++ calls_for env q vec)).
Proof.
  intros n.
  assert (Hn : Nat.max (effective_top_k q * 2) (effective_top_k q) = n)
    by (unfold n; lia).
  unfold fetch_rows, calls_for, get_openai_client, get_chroma_collection,
    embed_query, bind, perform, index0, ret, raise.
  rewrite Hn. fold INCLUDE. fold n.
  destruct (new_openai env) as [[]|]; [|left; auto].
  assert (H1 : Some tt <> None) by discriminate.
  destruct (persistent_client env (persist_dir env)) as [[]|];
    [|right; left; rewrite <- app_assoc; auto].
  destruct (get_collection env COLLECTION_NAME) as [[]|];
    [|right; right; left; rewrite <- !app_assoc; auto].
  destruct (embeddings_create env EMBEDDING_MODEL [q]) as [[|vec data]|];
    [right; right; right; left; repeat (split; [exact H1|]);
     exists PyIndexError; rewrite <- !app_assoc; auto
    | | right; right; right; left; repeat (split; [exact H1|]);
        exists EmbedderFailure; rewrite <- !app_assoc; auto].
  destruct (collection_query env [vec] n INCLUDE) as [res|] eqn:Hq;
    [| right; right; right; right; left; repeat (split; [exact H1|]);
       exists vec, data, VectorIndexFailure; rewrite <- !app_assoc; auto].
  destruct (get_or (res_documents res) [[]]) as [|docs docs'] eqn:Hd;
    [right; right; right; right; left; repeat (split; [exact H1|]);
     exists vec, data, PyIndexError; rewrite <- !app_assoc; auto|].
  destruct (get_or (res_metadatas res) [[]]) as [|metas metas'] eqn:Hm;
    [right; right; right; right; left; repeat (split; [exact H1|]);
     exists vec, data, PyIndexError; rewrite <- !app_assoc; auto|].
  destruct (get_or (res_distances res) [[]]) as [|dists dists'] eqn:Hs;
    [right; right; right; right; left; repeat (split; [exact H1|]);
     exists vec, data, PyIndexError; rewrite <- !app_assoc; auto|].
  right; right; right; right; right. repeat (split; [exact H1|]).
  exists vec, data, res, (docs :: docs'), (metas :: metas'), (dists :: dists').
  rewrite Hd, Hm, Hs, <- !app_assoc. simpl. auto 10.
Qed.

(** The rows of a retrieval that returned, and the five calls it made. *)
Lemma fetch_rows_returned (env : Collaborators) (q : str) (tr tr' : trace)
    (rows : list (str * metadata * float)) :
  fetch_rows env q (effective_top_k q) tr = (Returned rows, tr') ->
  exists vec res,
    collection_query env [vec] (2 * effective_top_k q) INCLUDE = Some res
    /\ rows = zip3 (hd [] (get_or (res_documents res) [[]]))
                   (hd [] (get_or (res_metadatas res) [[]]))
                   (hd [] (get_or (res_distances res) [[]]))
    /\ tr' = tr ++ calls_for env q vec.
Proof.
  intros Hf.
  destruct (fetch_rows_cases env q tr)
    as [[_ H] | [(_ & _ & H) | [(_ & _ & _ & H) | [(_ & _ & _ & e & _ & H)
        | [(_ & _ & _ & vec & data & e & _ & _ & H)
          | (_ & _ & _ & vec & data & res & docs & metas & dists
             & _ & Hq & Hd & Hm & Hs & H)]]]]];
    rewrite H in Hf; try discriminate.
  injection Hf as <- <-. exists vec, res. subst docs metas dists. auto.
Qed.

Lemma retrieve_raised (env : Collaborators) (q : str) (k : Z) (st : Q)
    (tr tr' : trace) (e : exn) :
  retrieve env q k st tr = (Raised e, tr') ->
  strip q <> []
  /\ fetch_rows env q (effective_top_k q) tr = (Raised e, tr').
Proof.
  intros H. destruct (forallb isspace q) eqn:Hb.
  - rewrite (retrieve_blank env q k st Hb) in H. discriminate.
  - assert (Hs : strip q <> []).
    { intros E. apply strip_nil_all_space in E. congruence. }
    split; [exact Hs|].
    rewrite (retrieve_nonblank env q k st tr Hs) in H.
    unfold bind in H.
    destruct (fetch_rows env q (effective_top_k q) tr) as [[rows|e'] tr1];
      [discriminate | injection H as -> ->; reflexivity].
Qed.

Lemma retrieve_of_fetch_raised (env : Collaborators) (q : str) (k : Z)
    (st : Q) (tr tr' : trace) (e : exn) :
  strip q <> [] ->
  fetch_rows env q (effective_top_k q) tr = (Raised e, tr') ->
  retrieve env q k st tr = (Raised e, tr').
Proof.
  intros Hs Hf. rewrite (retrieve_nonblank env q k st tr Hs).
  unfold bind. rewrite Hf. reflexivity.
Qed.

(** X6. A retrieval of a non-blank query that returns has made exactly
    five collaborator calls, in this order: the OpenAI client, the Chroma
    client on the persist directory, the collection, one embedding request
    for the query exactly as given, and one index query for twice the
    effective top-K (12 or 6) results. *)
Theorem retrieve_makes_five_calls (env : Collaborators) (q : str) (k : Z)
    (st : Q) (tr tr' : trace) (r : list RetrievedChunk) :
  strip q <> [] ->
  retrieve env q k st tr = (Returned r, tr') ->
  exists query_vec,
    tr' = tr ++ [NewOpenAI;
                 NewPersistentClient (persist_dir env);
                 GetCollection COLLECTION_NAME;
                 EmbeddingsCreate EMBEDDING_MODEL [q];
                 CollectionQuery [query_vec]
                   (if is_single_word q then 12 else 6) INCLUDE].
Proof.
  intros Hs Hr.
  apply retrieve_returned in Hr as [(Hb & _) | (_ & rows & Hf & _)].
  - apply strip_all_space in Hb. contradiction.
  - assert (Hn : (2 * effective_top_k q)%nat
                 = if is_single_word q then 12%nat else 6%nat)
      by (unfold effective_top_k; now destruct (is_single_word q)).
    apply fetch_rows_returned in Hf as (vec & res & _ & _ & ->).
    exists vec. unfold calls_for. now rewrite Hn.
Qed.

(** X7. [retrieve] stops at the first failing call.  For a non-blank
    query: if the OpenAI client cannot be created, [retrieve] raises after
    that one call, and Chroma is not touched; if the Chroma client cannot
    be created, it raises after two calls; if the collection cannot be
    opened, it raises after three, before any embedding request; if the
    embedding request fails, it raises after four, before any index query.
    And whenever [retrieve] raises, the calls made are an initial part of
    the five, each made once. *)
Theorem retrieve_stops_at_first_failure (env : Collaborators) (q : str)
    (k : Z) (st : Q) (tr : trace) :
  strip q <> [] ->
  (new_openai env = None ->
   retrieve env q k st tr = (Raised EmbedderFailure, tr ++ [NewOpenAI]))
  /\ (new_openai env <> None ->
      persistent_client env (persist_dir env) = None ->
      retrieve env q k st tr
      = (Raised VectorIndexFailure,
         tr ++ [NewOpenAI; NewPersistentClient (persist_dir env)]))
  /\ (new_openai env <> None ->
      persistent_client env (persist_dir env) <> None ->
      get_collection env COLLECTION_NAME = None ->
      retrieve env q k st tr
      = (Raised VectorIndexFailure,
         tr ++ [NewOpenAI; NewPersistentClient (persist_dir env);
                GetCollection COLLECTION_NAME]))
  /\ (new_openai env <> None ->
      persistent_client env (persist_dir env) <> None ->
      get_collection env COLLECTION_NAME <> None ->
      embeddings_create env EMBEDDING_MODEL [q] = None ->
      retrieve env q k st tr
      = (Raised EmbedderFailure,
         tr ++ [NewOpenAI; NewPersistentClient (persist_dir env);
                GetCollection COLLECTION_NAME;
                EmbeddingsCreate EMBEDDING_MODEL [q]]))
  /\ (forall e tr',
        retrieve env q k st tr = (Raised e, tr') ->
        exists n query_vec,
          (1 <= n <= 5)%nat
          /\ tr' = tr ++ firstn n (calls_for env q query_vec)).
Proof.
  intros Hs.
  pose proof (fetch_rows_cases env q tr) as Hcases. cbv zeta in Hcases.
  repeat split.
  - intros H0. apply (retrieve_of_fetch_raised env q k st _ _ _ Hs).
    destruct Hcases
      as [[_ H] | [(N & _) | [(N & _) | [(N & _) | [(N & _) | (N & _)]]]]];
      [exact H | now elim N ..].
  - intros H0 H1. apply (retrieve_of_fetch_raised env q k st _ _ _ Hs).
    destruct Hcases
      as [[N _] | [(_ & _ & H) | [(_ & N & _) | [(_ & N & _)
          | [(_ & N & _) | (_ & N & _)]]]]];
      [now elim H0 | exact H | now elim N ..].
  - intros H0 H1 H2. apply (retrieve_of_fetch_raised env q k st _ _ _ Hs).
    destruct Hcases
      as [[N _] | [(_ & N & _) | [(_ & _ & _ & H) | [(_ & _ & N & _)
          | [(_ & _ & N & _) | (_ & _ & N & _)]]]]];
      [now elim H0 | now elim H1 | exact H | now elim N ..].
  - intros H0 H1 H2 H3. apply (retrieve_of_fetch_raised env q k st _ _ _ Hs).
    destruct Hcases
      as [[N _] | [(_ & N & _) | [(_ & _ & N & _)
          | [(_ & _ & _ & e & [[-> _] | [_ N]] & H)
          | [(_ & _ & _ & vec & data & e & N & _)
            | (_ & _ & _ & vec & data & res & docs & metas & dists & N & _)]]]]];
      [now elim H0 | now elim H1 | now elim H2 | exact H
      | rewrite H3 in N; discriminate ..].
  - intros e tr' H. apply retrieve_raised in H as [_ Hf].
    destruct Hcases
      as [[_ H] | [(_ & _ & H) | [(_ & _ & _ & H) | [(_ & _ & _ & e' & _ & H)
          | [(_ & _ & _ & vec & data & e' & _ & _ & H)
            | (_ & _ & _ & vec & data & res & docs & metas & dists
               & _ & _ & _ & _ & _ & H)]]]]];
      rewrite H in Hf; try discriminate; injection Hf as <- <-.
    + exists 1%nat, []. split; [lia | reflexivity].
    + exists 2%nat, []. split; [lia | reflexivity].
    + exists 3%nat, []. split; [lia | reflexivity].
    + exists 4%nat, []. split; [lia | reflexivity].
    + exists 5%nat, vec. split; [lia | reflexivity].
Qed.

Lemma zip3_nil_any {A B C : Type} (la : list A) (lb : list B) (lc : list C) :
  la = [] \/ lb = [] \/ lc = [] -> zip3 la lb lc = [].
Proof.
  intros [-> | [-> | ->]]; [reflexivity | now destruct la |].
  destruct la; [reflexivity|]. now destruct lb.
Qed.

Lemma ranked_no_rows (single : bool) (w : nat) (thr : Q) :
  ranked single w thr [] = [].
Proof. reflexivity. Qed.

(** X8. A key missing from the index's answer is read as no candidates,
    not as an error: if every answer of the index lacks [documents],
    [metadatas] or [distances], a retrieval that returns, returns the empty
    sequence. *)
Theorem retrieve_missing_key_is_empty (env : Collaborators) (q : str) (k : Z)
    (st : Q) (tr tr' : trace) (r : list RetrievedChunk) :
  (forall vecs n include res,
      collection_query env vecs n include = Some res ->
      res_documents res = None \/ res_metadatas res = None
      \/ res_distances res = None) ->
  retrieve env q k st tr = (Returned r, tr') ->
  r = [].
Proof.
  intros Hmiss Hr.
  apply retrieve_returned in Hr as [(_ & -> & _) | (_ & rows & Hf & ->)];
    [reflexivity|].
  apply fetch_rows_returned in Hf as (vec & res & Hq & -> & _).
  rewrite zip3_nil_any; [apply ranked_no_rows|].
  destruct (Hmiss _ _ _ _ Hq) as [E | [E | E]]; rewrite E; simpl; auto.
Qed.

(** ** More facts about [strip] and [split] *)

Lemma lstrip_decomp (s : str) :
  exists ws, s = ws ++ lstrip s /\ forallb isspace ws = true.
Proof.
  induction s as [|c s (ws & E & Hws)]; simpl.
  - exists []. auto.
  - destruct (isspace c) eqn:Hc.
    + exists (c :: ws). simpl. rewrite Hc, Hws. split; [now f_equal | reflexivity].
    + exists []. auto.
Qed.

Lemma forallb_rev {A : Type} (f : A -> bool) (l : list A) :
  forallb f l = true -> forallb f (rev l) = true.
Proof.
  rewrite !forallb_forall. intros H a Ha. apply H. now apply in_rev.
Qed.

Lemma rstrip_decomp (s : str) :
  exists ws, s = rstrip s ++ ws /\ forallb isspace ws = true.
Proof.
  unfold rstrip. destruct (lstrip_decomp (rev s)) as (ws & E & Hws).
  exists (rev ws). split; [|now apply forallb_rev].
  rewrite <- rev_app_distr, <- E. now rewrite rev_involutive.
Qed.

Lemma lstrip_of_not_space (c : N) (s : str) :
  isspace c = false -> lstrip (c :: s) = c :: s.
Proof. simpl. now intros ->. Qed.

Lemma lstrip_lstrip (s : str) : lstrip (lstrip s) = lstrip s.
Proof.
  destruct (lstrip s) as [|c t] eqn:E; [reflexivity|].
  apply lstrip_of_not_space. exact (lstrip_head_not_space s c t E).
Qed.

Lemma rstrip_rstrip (s : str) : rstrip (rstrip s) = rstrip s.
Proof. unfold rstrip. now rewrite rev_involutive, lstrip_lstrip. Qed.

Lemma lstrip_strip (s : str) : lstrip (strip s) = strip s.
Proof.
  unfold strip. destruct (lstrip s) as [|c t] eqn:E; [reflexivity|].
  pose proof (lstrip_head_not_space s c t E) as Hc.
  destruct (rstrip_decomp (c :: t)) as (ws & Ed & Hws).
  destruct (rstrip (c :: t)) as [|c' p] eqn:Er.
  - simpl in Ed. subst ws. simpl in Hws. rewrite Hc in Hws. discriminate.
  - simpl in Ed. injection Ed as <- _. now apply lstrip_of_not_space.
Qed.

(** [strip] is idempotent. *)
Lemma strip_strip (s : str) : strip (strip s) = strip s.
Proof.
  unfold strip at 1. rewrite lstrip_strip. unfold strip. apply rstrip_rstrip.
Qed.

Lemma split_from_leading (ws s : str) :
  forallb isspace ws = true -> split_from [] (ws ++ s) = split_from [] s.
Proof.
  induction ws as [|w ws IH]; simpl; [reflexivity|].
  intros H. apply andb_true_iff in H as [Hw Hws]. rewrite Hw. auto.
Qed.

Lemma split_from_spaces (cur ws : str) :
  forallb isspace ws = true -> split_from cur ws = split_from cur [].
Proof.
  destruct ws as [|w ws]; [reflexivity|]. simpl.
  intros H. apply andb_true_iff in H as [Hw Hws]. rewrite Hw.
  rewrite (split_from_all_space ws Hws). now destruct cur.
Qed.

Lemma split_from_trailing (cur s ws : str) :
  forallb isspace ws = true -> split_from cur (s ++ ws) = split_from cur s.
Proof.
  intros H. revert cur. induction s as [|c s IH]; intros cur.
  - apply split_from_spaces, H.
  - simpl. destruct (isspace c); [|apply IH].
    destruct cur; now rewrite IH.
Qed.

(** The words of a query are those of the stripped query. *)
Lemma split_strip (s : str) : split (strip s) = split s.
Proof.
  unfold split, strip.
  destruct (lstrip_decomp s) as (ws1 & E1 & H1).
  destruct (rstrip_decomp (lstrip s)) as (ws2 & E2 & H2).
  rewrite E1 at 2. rewrite (split_from_leading ws1 _ H1).
  rewrite E2 at 2. now rewrite (split_from_trailing [] _ ws2 H2).
Qed.

(** ** The search page *)

Lemma enumerate_ranks {A : Type} (l : list A) (start : nat) :
  map fst (App.enumerate l start) = seq start (List.length l).
Proof.
  revert start. induction l as [|a l IH]; intros start; simpl;
    [reflexivity | now rewrite IH].
Qed.

Lemma enumerate_items {A : Type} (l : list A) (start : nat) :
  map snd (App.enumerate l start) = l.
Proof.
  revert start. induction l as [|a l IH]; intros start; simpl;
    [reflexivity | now rewrite IH].
Qed.

Lemma enumerate_length {A : Type} (l : list A) (start : nat) :
  List.length (App.enumerate l start) = List.length l.
Proof.
  revert start. induction l as [|a l IH]; intros start; simpl;
    [reflexivity | now rewrite IH].
Qed.

Lemma retrieve_returned_well_ranked (env : Collaborators) (q : str) (k : Z)
    (st : Q) (tr tr' : trace) (r : list RetrievedChunk) :
  retrieve env q k st tr = (Returned r, tr') -> well_ranked 6 r.
Proof.
  intros H. apply retrieve_returned in H as [(_ & -> & _) | (_ & rows & _ & ->)].
  - apply well_ranked_nil.
  - destruct (ranked_well_ranked q (effective_threshold q st) rows)
      as (Hf & Hl).
    split; [exact Hf|].
    unfold effective_top_k in *. destruct (is_single_word q); lia.
Qed.

(** A returned sequence is in descending order unless the sort of the
    fallback met a NaN. *)
Lemma retrieve_returned_sorted (env : Collaborators) (q : str) (k : Z)
    (st : Q) (tr tr' : trace) (r : list RetrievedChunk) :
  retrieve env q k st tr = (Returned r, tr') ->
  non_increasing r
  \/ exists rows,
       fetch_rows env q (effective_top_k q) tr = (Returned rows, tr')
       /\ passing (effective_threshold q st) rows = []
       /\ Exists (fun c => score c = NaN) (candidates rows).
Proof.
  intros H. apply retrieve_returned in H as [(_ & -> & _) | (_ & rows & Hf & ->)].
  - left. constructor.
  - destruct (nan_free_dec (candidates rows)) as [Hn|Hn].
    + left. apply ranked_sorted. now left.
    + destruct (passing (effective_threshold q st) rows) as [|p l] eqn:E.
      * right. exists rows. auto.
      * left. apply ranked_sorted. right. rewrite E. discriminate.
Qed.

(** How [search] ends, in terms of the retrieval it runs. *)
Lemma search_cases (env : Collaborators) (form : list (str * str))
    (tr : trace) :
  let q := strip (App.or_empty (App.form_get form (of_string "query"))) in
  (q = []
   /\ App.search env form tr
      = (Returned {| App.template_name := of_string "index.html";
                     App.query_text := [];
                     App.results := [];
                     App.message := of_string "Please enter a non-empty query." |},
         tr))
  \/ (q <> []
      /\ ((exists e tr',
             retrieve env q DEFAULT_TOP_K DEFAULT_SIMILARITY_THRESHOLD tr
             = (Raised e, tr')
             /\ App.search env form tr = (Raised e, tr'))
          \/ (exists r tr' page,
                retrieve env q DEFAULT_TOP_K DEFAULT_SIMILARITY_THRESHOLD tr
                = (Returned r, tr')
                /\ App.search env form tr = (Returned page, tr')
                /\ App.query_text page = q
                /\ App.results page = App.enumerate r 1))).
Proof.
  intros q. unfold App.search. fold q.
  destruct q as [|c s] eqn:Eq.
  - left. auto.
  - right. split; [discriminate|].
    change (negb (truthy (c :: s))) with false. cbv iota. unfold bind.
    destruct (retrieve env (c :: s) DEFAULT_TOP_K DEFAULT_SIMILARITY_THRESHOLD tr)
      as [[r|e] tr'].
    + right. destruct r as [|x r].
      * eexists [], tr', _. repeat split.
      * eexists (x :: r), tr', _. repeat split.
    + left. exists e, tr'. auto.
Qed.

(** X10. A query field that is missing, empty or whitespace only gives the
    page that asks for a non-empty query, with no results, and no
    collaborator is called. *)
Theorem search_blank_query (env : Collaborators) (form : list (str * str))
    (tr : trace) :
  forallb isspace (App.or_empty (App.form_get form (of_string "query"))) = true ->
  App.search env form tr
  = (Returned {| App.template_name := of_string "index.html";
                 App.query_text := [];
                 App.results := [];
                 App.message := of_string "Please enter a non-empty query." |},
     tr).
Proof.
  intros H. apply strip_all_space in H.
  destruct (search_cases env form tr) as [[_ E] | [Hq _]];
    [exact E | contradiction].
Qed.

(** X11. On every page [search] renders, the display ranks are 1, 2, ...
    in order, at most 6 results are shown, and none is below -0.55; their
    scores never increase with the rank, unless no candidate of the
    retrieval passed the effective threshold and the index answered with
    a similarity that is NaN. *)
Theorem search_page_is_ranked (env : Collaborators) (form : list (str * str))
    (tr tr' : trace) (page : App.Page) :
  App.search env form tr = (Returned page, tr') ->
  map fst (App.results page) = seq 1 (List.length (App.results page))
  /\ (List.length (App.results page) <= 6)%nat
  /\ Forall (fun c => (- (55 # 100) <= score c)%F) (map snd (App.results page))
  /\ (non_increasing (map snd (App.results page))
      \/ exists rows,
           fetch_rows env (App.query_text page)
             (effective_top_k (App.query_text page)) tr
           = (Returned rows, tr')
           /\ passing (effective_threshold (App.query_text page) (25 # 100))
                      rows = []
           /\ Exists (fun c => score c = NaN) (candidates rows)).
Proof.
  intros H.
  destruct (search_cases env form tr)
    as [[_ E] | [_ [(e & t & _ & E) | (r & t & p & Hr & E & Hqt & Hres)]]];
    rewrite E in H; try discriminate; injection H as <- <-.
  - simpl. split; [reflexivity|]. split; [lia|].
    split; [constructor | left; constructor].
  - rewrite Hres, Hqt, enumerate_ranks, enumerate_items, enumerate_length.
    destruct (retrieve_returned_well_ranked _ _ _ _ _ _ _ Hr) as (Hf & Hl).
    split; [reflexivity|]. split; [exact Hl|]. split; [exact Hf|].
    exact (retrieve_returned_sorted _ _ _ _ _ _ _ Hr).
Qed.

(** X12. For a non-blank query, [search] renders a page only after one
    complete retrieval of the stripped query with the defaults (top_k 4,
    threshold 0.25): the page echoes the stripped query, shows exactly the
    chunks [retrieve] returned, and the index was asked for 12 results
    when the query as typed has one word and for 6 otherwise. *)
Theorem search_runs_one_retrieval (env : Collaborators)
    (form : list (str * str)) (tr tr' : trace) (page : App.Page) :
  strip (App.or_empty (App.form_get form (of_string "query"))) <> [] ->
  App.search env form tr = (Returned page, tr') ->
  App.query_text page
  = strip (App.or_empty (App.form_get form (of_string "query")))
  /\ retrieve env (App.query_text page) 4 (25 # 100) tr
     = (Returned (map snd (App.results page)), tr')
  /\ exists query_vec,
       tr' = tr ++ [NewOpenAI;
                    NewPersistentClient (persist_dir env);
                    GetCollection COLLECTION_NAME;
                    EmbeddingsCreate EMBEDDING_MODEL [App.query_text page];
                    CollectionQuery [query_vec]
                      (if is_single_word
                            (App.or_empty (App.form_get form (of_string "query")))
                       then 12 else 6) INCLUDE].
Proof.
  intros Hq H.
  destruct (search_cases env form tr)
    as [[Hn _] | [_ [(e & t & _ & E) | (r & t & p & Hr & E & Hqt & Hres)]]];
    [contradiction | rewrite E in H; discriminate |].
  rewrite E in H. injection H as <- <-.
  rewrite Hqt, Hres, enumerate_items.
  split; [reflexivity|]. split; [exact Hr|].
  set (raw := App.or_empty (App.form_get form (of_string "query"))) in *.
  assert (Hs : strip (strip raw) <> []) by now rewrite strip_strip.
  apply retrieve_returned in Hr as [(Hb & _) | (_ & rows & Hf & _)].
  { apply strip_all_space in Hb. contradiction. }
  assert (Hmode : is_single_word (strip raw) = is_single_word raw)
    by (unfold is_single_word; now rewrite split_strip).
  assert (Hn : (2 * effective_top_k (strip raw))%nat
               = if is_single_word raw then 12%nat else 6%nat).
  { unfold effective_top_k. rewrite Hmode. now destruct (is_single_word raw). }
  apply fetch_rows_returned in Hf as (vec & res & _ & _ & ->).
  exists vec. unfold calls_for. now rewrite Hn.
Qed.

(** X13. [search] does not catch collaborator failures: it raises exactly
    when the retrieval of the stripped query raises, with the same
    exception and after the same calls, so a failure never shows as a page
    without results. *)
Theorem search_propagates_failure (env : Collaborators)
    (form : list (str * str)) (tr tr' : trace) (e : exn) :
  App.search env form tr = (Raised e, tr')
  <-> retrieve env
        (strip (App.or_empty (App.form_get form (of_string "query"))))
        DEFAULT_TOP_K DEFAULT_SIMILARITY_THRESHOLD tr
      = (Raised e, tr').
Proof.
  destruct (search_cases env form tr)
    as [[Hn E] | [_ [(e' & t & Hr & E) | (r & t & p & Hr & E & _ & _)]]];
    rewrite E.
  - split; [discriminate|]. intros H. apply retrieve_raised in H as [Hs _].
    rewrite strip_strip in Hs. contradiction.
  - rewrite Hr. split; intros H; injection H as -> ->; reflexivity.
  - rewrite Hr. split; discriminate.
Qed.

(** ** The index builder *)

Section Builder.

Import VectorStore.

Variable cell : Type.
Variable py_str : cell -> str.

Lemma str_eqb_eq (a b : str) : str_eqb a b = true <-> a = b.
Proof.
  unfold str_eqb. destruct (list_eq_dec N.eq_dec a b); split; auto.
  discriminate.
Qed.

Lemma sbind_done {A B : Type} (m : Job A) (f : A -> Job B) (tr tr1 : log)
    (a : A) :
  m tr = (Done a, tr1) -> sbind m f tr = f a tr1.
Proof. unfold sbind. now intros ->. Qed.

Lemma sbind_failed {A B : Type} (m : Job A) (f : A -> Job B) (tr tr1 : log)
    (e : store_exn) :
  m tr = (Failed e, tr1) -> sbind m f tr = (Failed e, tr1).
Proof. unfold sbind. now intros ->. Qed.

Lemma position_some (label : str) (labels : list str) :
  In label labels ->
  exists i, position label labels = Some i /\ (i < List.length labels)%nat.
Proof.
  induction labels as [|l labels IH]; simpl; [contradiction|].
  intros H. destruct (str_eqb l label) eqn:E.
  - exists O. split; [reflexivity | lia].
  - destruct H as [H|H]; [apply str_eqb_eq in H; congruence|].
    destruct (IH H) as (i & -> & Hi). exists (Datatypes.S i).
    split; [reflexivity | lia].
Qed.

Lemma position_in (label : str) (labels : list str) (i : nat) :
  position label labels = Some i -> In label labels.
Proof.
  revert i. induction labels as [|l labels IH]; simpl; intros i;
    [discriminate|].
  destruct (str_eqb l label) eqn:E.
  - intros _. left. now apply str_eqb_eq.
  - destruct (position label labels) as [j|]; [|discriminate].
    intros _. right. now apply (IH j).
Qed.

Lemma existsb_str_eqb (c : str) (labels : list str) :
  existsb (str_eqb c) labels = true <-> In c labels.
Proof.
  rewrite existsb_exists. split.
  - intros (x & Hx & E). apply str_eqb_eq in E. now subst.
  - intros H. exists c. split; [exact H | now apply str_eqb_eq].
Qed.

(** What [row[label]] gives on a row. *)
Lemma row_get_done (labels : list str) (row : list cell) (label : str)
    (tr : log) (c : cell) :
  (exists i, position label labels = Some i /\ nth_error row i = Some c)
  -> row_get cell labels row label tr = (Done c, tr).
Proof.
  intros (i & Hp & Hn). unfold row_get. now rewrite Hp, Hn.
Qed.

Lemma row_get_cases (labels : list str) (row : list cell) (label : str)
    (tr : log) :
  (exists i c, position label labels = Some i /\ nth_error row i = Some c
               /\ row_get cell labels row label tr = (Done c, tr))
  \/ row_get cell labels row label tr = (Failed (KeyError label), tr).
Proof.
  unfold row_get. destruct (position label labels) as [i|] eqn:Hp.
  - destruct (nth_error row i) as [c|] eqn:Hn.
    + left. exists i, c. auto.
    + right. reflexivity.
  - right. reflexivity.
Qed.

Lemma rectangular_row_get (labels : list str) (row : list cell) (label : str) :
  List.length row = List.length labels ->
  In label labels ->
  exists i c, position label labels = Some i /\ nth_error row i = Some c.
Proof.
  intros Hl Hin. destruct (position_some label labels Hin) as (i & Hp & Hi).
  destruct (nth_error row i) as [c|] eqn:Hn.
  - exists i, c. auto.
  - apply nth_error_None in Hn. lia.
Qed.

(** [df[label]] reads one cell per row and logs nothing. *)
Lemma column_cases (labels : list str) (rs : list (list cell)) (label : str)
    (tr : log) :
  (exists i cs,
      position label labels = Some i
      /\ Forall2 (fun row c => nth_error row i = Some c) rs cs
      /\ column cell labels rs label tr = (Done cs, tr))
  \/ column cell labels rs label tr = (Failed (KeyError label), tr).
Proof.
  induction rs as [|row rs IH]; simpl.
  - unfold sbind, expect. destruct (position label labels) as [i|].
    + left. exists i, []. repeat split. constructor.
    + right. reflexivity.
  - destruct (row_get_cases labels row label tr)
      as [(i & c & Hp & Hn & E) | E].
    + rewrite (sbind_done _ _ _ _ _ E).
      destruct IH as [(j & cs & Hq & HF & Ec) | Ec].
      * left. exists i, (c :: cs). rewrite (sbind_done _ _ _ _ _ Ec).
        repeat split; [exact Hp|]. constructor; [exact Hn|].
        rewrite Hp in Hq. injection Hq as <-. exact HF.
      * right. now rewrite (sbind_failed _ _ _ _ _ Ec).
    + right. now rewrite (sbind_failed _ _ _ _ _ E).
Qed.

Lemma field_of_lookup (df : DataFrame cell) (row : list cell) (label : str)
    (i : nat) (c : cell) :
  position label (columns cell df) = Some i ->
  nth_error row i = Some c ->
  field cell py_str df row label = Some (py_str c).
Proof. intros Hp Hn. unfold field. now rewrite Hp, Hn. Qed.

Lemma drawn_app_uuid (tr : log) : drawn (tr ++ [Uuid4]) = Datatypes.S (drawn tr).
Proof.
  unfold drawn. rewrite filter_app, length_app. simpl. lia.
Qed.

Lemma drawn_app_other (tr : log) (c : store_call) :
  c <> Uuid4 -> drawn (tr ++ [c]) = drawn tr.
Proof.
  intros H. unfold drawn. rewrite filter_app, length_app.
  destruct c; simpl; try lia. congruence.
Qed.

(** The loop over the rows: one metadata and one fresh identifier per row,
    in row order, or a [KeyError]. *)
Lemma rows_loop_cases (w : World cell) (df : DataFrame cell)
    (rs : list (list cell)) (ms : list metadata) (ids : list str) (tr : log) :
  (exists metas,
      Forall2 (fun row meta => row_metadata py_str df row = Some meta) rs metas
      /\ rows_loop cell py_str w (columns cell df) rs ms ids tr
         = (Done (ms ++ metas,
                  ids ++ map (uuid4 cell w) (seq (drawn tr) (List.length rs))),
            tr ++ repeat Uuid4 (List.length rs)))
  \/ (exists label j,
        rows_loop cell py_str w (columns cell df) rs ms ids tr
        = (Failed (KeyError label), tr ++ repeat Uuid4 j)).
Proof.
  revert ms ids tr. induction rs as [|row rs IH]; intros ms ids tr.
  - left. exists []. simpl. rewrite !app_nil_r. split; [constructor | reflexivity].
  - cbn [rows_loop].
    destruct (row_get_cases (columns cell df) row (of_string "category") tr)
      as [(i1 & c1 & Hp1 & Hn1 & E1) | E1];
      [rewrite (sbind_done _ _ _ _ _ E1)
      | right; exists (of_string "category"), O;
        rewrite (sbind_failed _ _ _ _ _ E1); simpl; now rewrite app_nil_r].
    destruct (row_get_cases (columns cell df) row (of_string "date") tr)
      as [(i2 & c2 & Hp2 & Hn2 & E2) | E2];
      [rewrite (sbind_done _ _ _ _ _ E2)
      | right; exists (of_string "date"), O;
        rewrite (sbind_failed _ _ _ _ _ E2); simpl; now rewrite app_nil_r].
    destruct (row_get_cases (columns cell df) row (of_string "link") tr)
      as [(i3 & c3 & Hp3 & Hn3 & E3) | E3];
      [rewrite (sbind_done _ _ _ _ _ E3)
      | right; exists (of_string "link"), O;
        rewrite (sbind_failed _ _ _ _ _ E3); simpl; now rewrite app_nil_r].
    unfold sbind at 1, next_uuid. fold (drawn tr).
    set (meta := [(of_string "category", py_str c1);
                  (of_string "date", py_str c2);
                  (of_string "link", py_str c3)]).
    destruct (IH (ms ++ [meta]) (ids ++ [uuid4 cell w (drawn tr)])
                 (tr ++ [Uuid4]))
      as [(metas & HF & E) | (label & j & E)].
    + left. exists (meta :: metas). split.
      * constructor; [|exact HF]. unfold row_metadata.
        rewrite (field_of_lookup df row _ i1 c1 Hp1 Hn1),
                (field_of_lookup df row _ i2 c2 Hp2 Hn2),
                (field_of_lookup df row _ i3 c3 Hp3 Hn3).
        reflexivity.
      * etransitivity; [exact E|]. rewrite drawn_app_uuid. simpl.
        now rewrite <- !app_assoc.
    + right. exists label, (Datatypes.S j).
      etransitivity; [exact E|]. simpl. now rewrite <- app_assoc.
Qed.

Lemma call_guard (c : store_call) (ok : bool) (e : store_exn) (tr : log) :
  call c (guard ok) e tr
  = (if ok then Done tt else Failed e, tr ++ [c]).
Proof. unfold call, guard. now destruct ok. Qed.

Lemma swallow_call_guard (c : store_call) (ok : bool) (e : store_exn)
    (tr : log) :
  swallow (call c (guard ok) e) tr = (Done tt, tr ++ [c]).
Proof. unfold swallow. rewrite call_guard. now destruct ok. Qed.

Lemma drawn_opening (tr : log) (dir : str) :
  drawn (tr ++ opening_calls dir) = drawn tr.
Proof.
  unfold drawn, opening_calls. rewrite filter_app. simpl.
  now rewrite app_nil_r.
Qed.

(** Every way [build_chroma_collection] can end. *)
Lemma build_cases (w : World cell) (dir : str) (df : DataFrame cell)
    (tr : log) :
  let n := List.length (rows cell df) in
  let ids := map (uuid4 cell w) (seq (drawn tr) n) in
  (persistent_client cell w dir = false
   /\ build_chroma_collection cell py_str w dir df tr
      = (Failed ChromaError, tr ++ [NewPersistentClient dir]))
  \/ (create_collection cell w COLLECTION_NAME = false
      /\ build_chroma_collection cell py_str w dir df tr
         = (Failed ChromaError, tr ++ opening_calls dir))
  \/ (exists label j,
        (column cell (columns cell df) (rows cell df) (of_string "text")
                (tr ++ opening_calls dir)
         = (Failed (KeyError label), tr ++ opening_calls dir)
         \/ rows_loop cell py_str w (columns cell df) (rows cell df) [] []
                      (tr ++ opening_calls dir)
            = (Failed (KeyError label),
               (tr ++ opening_calls dir) ++ repeat Uuid4 j))
        /\ build_chroma_collection cell py_str w dir df tr
           = (Failed (KeyError label),
              tr ++ opening_calls dir ++ repeat Uuid4 j))
  \/ (exists i cs metas,
        position (of_string "text") (columns cell df) = Some i
        /\ Forall2 (fun row c => nth_error row i = Some c) (rows cell df) cs
        /\ Forall2 (fun row meta => row_metadata py_str df row = Some meta)
                   (rows cell df) metas
        /\ ((openai_client cell w = false
             /\ build_chroma_collection cell py_str w dir df tr
                = (Failed OpenAIError,
                   tr ++ opening_calls dir ++ repeat Uuid4 n
                      ++ [NewOpenAIClient]))
            \/ (create_embeddings cell w EMBEDDING_MODEL (map py_str cs) = None
                /\ build_chroma_collection cell py_str w dir df tr
                   = (Failed OpenAIError,
                      tr ++ opening_calls dir ++ repeat Uuid4 n
                         ++ [NewOpenAIClient;
                             CreateEmbeddings EMBEDDING_MODEL (map py_str cs)]))
            \/ (exists embeddings,
                  create_embeddings cell w EMBEDDING_MODEL (map py_str cs)
                  = Some embeddings
                  /\ build_chroma_collection cell py_str w dir df tr
                     = (if collection_add cell w (map py_str cs) metas ids
                                          embeddings
                        then (Done tt,
                              tr ++ opening_calls dir ++ repeat Uuid4 n
                                 ++ closing_calls dir (map py_str cs) metas ids
                                                  embeddings)
                        else (Failed ChromaError,
                              tr ++ opening_calls dir ++ repeat Uuid4 n
                                 ++ [NewOpenAIClient;
                                     CreateEmbeddings EMBEDDING_MODEL
                                                      (map py_str cs);
                                     CollectionAdd (map py_str cs) metas ids
                                                   embeddings]))))).
Proof.
  intros n ids.
  remember (build_chroma_collection cell py_str w dir df tr) as out eqn:E.
  unfold build_chroma_collection in E.
  unfold sbind at 1 in E. rewrite call_guard in E.
  destruct (persistent_client cell w dir) eqn:Hc; [|left; auto].
  cbv beta iota in E.
  unfold sbind at 1 in E. rewrite swallow_call_guard in E. cbv beta iota in E.
  unfold sbind at 1 in E. rewrite call_guard in E.
  assert (Hpre : ((tr ++ [NewPersistentClient dir])
                    ++ [DeleteCollection COLLECTION_NAME])
                   ++ [CreateCollection COLLECTION_NAME]
                 = tr ++ opening_calls dir)
    by (unfold opening_calls; now rewrite <- !app_assoc).
  rewrite Hpre in E.
  destruct (create_collection cell w COLLECTION_NAME) eqn:Hcr;
    [|right; left; auto].
  cbv beta iota in E. right; right.
  assert (Hassoc : forall l : log,
             (tr ++ opening_calls dir) ++ l = tr ++ opening_calls dir ++ l)
    by (intros l; now rewrite <- app_assoc).
  set (pre := tr ++ opening_calls dir) in *.
  destruct (column_cases (columns cell df) (rows cell df) (of_string "text") pre)
    as [(i & cs & Hp & HF & Ec) | Ec].
  2:{ left. exists (of_string "text"), O.
      rewrite (sbind_failed _ _ _ _ _ Ec) in E. rewrite <- Hassoc.
      simpl. rewrite app_nil_r.
      split; [left; exact Ec | exact E]. }
  rewrite (sbind_done _ _ _ _ _ Ec) in E.
  destruct (rows_loop_cases w df (rows cell df) [] [] pre)
    as [(metas & HM & El) | (label & j & El)].
  2:{ left. exists label, j.
      rewrite (sbind_failed _ _ _ _ _ El) in E. rewrite <- Hassoc.
      split; [right; exact El | exact E]. }
  rewrite (sbind_done _ _ _ _ _ El) in E. cbv beta iota in E.
  rewrite !app_nil_l in E.
  assert (Hd : drawn pre = drawn tr) by apply drawn_opening.
  rewrite Hd in E. fold n in E. fold ids in E.
  right. exists i, cs, metas.
  split; [exact Hp|]. split; [exact HF|]. split; [exact HM|].
  unfold sbind at 1 in E. rewrite call_guard in E.
  destruct (openai_client cell w) eqn:Ho.
  2:{ left. rewrite <- Hassoc, app_assoc. auto. }
  cbv beta iota in E. right.
  unfold sbind at 1, embed_texts, call at 1 in E.
  destruct (create_embeddings cell w EMBEDDING_MODEL (map py_str cs))
    as [embeddings|] eqn:He.
  2:{ left. split; [reflexivity|]. rewrite E, <- Hassoc.
      now rewrite <- !app_assoc. }
  cbv beta iota in E. right. exists embeddings. split; [reflexivity|].
  unfold sbind at 1 in E. rewrite call_guard in E.
  destruct (collection_add cell w (map py_str cs) metas ids embeddings).
  - rewrite E. unfold sbind, print, closing_calls.
    rewrite <- Hassoc. now rewrite <- !app_assoc.
  - rewrite E, <- Hassoc. now rewrite <- !app_assoc.
Qed.

(** ** The builder's checks and what it stores *)

Lemma load_data_cases (w : World cell) (path : str) (tr : log) :
  match read_csv cell w path with
  | inl reason =>
      load_data cell w path tr
      = (Failed (CsvError reason),
         tr ++ [ReadCsv path;
                Printed (of_string "Error loading CSV: " ++ reason)])
  | inr df =>
      load_data cell w path tr
      = (match filter (fun c => negb (existsb (str_eqb c) (columns cell df)))
                      REQUIRED_COLS with
         | [] => Done df
         | c :: missing => Failed (ValueError (c :: missing))
         end, tr ++ [ReadCsv path])
  end.
Proof.
  unfold load_data, sbind, REQUIRED_COLS.
  destruct (read_csv cell w path) as [reason|df]; [reflexivity|].
  now destruct (filter _ _).
Qed.

Lemma missing_spec (df : DataFrame cell) (c : str) :
  In c (filter (fun c => negb (existsb (str_eqb c) (columns cell df)))
               REQUIRED_COLS)
  <-> In c REQUIRED_COLS /\ ~ In c (columns cell df).
Proof.
  rewrite filter_In, negb_true_iff, <- not_true_iff_false, existsb_str_eqb.
  reflexivity.
Qed.

Lemma missing_nil_iff (df : DataFrame cell) :
  filter (fun c => negb (existsb (str_eqb c) (columns cell df))) REQUIRED_COLS
  = []
  <-> incl REQUIRED_COLS (columns cell df).
Proof.
  split.
  - intros H c Hc.
    destruct (existsb (str_eqb c) (columns cell df)) eqn:E;
      [now apply existsb_str_eqb|].
    assert (Hin : In c (filter (fun c => negb (existsb (str_eqb c)
                                                 (columns cell df)))
                               REQUIRED_COLS)).
    { apply filter_In. split; [exact Hc | now rewrite E]. }
    rewrite H in Hin. contradiction.
  - intros H. apply filter_none. intros c Hc.
    apply negb_false_iff, existsb_str_eqb, H, Hc.
Qed.

(** X14. [load_data] reads the file once.  It returns the frame, unchanged,
    exactly when [text], [category], [date] and [link] are all among its
    columns, whatever other columns there are; otherwise it raises a
    [ValueError] that names exactly the required columns that are
    missing. *)
Theorem load_data_checks_columns (w : World cell) (path : str) (tr : log)
    (df : DataFrame cell) :
  read_csv cell w path = inr df ->
  (incl REQUIRED_COLS (columns cell df) ->
   load_data cell w path tr = (Done df, tr ++ [ReadCsv path]))
  /\ (~ incl REQUIRED_COLS (columns cell df) ->
      exists missing,
        missing <> []
        /\ (forall c, In c missing
                      <-> In c REQUIRED_COLS /\ ~ In c (columns cell df))
        /\ load_data cell w path tr
           = (Failed (ValueError missing), tr ++ [ReadCsv path])).
Proof.
  intros Hr. pose proof (load_data_cases w path tr) as H. rewrite Hr in H.
  split; intros Hcols.
  - apply missing_nil_iff in Hcols. now rewrite Hcols in H.
  - destruct (filter (fun c => negb (existsb (str_eqb c) (columns cell df)))
                     REQUIRED_COLS) as [|c missing] eqn:E.
    + elim Hcols. now apply missing_nil_iff.
    + exists (c :: missing). split; [discriminate|]. split; [|exact H].
      intros x. rewrite <- E. apply missing_spec.
Qed.

Lemma column_total (labels : list str) (rs : list (list cell)) (label : str)
    (tr : log) (e : store_exn) (tr' : log) :
  In label labels ->
  Forall (fun row => List.length row = List.length labels) rs ->
  column cell labels rs label tr <> (Failed e, tr').
Proof.
  intros Hin Hrect. revert tr.
  induction Hrect as [|row rs Hrow Hrect IH]; intros tr; simpl.
  - destruct (position_some label labels Hin) as (i & Hp & _).
    unfold sbind, expect. rewrite Hp. discriminate.
  - destruct (rectangular_row_get labels row label Hrow Hin)
      as (i & c & Hp & Hn).
    rewrite (sbind_done _ _ _ _ _
               (row_get_done labels row label tr c
                  (ex_intro _ i (conj Hp Hn)))).
    unfold sbind. specialize (IH tr).
    destruct (column cell labels rs label tr) as [[cs|e'] t].
    + discriminate.
    + intros H. injection H as -> ->. now apply IH.
Qed.

Lemma rows_loop_total (w : World cell) (labels : list str)
    (rs : list (list cell)) (ms : list metadata) (ids : list str) (tr : log)
    (e : store_exn) (tr' : log) :
  incl REQUIRED_COLS labels ->
  Forall (fun row => List.length row = List.length labels) rs ->
  rows_loop cell py_str w labels rs ms ids tr <> (Failed e, tr').
Proof.
  intros Hcols Hrect. revert ms ids tr.
  induction Hrect as [|row rs Hrow Hrect IH]; intros ms ids tr.
  - discriminate.
  - cbn [rows_loop].
    assert (Hget : forall label, In label REQUIRED_COLS ->
              exists c, row_get cell labels row label tr = (Done c, tr)).
    { intros label Hl.
      destruct (rectangular_row_get labels row label Hrow (Hcols _ Hl))
        as (i & c & Hp & Hn).
      exists c. apply row_get_done. eauto. }
    destruct (Hget (of_string "category")) as (c1 & E1);
      [unfold REQUIRED_COLS; simpl; auto|].
    destruct (Hget (of_string "date")) as (c2 & E2);
      [unfold REQUIRED_COLS; simpl; auto|].
    destruct (Hget (of_string "link")) as (c3 & E3);
      [unfold REQUIRED_COLS; simpl; auto 6|].
    rewrite (sbind_done _ _ _ _ _ E1), (sbind_done _ _ _ _ _ E2),
            (sbind_done _ _ _ _ _ E3).
    unfold sbind at 1, next_uuid. apply IH.
Qed.

Lemma main_of_load (w : World cell) (path dir : str) (tr : log)
    (df : DataFrame cell) :
  load_data cell w path tr = (Done df, tr ++ [ReadCsv path]) ->
  main cell py_str w path dir tr
  = build_chroma_collection cell py_str w dir df (tr ++ [ReadCsv path]).
Proof. intros H. unfold main. now rewrite (sbind_done _ _ _ _ _ H). Qed.

(** How [main] gets to the build, or does not. *)
Lemma main_cases (w : World cell) (path dir : str) (tr : log) :
  (exists e new,
      (forall label, e <> KeyError label) /\ e <> OpenAIError
      /\ e <> ChromaError
      /\ main cell py_str w path dir tr = (Failed e, tr ++ new))
  \/ (exists df,
        read_csv cell w path = inr df
        /\ incl REQUIRED_COLS (columns cell df)
        /\ main cell py_str w path dir tr
           = build_chroma_collection cell py_str w dir df
               (tr ++ [ReadCsv path])).
Proof.
  pose proof (load_data_cases w path tr) as H.
  destruct (read_csv cell w path) as [reason|df] eqn:Hr.
  - left. eexists _, _. unfold main. rewrite (sbind_failed _ _ _ _ _ H).
    repeat split; discriminate.
  - destruct (filter (fun c => negb (existsb (str_eqb c) (columns cell df)))
                     REQUIRED_COLS) as [|c missing] eqn:E.
    + right. exists df. split; [reflexivity|].
      split; [now apply missing_nil_iff|]. now apply main_of_load.
    + left. eexists _, _. unfold main. rewrite (sbind_failed _ _ _ _ _ H).
      repeat split; discriminate.
Qed.

(** X15. On a frame with one cell per column in every row, [main] never
    fails with a [KeyError]: every column [build_chroma_collection] reads
    has been checked by [load_data]. *)
Theorem main_never_key_error (w : World cell) (path dir : str) (tr tr' : log)
    (df : DataFrame cell) (label : str) :
  read_csv cell w path = inr df ->
  rectangular cell df ->
  main cell py_str w path dir tr <> (Failed (KeyError label), tr').
Proof.
  intros Hr Hrect Hmain.
  destruct (main_cases w path dir tr)
    as [(e & new & Hk & _ & _ & E) | (df' & Hr' & Hcols & E)].
  - rewrite E in Hmain. injection Hmain as -> _. now apply (Hk label).
  - rewrite Hr in Hr'. injection Hr' as <-. rewrite E in Hmain.
    destruct (build_cases w dir df (tr ++ [ReadCsv path]))
      as [[_ B] | [[_ B] | [(l & j & [F|F] & B)
          | (i & cs & metas & _ & _ & _
             & [[_ B] | [[_ B] | (embs & _ & B)]])]]];
      rewrite B in Hmain; try discriminate.
    + apply (column_total _ _ _ _ _ _ (Hcols _ (or_introl eq_refl)) Hrect F).
    + apply (rows_loop_total _ _ _ _ _ _ _ _ Hcols Hrect F).
    + destruct (collection_add cell w _ _ _ _); discriminate.
Qed.

Lemma meta_get_stored (c d l : str) :
  let meta := [(of_string "category", c); (of_string "date", d);
               (of_string "link", l)] in
  meta_get meta (of_string "category") [] = c
  /\ meta_get meta (of_string "date") [] = d
  /\ meta_get meta (of_string "link") [] = l.
Proof.
  simpl. unfold str_eqb.
  repeat match goal with
         | |- context [list_eq_dec ?d ?a ?b] =>
             destruct (list_eq_dec d a b) as [E|E];
             [try discriminate E | try (now elim E)]
         end.
  auto.
Qed.

Lemma stored_as_of (df : DataFrame cell) (row : list cell) (i : nat)
    (c : cell) (meta : metadata) :
  position (of_string "text") (columns cell df) = Some i ->
  nth_error row i = Some c ->
  row_metadata py_str df row = Some meta ->
  stored_as py_str df row (py_str c) meta.
Proof.
  intros Hp Hn Hm dist. unfold row_metadata in Hm.
  destruct (field cell py_str df row (of_string "category")) as [vc|];
    [|discriminate].
  destruct (field cell py_str df row (of_string "date")) as [vd|];
    [|discriminate].
  destruct (field cell py_str df row (of_string "link")) as [vl|];
    [|discriminate].
  injection Hm as <-.
  destruct (meta_get_stored vc vd vl) as (Ec & Ed & El).
  cbv beta iota zeta delta [make_chunk text category date link score].
  split; [symmetry; exact (field_of_lookup df row _ i c Hp Hn)|].
  split; [exact (f_equal Some Ec)|].
  split; [exact (f_equal Some Ed)|].
  split; [exact (f_equal Some El) | reflexivity].
Qed.

Lemma Forall2_length_eq {A B : Type} (P : A -> B -> Prop) (la : list A)
    (lb : list B) :
  Forall2 P la lb -> List.length la = List.length lb.
Proof. induction 1; simpl; congruence. Qed.

Lemma stored_as_rows (df : DataFrame cell) (i : nat) (rs : list (list cell))
    (cs : list cell) (metas : list metadata) :
  position (of_string "text") (columns cell df) = Some i ->
  Forall2 (fun row c => nth_error row i = Some c) rs cs ->
  Forall2 (fun row meta => row_metadata py_str df row = Some meta) rs metas ->
  Forall2 (fun row dm => stored_as py_str df row (fst dm) (snd dm))
          rs (combine (map py_str cs) metas).
Proof.
  intros Hp HF. revert metas.
  induction HF as [|row c rs cs Hn HF IH]; intros metas HM;
    inversion HM as [|? meta ? metas' Hm HM']; subst; simpl.
  - constructor.
  - constructor; [|now apply IH].
    simpl. now apply (stored_as_of df row i c meta).
Qed.

(** X16. When [main] completes it has added the whole table in one
    [collection.add]: one document, one metadata and one identifier per
    row, in row order; the identifiers are the next ones drawn, one per
    row; the embeddings are those OpenAI gave for the documents; and a chunk
    built by the retriever from a stored document and metadata carries the
    row's own text, category, date and link. *)
Theorem main_stores_every_row (w : World cell) (path dir : str)
    (tr tr' : log) :
  main cell py_str w path dir tr = (Done tt, tr') ->
  exists df documents metadatas embeddings,
    let n := List.length (rows cell df) in
    let ids := map (uuid4 cell w) (seq (drawn tr) n) in
    read_csv cell w path = inr df
    /\ create_embeddings cell w EMBEDDING_MODEL documents = Some embeddings
    /\ tr' = tr ++ [ReadCsv path] ++ opening_calls dir ++ repeat Uuid4 n
                ++ closing_calls dir documents metadatas ids embeddings
    /\ List.length documents = n
    /\ List.length metadatas = n
    /\ Forall2 (fun row dm => stored_as py_str df row (fst dm) (snd dm))
               (rows cell df) (combine documents metadatas).
Proof.
  intros Hmain.
  destruct (main_cases w path dir tr)
    as [(e & new & _ & _ & _ & E) | (df & Hr & Hcols & E)];
    rewrite E in Hmain; [discriminate|].
  destruct (build_cases w dir df (tr ++ [ReadCsv path]))
    as [[_ B] | [[_ B] | [(l & j & _ & B)
        | (i & cs & metas & Hp & HF & HM
           & [[_ B] | [[_ B] | (embs & He & B)]])]]];
    rewrite B in Hmain; try discriminate.
  destruct (collection_add cell w _ _ _ _); [|discriminate].
  injection Hmain as <-.
  exists df, (map py_str cs), metas, embs. cbv zeta.
  assert (Hd : drawn (tr ++ [ReadCsv path]) = drawn tr)
    by (apply drawn_app_other; discriminate).
  rewrite Hd. rewrite <- !app_assoc.
  split; [exact Hr|]. split; [exact He|]. split; [reflexivity|].
  split; [rewrite length_map; symmetry; exact (Forall2_length_eq _ _ _ HF)|].
  split; [symmetry; exact (Forall2_length_eq _ _ _ HM)|].
  exact (stored_as_rows df i _ cs metas Hp HF HM).
Qed.

Lemma sbind_ext {A B : Type} (m1 m2 : Job A) (f1 f2 : A -> Job B) (tr : log) :
  (forall t, m1 t = m2 t) ->
  (forall a t, f1 a t = f2 a t) ->
  sbind m1 f1 tr = sbind m2 f2 tr.
Proof.
  intros Hm Hf. unfold sbind. rewrite Hm.
  destruct (m2 tr) as [[a|e] t]; [apply Hf | reflexivity].
Qed.

Lemma rows_loop_with_delete (w : World cell) (answer : str -> bool)
    (labels : list str) (rs : list (list cell)) (ms : list metadata)
    (ids : list str) (tr : log) :
  rows_loop cell py_str (with_delete cell w answer) labels rs ms ids tr
  = rows_loop cell py_str w labels rs ms ids tr.
Proof.
  revert ms ids tr. induction rs as [|row rs IH]; intros ms ids tr;
    [reflexivity|].
  cbn [rows_loop].
  repeat (apply sbind_ext; [reflexivity | intros ? ?]).
  apply IH.
Qed.

(** X17. Whether the old collection could be deleted makes no difference:
    [main] makes the same calls and ends the same way whatever
    [delete_collection] answers. *)
Theorem main_ignores_delete_failure (w : World cell) (answer : str -> bool)
    (path dir : str) (tr : log) :
  main cell py_str (with_delete cell w answer) path dir tr
  = main cell py_str w path dir tr.
Proof.
  unfold main. apply sbind_ext; [reflexivity|]. intros df t.
  unfold build_chroma_collection.
  apply sbind_ext; [reflexivity|]. intros _ t1.
  apply sbind_ext; [intros t'; now rewrite !swallow_call_guard|]. intros _ t2.
  apply sbind_ext; [reflexivity|]. intros _ t3.
  apply sbind_ext; [reflexivity|]. intros cs t4.
  apply sbind_ext; [intros t'; apply rows_loop_with_delete|].
  intros [metas ids] t5. reflexivity.
Qed.

(** X18. The rebuild is not atomic.  When [main] fails with an OpenAI
    error, on creating the client or on the embedding request, the old
    collection has already been dropped and an empty one created, and
    nothing has been added to it. *)
Theorem main_openai_failure_leaves_empty_collection (w : World cell)
    (path dir : str) (tr tr' : log) :
  main cell py_str w path dir tr = (Failed OpenAIError, tr') ->
  exists before after,
    tr' = tr ++ before
             ++ [DeleteCollection COLLECTION_NAME;
                 CreateCollection COLLECTION_NAME]
             ++ after
    /\ nothing_added after.
Proof.
  intros Hmain.
  destruct (main_cases w path dir tr)
    as [(e & new & _ & Ho & _ & E) | (df & Hr & Hcols & E)];
    rewrite E in Hmain; [injection Hmain as -> _; now elim Ho|].
  assert (Hrep : forall n, nothing_added (repeat Uuid4 n)).
  { intros n d m i e H. apply repeat_spec in H. discriminate. }
  destruct (build_cases w dir df (tr ++ [ReadCsv path]))
    as [[_ B] | [[_ B] | [(l & j & _ & B)
        | (i & cs & metas & Hp & HF & HM
           & [[_ B] | [[_ B] | (embs & He & B)]])]]];
    rewrite B in Hmain; try discriminate.
  - injection Hmain as <-.
    exists [ReadCsv path; NewPersistentClient dir],
           (repeat Uuid4 (List.length (rows cell df)) ++ [NewOpenAIClient]).
    split; [unfold opening_calls; now rewrite <- !app_assoc|].
    intros d m ids e H. apply in_app_or in H as [H|[H|[]]];
      [exact (Hrep _ d m ids e H) | discriminate].
  - injection Hmain as <-.
    exists [ReadCsv path; NewPersistentClient dir],
           (repeat Uuid4 (List.length (rows cell df))
            ++ [NewOpenAIClient;
                CreateEmbeddings EMBEDDING_MODEL (map py_str cs)]).
    split; [unfold opening_calls; now rewrite <- !app_assoc|].
    intros d m ids e H. apply in_app_or in H as [H|[H|[H|[]]]];
      [exact (Hrep _ d m ids e H) | discriminate | discriminate].
  - destruct (collection_add cell w _ _ _ _); discriminate.
Qed.

End Builder.

(** ** The further properties on the scenarios *)

Import MoreExamples.

Lemma retrieve_closed_form_witness :
  strip hi <> []
  /\ exists s,
       retrieve scenario_A hi 4 (25 # 100) []
       = (Returned (firstn (effective_top_k hi) s), calls_of scenario_A hi)
       /\ Permutation s (eligible (effective_threshold hi (25 # 100))
                                  (rows_of scenario_A hi))
       /\ (nan_free (candidates (rows_of scenario_A hi))
           \/ passing (effective_threshold hi (25 # 100))
                      (rows_of scenario_A hi) <> [] ->
           non_increasing s
           /\ forall x,
                with_score x s
                = with_score x (eligible (effective_threshold hi (25 # 100))
                                         (rows_of scenario_A hi))).
Proof.
  assert (Hs : strip hi <> []) by (vm_compute; discriminate).
  assert (Hf : fetch_rows scenario_A hi (effective_top_k hi) []
               = (Returned (rows_of scenario_A hi), calls_of scenario_A hi))
    by (vm_compute; reflexivity).
  split; [exact Hs|].
  exact (retrieve_closed_form scenario_A hi 4 (25 # 100) [] _ _
           Hs Hf).
Defined.

Lemma retrieve_keeps_the_best_witness :
  nan_free (candidates (rows_of scenario_A hi))
  /\ exists rest,
       Permutation (result_of scenario_A hi 4 (25 # 100) ++ rest)
                   (candidates (rows_of scenario_A hi))
       /\ forall c d, In c (result_of scenario_A hi 4 (25 # 100)) ->
                      In d rest -> flt (score c) (score d) = false.
Proof.
  assert (Hf : fetch_rows scenario_A hi (effective_top_k hi) []
               = (Returned (rows_of scenario_A hi), calls_of scenario_A hi))
    by (vm_compute; reflexivity).
  assert (Hr : retrieve scenario_A hi 4 (25 # 100) []
               = (Returned (result_of scenario_A hi 4 (25 # 100)),
                  calls_of scenario_A hi))
    by (vm_compute; reflexivity).
  assert (Hn : nan_free (candidates (rows_of scenario_A hi))) by no_nan.
  split; [exact Hn|].
  destruct (retrieve_keeps_the_best scenario_A hi 4 (25 # 100) [] _ _ _
              Hf Hr) as (rest & Hperm & Hdom).
  exists rest. split; [exact Hperm | exact (Hdom (or_introl Hn))].
Defined.

Lemma retrieve_empty_iff_none_at_floor_witness :
  strip hi <> []
  /\ exists r,
       retrieve only_nan hi 4 (25 # 100) [] = (Returned r, calls_of only_nan hi)
       /\ (r = []
           <-> Forall (fun c => fle (- (55 # 100)) (score c) = false)
                      (candidates (rows_of only_nan hi))).
Proof.
  assert (Hs : strip hi <> []) by (vm_compute; discriminate).
  assert (Hf : fetch_rows only_nan hi (effective_top_k hi) []
               = (Returned (rows_of only_nan hi), calls_of only_nan hi))
    by (vm_compute; reflexivity).
  split; [exact Hs|].
  exact (retrieve_empty_iff_none_at_floor only_nan hi 4 (25 # 100) [] _ _
           Hs Hf).
Defined.


Lemma retrieve_best_first_witness :
  retrieve scenario_A hi 4 (25 # 100) []
  = (Returned (top_A :: others_A), calls_of scenario_A hi)
  /\ nan_free (candidates (rows_of scenario_A hi))
  /\ Forall (fun c => flt (score top_A) (score c) = false)
            (candidates (rows_of scenario_A hi)).
Proof.
  assert (Hf : fetch_rows scenario_A hi (effective_top_k hi) []
               = (Returned (rows_of scenario_A hi), calls_of scenario_A hi))
    by (vm_compute; reflexivity).
  assert (Hr : retrieve scenario_A hi 4 (25 # 100) []
               = (Returned (top_A :: others_A), calls_of scenario_A hi))
    by (vm_compute; reflexivity).
  assert (Hn : nan_free (candidates (rows_of scenario_A hi))) by no_nan.
  split; [exact Hr|]. split; [exact Hn|].
  exact (retrieve_best_first scenario_A hi 4 (25 # 100) [] _ _ _ _
           Hf Hr (or_introl Hn)).
Defined.


Lemma retrieve_makes_five_calls_witness :
  strip hi <> []
  /\ exists query_vec,
       calls_of scenario_A hi
       = [] ++ [NewOpenAI;
                NewPersistentClient (Effects.persist_dir scenario_A);
                GetCollection COLLECTION_NAME;
                EmbeddingsCreate EMBEDDING_MODEL [hi];
                CollectionQuery [query_vec]
                  (if is_single_word hi then 12 else 6) INCLUDE].
Proof.
  assert (Hs : strip hi <> []) by (vm_compute; discriminate).
  assert (Hr : retrieve scenario_A hi 4 (25 # 100) []
               = (Returned (result_of scenario_A hi 4 (25 # 100)),
                  calls_of scenario_A hi))
    by (vm_compute; reflexivity).
  split; [exact Hs|].
  exact (retrieve_makes_five_calls scenario_A hi 4 (25 # 100) [] _ _
           Hs Hr).
Defined.

Lemma retrieve_stops_at_first_failure_witness :
  strip hi <> []
  /\ retrieve no_openai hi 4 (25 # 100) []
     = (Raised EmbedderFailure, [] ++ [NewOpenAI])
  /\ retrieve no_chroma_client hi 4 (25 # 100) []
     = (Raised VectorIndexFailure,
        [] ++ [NewOpenAI;
               NewPersistentClient (Effects.persist_dir no_chroma_client)])
  /\ retrieve no_collection hi 4 (25 # 100) []
     = (Raised VectorIndexFailure,
        [] ++ [NewOpenAI;
               NewPersistentClient (Effects.persist_dir no_collection);
               GetCollection COLLECTION_NAME])
  /\ retrieve no_embedding hi 4 (25 # 100) []
     = (Raised EmbedderFailure,
        [] ++ [NewOpenAI;
               NewPersistentClient (Effects.persist_dir no_embedding);
               GetCollection COLLECTION_NAME;
               EmbeddingsCreate EMBEDDING_MODEL [hi]]).
Proof.
  assert (Hs : strip hi <> []) by (vm_compute; discriminate).
  assert (Hyes : Some tt <> @None unit) by discriminate.
  split; [exact Hs|].
  split;
    [exact (proj1 (retrieve_stops_at_first_failure
                     no_openai hi 4 (25 # 100) [] Hs) eq_refl)|].
  split;
    [exact (proj1 (proj2 (retrieve_stops_at_first_failure
                            no_chroma_client hi 4 (25 # 100) [] Hs))
                  Hyes eq_refl)|].
  split;
    [exact (proj1 (proj2 (proj2 (retrieve_stops_at_first_failure
                                   no_collection hi 4 (25 # 100) [] Hs)))
                  Hyes Hyes eq_refl)|].
  exact (proj1 (proj2 (proj2 (proj2 (retrieve_stops_at_first_failure
                                       no_embedding hi 4 (25 # 100) [] Hs))))
               Hyes Hyes Hyes eq_refl).
Defined.

Lemma retrieve_missing_key_is_empty_witness :
  retrieve no_distances hi 4 (25 # 100) []
  = (Returned (result_of no_distances hi 4 (25 # 100)),
     calls_of no_distances hi)
  /\ result_of no_distances hi 4 (25 # 100) = [].
Proof.
  assert (Hr : retrieve no_distances hi 4 (25 # 100) []
               = (Returned (result_of no_distances hi 4 (25 # 100)),
                  calls_of no_distances hi))
    by (vm_compute; reflexivity).
  assert (Hm : forall vecs n include res,
             collection_query no_distances vecs n include = Some res ->
             res_documents res = None \/ res_metadatas res = None
             \/ res_distances res = None).
  { intros vecs n include res H. right. right.
    simpl in H. injection H as <-. reflexivity. }
  split; [exact Hr|].
  exact (retrieve_missing_key_is_empty no_distances hi 4 (25 # 100) [] _ _
           Hm Hr).
Defined.

Lemma search_blank_query_witness :
  forallb isspace (App.or_empty (App.form_get form_blank (of_string "query")))
  = true
  /\ App.search scenario_A form_blank [NewOpenAI]
     = (Returned {| App.template_name := of_string "index.html";
                    App.query_text := [];
                    App.results := [];
                    App.message := of_string "Please enter a non-empty query." |},
        [NewOpenAI]).
Proof.
  assert (H : forallb isspace
                (App.or_empty (App.form_get form_blank (of_string "query")))
              = true) by reflexivity.
  split; [exact H|].
  exact (search_blank_query scenario_A form_blank [NewOpenAI] H).
Defined.

Lemma search_page_is_ranked_witness :
  App.search scenario_A form_hi []
  = (Returned (page_of scenario_A form_hi), search_calls scenario_A form_hi)
  /\ map fst (App.results (page_of scenario_A form_hi))
     = seq 1 (List.length (App.results (page_of scenario_A form_hi)))
  /\ (List.length (App.results (page_of scenario_A form_hi)) <= 6)%nat
  /\ Forall (fun c => (- (55 # 100) <= score c)%F)
            (map snd (App.results (page_of scenario_A form_hi)))
  /\ (non_increasing (map snd (App.results (page_of scenario_A form_hi)))
      \/ exists rows,
           fetch_rows scenario_A (App.query_text (page_of scenario_A form_hi))
             (effective_top_k (App.query_text (page_of scenario_A form_hi))) []
           = (Returned rows, search_calls scenario_A form_hi)
           /\ passing (effective_threshold
                         (App.query_text (page_of scenario_A form_hi))
                         (25 # 100)) rows = []
           /\ Exists (fun c => score c = NaN) (candidates rows)).
Proof.
  assert (H : App.search scenario_A form_hi []
              = (Returned (page_of scenario_A form_hi),
                 search_calls scenario_A form_hi))
    by (vm_compute; reflexivity).
  split; [exact H|].
  exact (search_page_is_ranked scenario_A form_hi [] _ _ H).
Defined.

Lemma search_runs_one_retrieval_witness :
  strip (App.or_empty (App.form_get form_hi (of_string "query"))) <> []
  /\ App.query_text (page_of scenario_A form_hi) = hi
  /\ retrieve scenario_A (App.query_text (page_of scenario_A form_hi)) 4
              (25 # 100) []
     = (Returned (map snd (App.results (page_of scenario_A form_hi))),
        search_calls scenario_A form_hi).
Proof.
  assert (Hq : strip (App.or_empty (App.form_get form_hi (of_string "query")))
               <> [])
    by (vm_compute; discriminate).
  assert (H : App.search scenario_A form_hi []
              = (Returned (page_of scenario_A form_hi),
                 search_calls scenario_A form_hi))
    by (vm_compute; reflexivity).
  split; [exact Hq|].
  destruct (search_runs_one_retrieval scenario_A form_hi [] _ _ Hq H)
    as (Ht & Hr & _).
  split; [|exact Hr].
  rewrite Ht. vm_compute. reflexivity.
Defined.

Lemma search_propagates_failure_witness :
  retrieve no_collection
    (strip (App.or_empty (App.form_get form_hi (of_string "query"))))
    DEFAULT_TOP_K DEFAULT_SIMILARITY_THRESHOLD []
  = (Raised VectorIndexFailure,
     [NewOpenAI; NewPersistentClient (Effects.persist_dir no_collection);
      GetCollection COLLECTION_NAME])
  /\ App.search no_collection form_hi []
     = (Raised VectorIndexFailure,
        [NewOpenAI; NewPersistentClient (Effects.persist_dir no_collection);
         GetCollection COLLECTION_NAME]).
Proof.
  assert (H : retrieve no_collection
                (strip (App.or_empty (App.form_get form_hi (of_string "query"))))
                DEFAULT_TOP_K DEFAULT_SIMILARITY_THRESHOLD []
              = (Raised VectorIndexFailure,
                 [NewOpenAI;
                  NewPersistentClient (Effects.persist_dir no_collection);
                  GetCollection COLLECTION_NAME]))
    by (vm_compute; reflexivity).
  split; [exact H|].
  exact (proj2 (search_propagates_failure no_collection form_hi [] _ _) H).
Defined.

Lemma load_data_checks_columns_witness :
  (incl REQUIRED_COLS (VectorStore.columns str table)
   /\ VectorStore.load_data str (world_of table) csv_path []
      = (VectorStore.Done table, [] ++ [VectorStore.ReadCsv csv_path]))
  /\ (~ incl REQUIRED_COLS (VectorStore.columns str short_table)
      /\ exists missing,
           missing <> []
           /\ (forall c, In c missing
                         <-> In c REQUIRED_COLS
                             /\ ~ In c (VectorStore.columns str short_table))
           /\ VectorStore.load_data str (world_of short_table) csv_path []
              = (VectorStore.Failed (VectorStore.ValueError missing),
                 [] ++ [VectorStore.ReadCsv csv_path])).
Proof.
  assert (H1 : VectorStore.read_csv str (world_of table) csv_path = inr table)
    by reflexivity.
  assert (H2 : VectorStore.read_csv str (world_of short_table) csv_path
               = inr short_table)
    by reflexivity.
  assert (Hin : incl REQUIRED_COLS (VectorStore.columns str table)).
  { intros c Hc. vm_compute in Hc. vm_compute.
    repeat (destruct Hc as [<-|Hc]; [tauto|]). contradiction. }
  assert (Hout : ~ incl REQUIRED_COLS (VectorStore.columns str short_table)).
  { intros H. specialize (H (of_string "date")).
    vm_compute in H.
    assert (Hd : False); [|exact Hd].
    destruct H as [H|[H|[]]]; [tauto | discriminate H | discriminate H]. }
  split.
  - split; [exact Hin|].
    exact (proj1 (load_data_checks_columns str (world_of table) csv_path []
                    table H1) Hin).
  - split; [exact Hout|].
    exact (proj2 (load_data_checks_columns str (world_of short_table) csv_path
                    [] short_table H2) Hout).
Defined.

Lemma main_never_key_error_witness :
  VectorStore.rectangular str table
  /\ VectorStore.main str (fun s => s) (world_of table) csv_path persist_dir []
     <> (VectorStore.Failed (VectorStore.KeyError (of_string "date")), []).
Proof.
  assert (Hr : VectorStore.read_csv str (world_of table) csv_path = inr table)
    by reflexivity.
  assert (Hrect : VectorStore.rectangular str table)
    by (repeat constructor).
  split; [exact Hrect|].
  exact (main_never_key_error str (fun s => s) (world_of table) csv_path
           persist_dir [] [] table (of_string "date") Hr Hrect).
Defined.

Lemma main_stores_every_row_witness :
  VectorStore.main str (fun s => s) (world_of table) csv_path persist_dir []
  = (VectorStore.Done tt, main_log (world_of table))
  /\ exists df documents metadatas embeddings,
       VectorStore.read_csv str (world_of table) csv_path = inr df
       /\ VectorStore.create_embeddings str (world_of table) EMBEDDING_MODEL
            documents = Some embeddings
       /\ main_log (world_of table)
          = [] ++ [VectorStore.ReadCsv csv_path] ++ opening_calls persist_dir
               ++ repeat VectorStore.Uuid4
                    (List.length (VectorStore.rows str df))
               ++ closing_calls persist_dir documents metadatas
                    (map (VectorStore.uuid4 str (world_of table))
                         (seq (drawn [])
                              (List.length (VectorStore.rows str df))))
                    embeddings
       /\ List.length documents = List.length (VectorStore.rows str df)
       /\ List.length metadatas = List.length (VectorStore.rows str df)
       /\ Forall2 (fun row dm =>
                     stored_as (fun s => s) df row (fst dm) (snd dm))
                  (VectorStore.rows str df) (combine documents metadatas).
Proof.
  assert (H : VectorStore.main str (fun s => s) (world_of table) csv_path
                persist_dir []
              = (VectorStore.Done tt, main_log (world_of table)))
    by (vm_compute; reflexivity).
  split; [exact H|].
  exact (main_stores_every_row str (fun s => s) (world_of table) csv_path
           persist_dir [] _ H).
Defined.

Lemma main_openai_failure_leaves_empty_collection_witness :
  VectorStore.main str (fun s => s) world_without_embeddings csv_path
    persist_dir []
  = (VectorStore.Failed VectorStore.OpenAIError,
     main_log world_without_embeddings)
  /\ exists before after,
       main_log world_without_embeddings
       = [] ++ before
            ++ [VectorStore.DeleteCollection COLLECTION_NAME;
                VectorStore.CreateCollection COLLECTION_NAME]
            ++ after
       /\ nothing_added after.
Proof.
  assert (H : VectorStore.main str (fun s => s) world_without_embeddings
                csv_path persist_dir []
              = (VectorStore.Failed VectorStore.OpenAIError,
                 main_log world_without_embeddings))
    by (vm_compute; reflexivity).
  split; [exact H|].
  exact (main_openai_failure_leaves_empty_collection str (fun s => s)
           world_without_embeddings csv_path persist_dir [] _ H).
Defined.
